(** * SmartAC server: telemetry ingestion, status registry and history queries

    A shallow embedding of the two Express servers of the repository
    (the current one with status, history and the detections timeout, and
    the earlier [server/index.ts]), followed by the properties that the
    specification states about them.

    JavaScript numbers are IEEE-754 binary64 values; they are modelled
    bit-exactly by [spec_float] with [prec = 53] and [emax = 1024], and all
    arithmetic goes through the correctly rounded operations of
    [SpecFloat].  Strings are [string]s, one [ascii] per code unit. *)

From Stdlib Require Import ZArith Lia Bool List Ascii String.
From Stdlib Require Import Strings.Byte.
From Stdlib Require Import Floats.SpecFloat.
From stdpp Require Import base gmap strings list.
Open Scope Z_scope.
Set Warnings "-register-all".

(** ** JavaScript numbers *)

Definition number := spec_float.
Definition prec : Z := 53.
Definition emax : Z := 1024.

Definition NaN : number := S754_nan.
Definition Infinity : number := S754_infinity false.
Definition neg_Infinity : number := S754_infinity true.
Definition pos_zero : number := S754_zero false.

(** The Number value of an integer (exact below 2^53, rounded to nearest,
    ties to even, above). *)
Definition number_of_Z (z : Z) : number := binary_normalize prec emax z 0 false.

(** [isNaN], the comparison operators (all false on NaN) and the
    arithmetic operators used by the servers. *)
Definition isNaN (x : number) : bool :=
  match x with S754_nan => true | _ => false end.

Definition num_lt (x y : number) : bool := SFltb x y.
Definition num_gt (x y : number) : bool := SFltb y x.
Definition num_le (x y : number) : bool := SFleb x y.
Definition num_ge (x y : number) : bool := SFleb y x.
Definition num_div (x y : number) : number := SFdiv prec emax x y.
Definition num_sub (x y : number) : number := SFsub prec emax x y.
Definition num_mul (x y : number) : number := SFmul prec emax x y.

(** A number that the runtime can hold: canonical mantissa and exponent. *)
Definition is_double (x : number) : bool := valid_binary prec emax x.

Definition is_finite (x : number) : bool :=
  match x with
  | S754_zero _ | S754_finite _ _ _ => true
  | _ => false
  end.

(** [Math.max] and [Math.min] as ECMAScript defines them: a fold over the
    arguments that starts at -Infinity (resp. +Infinity), answers NaN as
    soon as an argument is NaN, and orders +0 above -0. *)
Definition max_step (highest : option number) (x : number) : option number :=
  match highest with
  | None => None
  | Some h =>
      if isNaN x then None
      else match x, h with
           | S754_zero false, S754_zero true => Some x
           | _, _ => if num_gt x h then Some x else Some h
           end
  end.

Definition Math_max (args : list number) : number :=
  match fold_left max_step args (Some neg_Infinity) with
  | Some h => h
  | None => NaN
  end.

Definition min_step (lowest : option number) (x : number) : option number :=
  match lowest with
  | None => None
  | Some l =>
      if isNaN x then None
      else match x, l with
           | S754_zero true, S754_zero false => Some x
           | _, _ => if num_lt x l then Some x else Some l
           end
  end.

Definition Math_min (args : list number) : number :=
  match fold_left min_step args (Some Infinity) with
  | Some l => l
  | None => NaN
  end.

(** ** ActuationPolicy: [populationToFanPower] *)

Definition populationToFanPower (population : number) : number :=
  if isNaN population then NaN
  else
    let maxPopulation := number_of_Z 2 in
    let clampedPopulation :=
      Math_min [Math_max [population; number_of_Z 0]; maxPopulation] in
    num_div clampedPopulation maxPopulation.

(** ** JavaScript strings *)

Definition char_code (c : ascii) : Z := Z.of_N (N_of_ascii c).

Definition is_digit (c : ascii) : bool :=
  (48 <=? char_code c) && (char_code c <=? 57).

(** White space and line terminators of ECMAScript that fit in one byte:
    TAB, LF, VT, FF, CR, SP and NBSP. *)
Definition is_white_space (c : ascii) : bool :=
  ((9 <=? char_code c) && (char_code c <=? 13))
  || (char_code c =? 32) || (char_code c =? 160).

(** Every character of [s] satisfies [p]. *)
Fixpoint all_chars (p : ascii -> bool) (s : string) : bool :=
  match s with
  | EmptyString => true
  | String c r => p c && all_chars p r
  end.

Fixpoint trimStart (s : string) : string :=
  match s with
  | EmptyString => EmptyString
  | String c r => if is_white_space c then trimStart r else s
  end.

Fixpoint trimEnd (s : string) : string :=
  match s with
  | EmptyString => EmptyString
  | String c r =>
      match trimEnd r with
      | EmptyString => if is_white_space c then EmptyString else String c EmptyString
      | r' => String c r'
      end
  end.

(** [String.prototype.trim] *)
Definition trim (s : string) : string := trimEnd (trimStart s).

(** [s.split(sep)] for a one-character separator: never the empty list. *)
Fixpoint split (sep : ascii) (s : string) : list string :=
  match s with
  | EmptyString => [EmptyString]
  | String c r =>
      if Ascii.eqb c sep then EmptyString :: split sep r
      else match split sep r with
           | h :: t => String c h :: t
           | [] => [String c EmptyString]
           end
  end.

(** [xs.join(sep)] *)
Fixpoint join (sep : string) (xs : list string) : string :=
  match xs with
  | [] => EmptyString
  | [x] => x
  | x :: rest => x +:+ sep +:+ join sep rest
  end.

(** [s.includes(needle)] *)
Fixpoint includes (needle s : string) : bool :=
  String.prefix needle s ||
  match s with
  | EmptyString => false
  | String _ r => includes needle r
  end.

Fixpoint str_drop (n : nat) (s : string) : string :=
  match n, s with
  | O, _ => s
  | S n', String _ r => str_drop n' r
  | S _, EmptyString => EmptyString
  end.

(** *** Decimal literals *)

(** The longest run of decimal digits at the front, and what follows. *)
Fixpoint take_digits (s : string) : string * string :=
  match s with
  | String c r =>
      if is_digit c then let '(ds, rest) := take_digits r in (String c ds, rest)
      else (EmptyString, s)
  | EmptyString => (EmptyString, EmptyString)
  end.

Fixpoint digits_value_from (acc : Z) (ds : string) : Z :=
  match ds with
  | EmptyString => acc
  | String c r => digits_value_from (10 * acc + (char_code c - 48)) r
  end.

Definition digits_value (ds : string) : Z := digits_value_from 0 ds.

Definition str_length (s : string) : Z := Z.of_nat (String.length s).

(** The Number value of [mant * 10^exp] with sign [neg]: the quotient of
    two integers, rounded once to the nearest double, ties to even. *)
Definition number_of_decimal (neg : bool) (mant exp : Z) : number :=
  match mant with
  | Zpos m =>
      if 0 <=? exp
      then SFdiv prec emax (S754_finite neg (m * Z.to_pos (10 ^ exp)) 0)
                           (S754_finite false 1 0)
      else SFdiv prec emax (S754_finite neg m 0)
                           (S754_finite false (Z.to_pos (10 ^ (- exp))) 0)
  | _ => S754_zero neg
  end.

(** A scanned literal: [Infinity], or digits with a decimal exponent. *)
Inductive literal :=
| LitInfinity
| LitDecimal (mant exp : Z).

Definition literal_value (neg : bool) (l : literal) : number :=
  match l with
  | LitInfinity => S754_infinity neg
  | LitDecimal mant exp => number_of_decimal neg mant exp
  end.

Definition scan_sign (s : string) : bool * string :=
  match s with
  | String "+"%char r => (false, r)
  | String "-"%char r => (true, r)
  | _ => (false, s)
  end.

(** ExponentPart, when one is there: [e] or [E], an optional sign and at
    least one digit; otherwise nothing is consumed. *)
Definition scan_exponent (s : string) : Z * string :=
  match s with
  | String c r =>
      if Ascii.eqb c "e"%char || Ascii.eqb c "E"%char then
        let '(neg, r1) := scan_sign r in
        let '(ds, r2) := take_digits r1 in
        match ds with
        | EmptyString => (0, s)
        | _ => ((if neg then - digits_value ds else digits_value ds), r2)
        end
      else (0, s)
  | EmptyString => (0, s)
  end.

(** The longest prefix that is a StrUnsignedDecimalLiteral. *)
Definition scan_unsigned (s : string) : option (literal * string) :=
  if String.prefix "Infinity" s then Some (LitInfinity, str_drop 8 s)
  else
    let '(int, r) := take_digits s in
    match r with
    | String "."%char r1 =>
        let '(frac, r2) := take_digits r1 in
        match int, frac with
        | EmptyString, EmptyString => None
        | _, _ =>
            let '(x, r3) := scan_exponent r2 in
            Some (LitDecimal (digits_value (int +:+ frac)) (x - str_length frac), r3)
        end
    | _ =>
        match int with
        | EmptyString => None
        | _ => let '(x, r3) := scan_exponent r in
               Some (LitDecimal (digits_value int) x, r3)
        end
    end.

(** [parseFloat]: skip leading white space, read the longest prefix that
    is a StrDecimalLiteral, NaN when there is none. *)
Definition parseFloat (s : string) : number :=
  let '(neg, r) := scan_sign (trimStart s) in
  match scan_unsigned r with
  | Some (l, _) => literal_value neg l
  | None => NaN
  end.

(** *** Number::toString *)

Definition digit_char (d : Z) : ascii := ascii_of_N (Z.to_N (48 + d)).

Fixpoint decimal_digits_fuel (fuel : nat) (z : Z) (acc : string) : string :=
  match fuel with
  | O => acc
  | S f =>
      let acc' := String (digit_char (z mod 10)) acc in
      if z <? 10 then acc' else decimal_digits_fuel f (z / 10) acc'
  end.

(** The decimal digits of a non-negative integer, without leading zeros. *)
Definition decimal_digits (z : Z) : string :=
  decimal_digits_fuel (S (Z.to_nat (Z.log2 z))) z EmptyString.

Fixpoint zeros (n : nat) : string :=
  match n with
  | O => EmptyString
  | S n' => String "0"%char (zeros n')
  end.

Fixpoint str_take (n : nat) (s : string) : string :=
  match n, s with
  | O, _ => EmptyString
  | S n', String c r => String c (str_take n' r)
  | S _, EmptyString => EmptyString
  end.

(** Structural equality of two doubles (distinguishes +0 from -0). *)
Definition same_number (x y : number) : bool :=
  match x, y with
  | S754_zero a, S754_zero b => Bool.eqb a b
  | S754_infinity a, S754_infinity b => Bool.eqb a b
  | S754_nan, S754_nan => true
  | S754_finite a m e, S754_finite b m' e' =>
      Bool.eqb a b && Pos.eqb m m' && Z.eqb e e'
  | _, _ => false
  end.

(** The least [j] with [num * 10^j >= den]. *)
Fixpoint decimal_shift (fuel : nat) (num den j : Z) : Z :=
  match fuel with
  | O => j
  | S f => if den <=? num then j else decimal_shift f (10 * num) den (j + 1)
  end.

(** The decimal exponent [n] of [num/den]: [10^(n-1) <= num/den < 10^n]. *)
Definition decimal_exponent (num den : Z) : Z :=
  if den <=? num then str_length (decimal_digits (num / den))
  else 1 - decimal_shift (S (Z.to_nat (Z.log2 den))) (10 * num) den 1.

(** The candidates with [k] digits for the double [m * 2^e]: the decimal
    just below and the one just above, each kept only if it reads back as
    the same double; of two that do, the closer one, the even one on a
    tie. *)
Definition shortest_with (m : positive) (e : Z) (num den n : Z) (k : Z)
  : option (Z * Z) :=
  let E := n - k in
  let '(q, r) := if E <=? 0 then Z.div_eucl (num * 10 ^ (- E)) den
                 else Z.div_eucl num (den * 10 ^ E) in
  let scale := if E <=? 0 then den else den * 10 ^ E in
  let lo := (q, E) in
  let hi := if q + 1 <? 10 ^ k then (q + 1, E) else (10 ^ (k - 1), E + 1) in
  let reads '(s, x) := same_number (number_of_decimal false s x) (S754_finite false m e) in
  match reads lo, reads hi with
  | true, true =>
      match 2 * r ?= scale with
      | Lt => Some lo
      | Gt => Some hi
      | Eq => if Z.even q then Some lo else Some hi
      end
  | true, false => Some lo
  | false, true => Some hi
  | false, false => None
  end.

Fixpoint shortest_search (m : positive) (e : Z) (num den n : Z)
                         (ks : list Z) : option (Z * Z) :=
  match ks with
  | [] => None
  | k :: rest =>
      match shortest_with m e num den n k with
      | Some d => Some d
      | None => shortest_search m e num den n rest
      end
  end.

(** The digits [s] and decimal exponent [x] printed for [m * 2^e]: the
    shortest decimal [s * 10^x] that reads back as the same double.
    Seventeen digits always suffice for a double; the exact decimal
    expansion closes the definition. *)
Definition shortest_decimal (m : positive) (e : Z) : Z * Z :=
  let num := if 0 <=? e then Zpos m * 2 ^ e else Zpos m in
  let den := if 0 <=? e then 1 else 2 ^ (- e) in
  let n := decimal_exponent num den in
  match shortest_search m e num den n
          [1; 2; 3; 4; 5; 6; 7; 8; 9; 10; 11; 12; 13; 14; 15; 16; 17] with
  | Some d => d
  | None => if 0 <=? e then (Zpos m * 2 ^ e, 0) else (Zpos m * 5 ^ (- e), e)
  end.

(** The notation of ECMAScript for [k] digits [ds] and decimal point
    position [n] (value [0.ds * 10^n]). *)
Definition format_decimal (s x : Z) : string :=
  let ds := decimal_digits s in
  let k := str_length ds in
  let n := x + k in
  if (-6 <? n) && (n <=? 21) then
    if k <=? n then ds +:+ zeros (Z.to_nat (n - k))
    else if 0 <? n then str_take (Z.to_nat n) ds +:+ "." +:+ str_drop (Z.to_nat n) ds
    else "0." +:+ zeros (Z.to_nat (- n)) +:+ ds
  else
    let ex := n - 1 in
    let exs := (if 0 <=? ex then "+" else "-") +:+ decimal_digits (Z.abs ex) in
    if k =? 1 then ds +:+ "e" +:+ exs
    else str_take 1 ds +:+ "." +:+ str_drop 1 ds +:+ "e" +:+ exs.

Definition Number_toString (x : number) : string :=
  match x with
  | S754_nan => "NaN"
  | S754_zero _ => "0"
  | S754_infinity s => (if s then "-" else "") +:+ "Infinity"
  | S754_finite s m e =>
      let '(d, x) := shortest_decimal m e in
      (if s then "-" else "") +:+ format_decimal d x
  end.

(** ** Buffers: 32-bit little-endian floats *)

Definition byte_value (b : Byte.byte) : Z := Z.of_N (Byte.to_N b).

Definition byte_of_Z (z : Z) : Byte.byte :=
  match Byte.of_N (Z.to_N (z mod 256)) with
  | Some b => b
  | None => Byte.x00
  end.

(** The double that holds the binary32 value with bit pattern [w]. *)
Definition float32_of_bits (w : Z) : number :=
  let sign := Z.testbit w 31 in
  let biased := (w / 2 ^ 23) mod 256 in
  let frac := w mod 2 ^ 23 in
  let signed (m : Z) := if sign then - m else m in
  if biased =? 255 then (if frac =? 0 then S754_infinity sign else NaN)
  else if biased =? 0 then binary_normalize prec emax (signed frac) (-149) sign
  else binary_normalize prec emax (signed (2 ^ 23 + frac)) (biased - 150) sign.

(** The unsigned 32-bit integer stored in four bytes, least significant
    byte first. *)
Definition uint32_le (b0 b1 b2 b3 : Byte.byte) : Z :=
  byte_value b0 + 2 ^ 8 * byte_value b1
  + 2 ^ 16 * byte_value b2 + 2 ^ 24 * byte_value b3.

(** [buf.readFloatLE(offset)]: out of range when fewer than four bytes
    are left (Node throws). *)
Definition readFloatLE (buf : list Byte.byte) (offset : nat) : option number :=
  match skipn offset buf with
  | b0 :: b1 :: b2 :: b3 :: _ => Some (float32_of_bits (uint32_le b0 b1 b2 b3))
  | _ => None
  end.

(** Rounding a double to binary32 (nearest, ties to even; overflow gives
    an infinity). *)
Definition to_float32 (x : number) : spec_float :=
  match x with
  | S754_finite s m e => binary_round 24 128 s m e
  | _ => x
  end.

Definition bits_of_float32 (f : spec_float) : Z :=
  let sign_bit (s : bool) := if s then 2 ^ 31 else 0 in
  match f with
  | S754_zero s => sign_bit s
  | S754_infinity s => sign_bit s + 255 * 2 ^ 23
  | S754_nan => 255 * 2 ^ 23 + 2 ^ 22
  | S754_finite s m e =>
      sign_bit s +
      (if 2 ^ 23 <=? Zpos m then (e + 150) * 2 ^ 23 + (Zpos m - 2 ^ 23)
       else Zpos m)
  end.

(** The four bytes that [buf.writeFloatLE(value, 0)] stores. *)
Definition writeFloatLE (value : number) : list Byte.byte :=
  let w := bits_of_float32 (to_float32 value) in
  [byte_of_Z w; byte_of_Z (w / 2 ^ 8); byte_of_Z (w / 2 ^ 16); byte_of_Z (w / 2 ^ 24)].

(** ** JSON text of numbers *)

(** [JSON.stringify] of a number: NaN and the infinities become [null]. *)
Definition JSON_stringify_number (x : number) : string :=
  if is_finite x then Number_toString x else "null".

Definition dquote : string := String (ascii_of_N 34) EmptyString.

Definition quoted (s : string) : string := dquote +:+ s +:+ dquote.

(** ** JavaScript values *)

(** A value that [JSON.parse] builds.  The members of an object are kept
    as the text lists them: a name that is listed twice holds its last
    value, at its first place. *)
Inductive json :=
| JNull
| JBool (b : bool)
| JNumber (n : number)
| JString (s : string)
| JArray (items : list json)
| JObject (props : list (string * json)).

(** Objects of the runtime that a member access reaches through the
    prototype chain: a built-in function, [Object.prototype] and
    [Array.prototype]. *)
Inductive builtin :=
| BuiltinFunction
| ObjectPrototype
| ArrayPrototype.

(** What a member access on a parsed body can give, [undefined] apart. *)
Inductive js_value :=
| Json (v : json)
| Builtin (b : builtin).

(** The body of a JSON request that passes [typeof body === "object"]:
    an object with its own members, or an array. *)
Inductive object_value :=
| PlainObject (members : gmap string json)
| ArrayObject (items : list json).

(** [{}] *)
#[global] Instance object_empty : Empty object_value := PlainObject ∅.

(** The own enumerable members: those of an object, the elements of an
    array under their indices. *)
Definition own_members (o : object_value) : gmap string json :=
  match o with
  | PlainObject members => members
  | ArrayObject items =>
      list_to_map (imap (λ i x, (decimal_digits (Z.of_nat i), x)) items)
  end.

(** [Object.keys] *)
#[global] Instance object_dom : Dom object_value (gset string) :=
  λ o, dom (own_members o).

(** The names of the function members of [Object.prototype], and of
    [Array.prototype] (ECMAScript 2023). *)
Definition Object_prototype_names : list string :=
  ["constructor"; "__defineGetter__"; "__defineSetter__"; "hasOwnProperty";
   "__lookupGetter__"; "__lookupSetter__"; "isPrototypeOf";
   "propertyIsEnumerable"; "toString"; "valueOf"; "toLocaleString"].

Definition Array_prototype_names : list string :=
  ["constructor"; "at"; "concat"; "copyWithin"; "fill"; "find"; "findIndex";
   "findLast"; "findLastIndex"; "lastIndexOf"; "pop"; "push"; "reverse";
   "shift"; "unshift"; "slice"; "sort"; "splice"; "includes"; "indexOf";
   "join"; "keys"; "entries"; "values"; "forEach"; "filter"; "flat";
   "flatMap"; "map"; "every"; "some"; "reduce"; "reduceRight"; "toReversed";
   "toSorted"; "toSpliced"; "with"; "toLocaleString"; "toString"].

Definition is_name_of (names : list string) (name : string) : bool :=
  existsb (String.eqb name) names.

(** A member that is found on [Object.prototype], for an object whose
    prototype is [proto]: [__proto__] is an accessor that answers the
    prototype itself, the other members are functions. *)
Definition Object_prototype_member (proto : builtin) (name : string)
  : option js_value :=
  if String.eqb name "__proto__" then Some (Builtin proto)
  else if is_name_of Object_prototype_names name then Some (Builtin BuiltinFunction)
  else None.

(** [object[name]]: an own member first, then the prototype chain; [None]
    is [undefined]. *)
Definition member (o : object_value) (name : string) : option js_value :=
  match own_members o !! name with
  | Some v => Some (Json v)
  | None =>
      match o with
      | PlainObject _ => Object_prototype_member ObjectPrototype name
      | ArrayObject items =>
          if String.eqb name "length"
          then Some (Json (JNumber (number_of_Z (Z.of_nat (length items)))))
          else if is_name_of Array_prototype_names name
          then Some (Builtin BuiltinFunction)
          else Object_prototype_member ArrayPrototype name
      end
  end.

(** [domains[domain] ?? NaN] *)
Definition population_of (domains : object_value) (domain : string) : js_value :=
  match member domains domain with
  | None | Some (Json JNull) => Json (JNumber NaN)
  | Some v => v
  end.

(** *** Conversion to a number *)

Definition digit_in_radix (radix : Z) (c : ascii) : option Z :=
  let n := char_code c in
  let d := if (48 <=? n) && (n <=? 57) then Some (n - 48)
           else if (97 <=? n) && (n <=? 102) then Some (n - 87)
           else if (65 <=? n) && (n <=? 70) then Some (n - 55)
           else None in
  match d with
  | Some v => if v <? radix then Some v else None
  | None => None
  end.

Fixpoint radix_value (radix acc : Z) (s : string) : option Z :=
  match s with
  | EmptyString => Some acc
  | String c r =>
      match digit_in_radix radix c with
      | Some d => radix_value radix (radix * acc + d) r
      | None => None
      end
  end.

(** A NonDecimalIntegerLiteral: [0x], [0o] or [0b] and at least one
    digit of the radix. *)
Definition non_decimal_literal (s : string) : option Z :=
  match s with
  | String "0"%char (String x (String c r)) =>
      let radix :=
        if Ascii.eqb x "x"%char || Ascii.eqb x "X"%char then Some 16
        else if Ascii.eqb x "o"%char || Ascii.eqb x "O"%char then Some 8
        else if Ascii.eqb x "b"%char || Ascii.eqb x "B"%char then Some 2
        else None in
      match radix with
      | Some n => radix_value n 0 (String c r)
      | None => None
      end
  | _ => None
  end.

(** StringToNumber: white space around the text is skipped; the empty
    text is 0; a text that is a numeric literal as a whole has its value;
    every other text is NaN. *)
Definition StringToNumber (s : string) : number :=
  match trim s with
  | EmptyString => S754_zero false
  | t =>
      match non_decimal_literal t with
      | Some z => number_of_Z z
      | None =>
          let '(neg, r) := scan_sign t in
          match scan_unsigned r with
          | Some (l, EmptyString) => literal_value neg l
          | _ => NaN
          end
      end
  end.

Definition has_own (name : string) (props : list (string * json)) : bool :=
  existsb (λ p, String.eqb p.1 name) props.

(** ToString of a parsed value; [None] when it throws.  An array is
    joined with commas, [null] elements as empty text; an object is
    [[object Object]], unless it has an own member [toString]: that
    member is no function, no other conversion gives a primitive, and the
    conversion throws a TypeError. *)
Fixpoint ToString_json (v : json) : option string :=
  match v with
  | JNull => Some "null"
  | JBool b => Some (if b then "true" else "false")
  | JNumber n => Some (Number_toString n)
  | JString s => Some s
  | JArray items =>
      (fix join_items (l : list json) : option string :=
         match l with
         | [] => Some EmptyString
         | x :: rest =>
             let first := match x with
                          | JNull => Some EmptyString
                          | _ => ToString_json x
                          end in
             match rest with
             | [] => first
             | _ => match first, join_items rest with
                    | Some a, Some b => Some (a +:+ "," +:+ b)
                    | _, _ => None
                    end
             end
         end) items
  | JObject props =>
      if has_own "toString" props then None else Some "[object Object]"
  end.

(** ToNumber; [None] when it throws. *)
Definition ToNumber_json (v : json) : option number :=
  match v with
  | JNull => Some (S754_zero false)
  | JBool b => Some (number_of_Z (if b then 1 else 0))
  | JNumber n => Some n
  | JString s => Some (StringToNumber s)
  | JArray _ | JObject _ => option_map StringToNumber (ToString_json v)
  end.

(** A function and [Object.prototype] convert to texts that are no
    numbers, [Array.prototype] to the empty text. *)
Definition ToNumber (v : js_value) : option number :=
  match v with
  | Json j => ToNumber_json j
  | Builtin BuiltinFunction => Some NaN
  | Builtin ObjectPrototype => Some NaN
  | Builtin ArrayPrototype => Some (S754_zero false)
  end.

(** [populationToFanPower(population)] for a population that need not be
    a number: [isNaN] and [Math.max] convert it with ToNumber, which
    throws for some objects ([None]). *)
Definition actuation (population : js_value) : option number :=
  option_map populationToFanPower (ToNumber population).

(** *** [JSON.stringify] *)

Definition backslash : ascii := ascii_of_N 92.

Definition hex_digit (d : Z) : ascii :=
  if d <? 10 then digit_char d else ascii_of_N (Z.to_N (87 + d)).

(** One code unit inside a JSON string. *)
Definition quote_char (c : ascii) : string :=
  let n := char_code c in
  if n =? 34 then String backslash dquote
  else if n =? 92 then String backslash (String backslash EmptyString)
  else if n =? 8 then String backslash "b"
  else if n =? 12 then String backslash "f"
  else if n =? 10 then String backslash "n"
  else if n =? 13 then String backslash "r"
  else if n =? 9 then String backslash "t"
  else if n <? 32
  then String backslash ("u00" +:+ String (hex_digit (n / 16))
                                   (String (hex_digit (n mod 16)) EmptyString))
  else String c EmptyString.

Fixpoint quote_chars (s : string) : string :=
  match s with
  | EmptyString => EmptyString
  | String c r => quote_char c +:+ quote_chars r
  end.

(** QuoteJSONString *)
Definition QuoteJSONString (s : string) : string :=
  dquote +:+ quote_chars s +:+ dquote.

(** An array index: the decimal digits of an integer below 2^32 - 1,
    without leading zeros. *)
Definition array_index (key : string) : option Z :=
  match key with
  | EmptyString => None
  | _ =>
      if all_chars is_digit key
         && String.eqb (decimal_digits (digits_value key)) key
         && (digits_value key <? 2 ^ 32 - 1)
      then Some (digits_value key) else None
  end.

(** The value a name ends up with when the members are listed in
    [props]: that of its last listing. *)
Fixpoint last_value {A : Type} (name : string) (props : list (string * A))
                    (found : A) : A :=
  match props with
  | [] => found
  | (k, x) :: rest =>
      last_value name rest (if String.eqb k name then x else found)
  end.

(** Each name once, at the place of its first listing. *)
Fixpoint first_places {A : Type} (seen : list string) (props : list (string * A))
  : list (string * A) :=
  match props with
  | [] => []
  | (k, x) :: rest =>
      if is_name_of seen k then first_places seen rest
      else (k, last_value k rest x) :: first_places (k :: seen) rest
  end.

Fixpoint insert_by_index {A : Type} (i : Z) (p : A) (l : list (Z * A))
  : list (Z * A) :=
  match l with
  | [] => [(i, p)]
  | (j, q) :: rest =>
      if i <? j then (i, p) :: l else (j, q) :: insert_by_index i p rest
  end.

(** The own members of an object in the order in which they are
    enumerated: array indices in ascending order, then the other names
    in the order of their creation. *)
Definition own_entries {A : Type} (props : list (string * A)) : list (string * A) :=
  let members := first_places [] props in
  let indexed :=
    foldr (λ p acc, match array_index p.1 with
                    | Some i => insert_by_index i p acc
                    | None => acc
                    end) [] members in
  map snd indexed
  ++ List.filter (λ p, match array_index p.1 with Some _ => false | None => true end)
                 members.

(** [JSON.stringify] of a parsed value. *)
Fixpoint JSON_stringify_json (v : json) : string :=
  match v with
  | JNull => "null"
  | JBool b => if b then "true" else "false"
  | JNumber n => JSON_stringify_number n
  | JString s => QuoteJSONString s
  | JArray items =>
      "[" +:+ join "," ((fix texts (l : list json) : list string :=
                           match l with
                           | [] => []
                           | x :: rest => JSON_stringify_json x :: texts rest
                           end) items) +:+ "]"
  | JObject props =>
      "{" +:+ join ","
                (map (λ p : string * string, QuoteJSONString p.1 +:+ ":" +:+ p.2)
                     (own_entries
                        ((fix texts (l : list (string * json))
                            : list (string * string) :=
                            match l with
                            | [] => []
                            | (k, x) :: rest =>
                                (k, JSON_stringify_json x) :: texts rest
                            end) props)))
      +:+ "}"
  end.

(** The text of a member with this value, when [JSON.stringify] writes
    one: a member whose value is a function is left out, and the
    prototype objects have no enumerable member of their own. *)
Definition JSON_stringify_member (v : js_value) : option string :=
  match v with
  | Json j => Some (JSON_stringify_json j)
  | Builtin BuiltinFunction => None
  | Builtin ObjectPrototype => Some "{}"
  | Builtin ArrayPrototype => Some "[]"
  end.

(** ** JSON text of a telemetry record *)

Record reading := {
  r_temperature : number;
  r_humidity : number;
  r_fan_rpm : number;
  r_population : js_value;
}.

(** [JSON.stringify({ temperature, humidity, fan_rpm, population })] *)
Definition JSON_stringify_reading (r : reading) : string :=
  "{" +:+ quoted "temperature" +:+ ":" +:+ JSON_stringify_number (r_temperature r)
  +:+ "," +:+ quoted "humidity" +:+ ":" +:+ JSON_stringify_number (r_humidity r)
  +:+ "," +:+ quoted "fan_rpm" +:+ ":" +:+ JSON_stringify_number (r_fan_rpm r)
  +:+ match JSON_stringify_member (r_population r) with
      | Some text => "," +:+ quoted "population" +:+ ":" +:+ text
      | None => EmptyString
      end
  +:+ "}".

(** ** File names *)

Definition is_filename_char (c : ascii) : bool :=
  let n := char_code c in
  ((97 <=? n) && (n <=? 122)) || ((65 <=? n) && (n <=? 90))
  || ((48 <=? n) && (n <=? 57)) || (n =? 95) || (n =? 45).

(** [name.replace(/[^a-z0-9_\-]/gi, "_")] *)
Fixpoint normalizeFilenameComponent (name : string) : string :=
  match name with
  | EmptyString => EmptyString
  | String c r =>
      String (if is_filename_char c then c else "_"%char)
             (normalizeFilenameComponent r)
  end.

(** The path of a domain's log under the data directory [var]. *)
Definition logFile (domain : string) : string :=
  "var/domain-" +:+ normalizeFilenameComponent domain +:+ ".log".

(** ** The server: state *)

(** The status of a domain; the telemetry fields are optional.  The
    population is whatever the population object gave: a number when the
    detections are counts. *)
Record Status := {
  population : js_value;
  fan_power : option number;
  temperature : option number;
  humidity : option number;
  fan_rpm : option number;
}.

(** A path of the file system: a regular file with its text, or something
    that exists and can be neither read nor appended to as a file (a
    directory, a file without permission). *)
Inductive file :=
| Readable (content : string)
| Unreadable.

(** The module-level variables of the server, the timers that are
    pending in the event loop (each runs the clearing callback at its
    deadline) and the files of the data directory.  [detectionsTimeout] is
    the Number, in milliseconds, given to [setTimeout]. *)
Record server := {
  detectionsTimeout : number;
  domains : object_value;
  status : gmap string Status;
  detectionsTimeoutHandle : option nat;
  timers : gmap nat Z;
  next_timer : nat;
  files : gmap string file;
}.

Definition initial_server (timeout : number) (fs : gmap string file) : server :=
  {| detectionsTimeout := timeout; domains := ∅; status := ∅;
     detectionsTimeoutHandle := None; timers := ∅; next_timer := 0%nat;
     files := fs |}.

(** The answers.  [Thrown] is an exception that leaves a handler: the
    default error handler of Express answers it with status 500. *)
Inductive response :=
| BadRequest (message : string)
| InternalServerError (message : string)
| OkEmpty
| OkOctets (body : list Byte.byte)
| OkJsonArray (items : list string)
| OkJsonStatus (record : gmap string Status)
| OkText (body : string)
| Thrown (error : string).

Definition status_code (r : response) : Z :=
  match r with
  | BadRequest _ => 400
  | InternalServerError _ => 500
  | Thrown _ => 500
  | _ => 200
  end.

(** ** Timers *)

(** The option of the command line, in seconds, as the start of the
    server turns it into [detectionsTimeout]. *)
Definition detectionsTimeout_of_option (seconds : string) : number :=
  num_mul (parseFloat seconds) (number_of_Z 1000).

Definition TIMEOUT_MAX : Z := 2 ^ 31 - 1.

(** The integer part of a number. *)
Definition truncate (x : number) : Z :=
  match x with
  | S754_finite s m e =>
      let magnitude := if 0 <=? e then Zpos m * 2 ^ e else Zpos m / 2 ^ (- e) in
      if s then - magnitude else magnitude
  | _ => 0
  end.

(** The delay that [setTimeout] of the runtime (Node.js) uses for the
    Number it is given: a delay that is not between 1 and [TIMEOUT_MAX],
    NaN included, is replaced by 1; a fraction of a millisecond is
    dropped. *)
Definition timer_delay (after : number) : Z :=
  if num_ge after (number_of_Z 1) && num_le after (number_of_Z TIMEOUT_MAX)
  then truncate after else 1.

(** The callback installed by [resetDetectionsTimeout], run for the
    pending timer [id]. *)
Definition fire_timer (id : nat) (st : server) : server :=
  {| detectionsTimeout := detectionsTimeout st;
     domains := ∅;
     status := ∅;
     detectionsTimeoutHandle := None;
     timers := delete id (timers st);
     next_timer := next_timer st;
     files := files st |}.

Definition due_timers (now : Z) (st : server) : list nat :=
  (map_to_list (filter (λ kv : nat * Z, kv.2 <= now) (timers st))).*1.

(** What the event loop does before it serves a request at time [now]:
    every pending timer whose deadline has passed runs. *)
Definition run_timers (now : Z) (st : server) : server :=
  foldr fire_timer st (due_timers now st).

Definition resetDetectionsTimeout (now : Z) (st : server) : server :=
  let pending :=
    match detectionsTimeoutHandle st with
    | Some h => delete h (timers st)
    | None => timers st
    end in
  {| detectionsTimeout := detectionsTimeout st;
     domains := domains st;
     status := status st;
     detectionsTimeoutHandle := Some (next_timer st);
     timers := <[next_timer st := now + timer_delay (detectionsTimeout st)]> pending;
     next_timer := S (next_timer st);
     files := files st |}.

(** ** POST /detections *)

(** The parsed body of the request: anything that is no object, or an
    object or array, whatever its members are. *)
Inductive detections_body :=
| NotAnObject
| ObjectBody (detections : object_value).

Record detections_request := {
  d_is_json : bool;
  d_content_type : option string;
  d_body : detections_body;
}.

(** The loop that deletes the status of every domain that is not a key
    of [domains]. *)
Definition prune_status (domainNames : gset string) (status : gmap string Status)
  : gmap string Status :=
  foldr (λ domain m, if decide (domain ∈ domainNames) then m else delete domain m)
        status (elements (dom status)).

Definition post_detections (now : Z) (req : detections_request) (st : server)
  : server * response :=
  if d_is_json req then
    match d_body req with
    | NotAnObject => (st, BadRequest "Bad Request: body must be a JSON object.")
    | ObjectBody detections =>
        let st1 :=
          {| detectionsTimeout := detectionsTimeout st;
             domains := detections;
             status := prune_status (dom detections) (status st);
             detectionsTimeoutHandle := detectionsTimeoutHandle st;
             timers := timers st;
             next_timer := next_timer st;
             files := files st |} in
        (resetDetectionsTimeout now st1, OkEmpty)
    end
  else
    (st, BadRequest ("Bad Request type "
                     +:+ default "undefined" (d_content_type req)
                     +:+ ", expected application/json.")).

(** ** POST /unit/:domain *)

Inductive request_body :=
| RawBuffer (bytes : list Byte.byte)
| OtherBody.

Record unit_request := {
  u_content_type : option string;
  u_body : request_body;
}.

(** [fs.appendFile]: creates the file when there is none; fails (the
    error is logged, nothing is written) on a path that is not a file.
    The call is asynchronous: the handler returns before the data is
    written.  The model performs the append when the handler returns,
    that is, it takes every append to have completed, in the order of
    the calls, before the next request is served. *)
Definition appendFile (path data : string) (fs : gmap string file)
  : gmap string file :=
  match fs !! path with
  | None => <[path := Readable data]> fs
  | Some (Readable content) => <[path := Readable (content +:+ data)]> fs
  | Some Unreadable => fs
  end.

Definition newline : string := String (ascii_of_N 10) EmptyString.

Definition log_line (timestamp : Z) (r : reading) : string :=
  join "," [Number_toString (number_of_Z timestamp); JSON_stringify_reading r].

Definition post_unit (now : Z) (domain_param : string) (req : unit_request)
                     (st : server) : server * response :=
  let timestamp := now in
  let domain := match domain_param with EmptyString => "default" | d => d end in
  let contentType := default "" (u_content_type req) in
  match u_body req with
  | RawBuffer body =>
      if includes "application/octet-stream" contentType
         && (12 <=? length body)%nat
      then
        match readFloatLE body 0, readFloatLE body 4, readFloatLE body 8 with
        | Some temperature, Some humidity, Some fan_rpm =>
            let population := population_of (domains st) domain in
            match actuation population with
            | Some power =>
                let entry :=
                  {| population := population; fan_power := Some power;
                     temperature := Some temperature; humidity := Some humidity;
                     fan_rpm := Some fan_rpm |} in
                let line :=
                  log_line timestamp
                    {| r_temperature := temperature; r_humidity := humidity;
                       r_fan_rpm := fan_rpm; r_population := population |} in
                ({| detectionsTimeout := detectionsTimeout st;
                    domains := domains st;
                    status := <[domain := entry]> (status st);
                    detectionsTimeoutHandle := detectionsTimeoutHandle st;
                    timers := timers st;
                    next_timer := next_timer st;
                    files := appendFile (logFile domain) (line +:+ newline)
                                        (files st) |},
                 OkOctets (writeFloatLE power))
            | None => (st, Thrown "TypeError")
            end
        | _, _, _ => (st, Thrown "RangeError")
        end
      else (st, BadRequest "Bad Request")
  | OtherBody => (st, BadRequest "Bad Request")
  end.

(** ** GET /status *)

(** The loop assigns [statusRecord[domain]] for every key of [domains].
    The record is a plain object and every value assigned is an object,
    so the assignment under the name [__proto__] sets the prototype of
    the record and leaves no member in it. *)
Definition get_status (st : server) : response :=
  OkJsonStatus
    (delete "__proto__"
       (map_imap (λ domain population,
            Some (default {| population := Json population; fan_power := None;
                             temperature := None; humidity := None;
                             fan_rpm := None |}
                          (status st !! domain)))
          (own_members (domains st)))).

(** ** GET /history/:domain *)

Record history_query := {
  startParam : option string;
  endParam : option string;
  stepParam : option string;
}.

(** A query parameter that is absent or the empty string is falsy. *)
Definition supplied (p : option string) : option string :=
  match p with
  | Some EmptyString => None
  | _ => p
  end.

Record history_params := {
  h_start : option number;
  h_end : number;
  h_step : number;
}.

(** Parsing and validation of the parameters: the answer of the first
    check that fails, or the three values. *)
Definition history_parameters (now : Z) (q : history_query)
  : response + history_params :=
  let start := option_map parseFloat (supplied (startParam q)) in
  let end_ := match supplied (endParam q) with
              | Some p => parseFloat p
              | None => num_div (number_of_Z now) (number_of_Z 1000)
              end in
  let step := match supplied (stepParam q) with
              | Some p => parseFloat p
              | None => number_of_Z 60
              end in
  if match start with Some s => isNaN s | None => false end
  then inl (BadRequest "Bad Request: invalid start timestamp")
  else if isNaN end_
  then inl (BadRequest "Bad Request: invalid end timestamp")
  else if isNaN step || num_le step (number_of_Z 0)
  then inl (BadRequest "Bad Request: invalid step (must be > 0)")
  else inr {| h_start := start; h_end := end_; h_step := step |}.

(** The variables of the filter loop. *)
Record scan := {
  result : list string;
  lastTime : number;
  firstMatchingLine : option string;
  lastMatchingLine : option string;
}.

Definition scan_start : scan :=
  {| result := []; lastTime := neg_Infinity;
     firstMatchingLine := None; lastMatchingLine := None |}.

(** The time of a line in seconds, when the line has at least two
    comma-separated parts. *)
Definition line_time (line : string) : option number :=
  let parts := split "," line in
  if (2 <=? length parts)%nat
  then Some (num_div (parseFloat (hd EmptyString parts)) (number_of_Z 1000))
  else None.

(** One turn of the loop over the lines. *)
Definition scan_line (p : history_params) (acc : scan) (line : string) : scan :=
  match line with
  | EmptyString => acc
  | _ =>
      match line_time line with
      | Some time =>
          if match h_start p with Some start => num_lt time start | None => false end
          then acc
          else if num_gt time (h_end p) then acc
          else
            let first := match firstMatchingLine acc with
                         | None => Some line
                         | f => f
                         end in
            if num_ge (num_sub time (lastTime acc)) (h_step p)
            then {| result := result acc ++ [line]; lastTime := time;
                    firstMatchingLine := first; lastMatchingLine := Some line |}
            else {| result := result acc; lastTime := lastTime acc;
                    firstMatchingLine := first; lastMatchingLine := Some line |}
      | None => acc
      end
  end.

(** [line !== other] for a string and a variable that may still be null. *)
Definition differs (line : string) (other : option string) : bool :=
  match other with
  | Some o => negb (String.eqb line o)
  | None => true
  end.

(** The lines sent: the first matching line, the sampled lines that
    differ from the first and the last, and the last matching line when it
    differs from the first. *)
Definition final_result (acc : scan) : list string :=
  match firstMatchingLine acc with Some first => [first] | None => [] end
  ++ filter (λ line, differs line (firstMatchingLine acc)
                     && differs line (lastMatchingLine acc) = true)
            (result acc)
  ++ match lastMatchingLine acc with
     | Some last => if differs last (firstMatchingLine acc) then [last] else []
     | None => []
     end.

(** The lines of a log file as the history handler reads them. *)
Definition log_lines (content : string) : list string :=
  split (ascii_of_N 10) (trim content).

Definition get_history (now : Z) (domain : string) (q : history_query)
                       (st : server) : response :=
  match history_parameters now q with
  | inl bad => bad
  | inr p =>
      match files st !! logFile domain with
      | None => OkJsonArray []
      | Some Unreadable => InternalServerError "Internal Server Error"
      | Some (Readable fileContent) =>
          let lines := log_lines fileContent in
          let acc := fold_left (scan_line p) lines scan_start in
          OkText (join newline (final_result acc))
      end
  end.

(** ** [JSON.parse] *)

(** White space of JSON: space, TAB, LF, CR. *)
Definition is_json_space (c : ascii) : bool :=
  (char_code c =? 32) || (char_code c =? 9) || (char_code c =? 10)
  || (char_code c =? 13).

Fixpoint skip_space (s : string) : string :=
  match s with
  | String c r => if is_json_space c then skip_space r else s
  | EmptyString => s
  end.

(** The parts of a JSON number: an optional minus, an integer part
    without leading zeros, an optional fraction and an optional exponent,
    each with at least one digit. *)
Definition json_minus (s : string) : bool * string :=
  match s with
  | String "-"%char r => (true, r)
  | _ => (false, s)
  end.

Definition json_fraction (s : string) : option (string * string) :=
  match s with
  | String "."%char r =>
      let '(frac, r') := take_digits r in
      match frac with
      | EmptyString => None
      | _ => Some (frac, r')
      end
  | _ => Some (EmptyString, s)
  end.

Definition json_exponent (s : string) : option (Z * string) :=
  match s with
  | String c r =>
      if Ascii.eqb c "e"%char || Ascii.eqb c "E"%char then
        let '(neg, r1) := scan_sign r in
        let '(ds, r2) := take_digits r1 in
        match ds with
        | EmptyString => None
        | _ => Some ((if neg then - digits_value ds else digits_value ds), r2)
        end
      else Some (0, s)
  | EmptyString => Some (0, s)
  end.

Definition parse_json_number (s : string) : option (number * string) :=
  let '(neg, r0) := json_minus s in
  let '(int, r1) := take_digits r0 in
  match int with
  | EmptyString => None
  | String c more =>
      if Ascii.eqb c "0"%char && negb (String.eqb more EmptyString) then None
      else
        match json_fraction r1 with
        | None => None
        | Some (frac, r2) =>
            match json_exponent r2 with
            | None => None
            | Some (x, r3) =>
                Some (number_of_decimal neg (digits_value (int +:+ frac))
                                        (x - str_length frac), r3)
            end
        end
  end.

Definition hex_value (c : ascii) : option Z :=
  let n := char_code c in
  if (48 <=? n) && (n <=? 57) then Some (n - 48)
  else if (97 <=? n) && (n <=? 102) then Some (n - 87)
  else if (65 <=? n) && (n <=? 70) then Some (n - 55)
  else None.

(** The characters of a JSON string up to its closing quote.  An escape
    [\uXXXX] above one byte has no character in this model and is
    refused. *)
Fixpoint parse_json_chars (s : string) : option (string * string) :=
  match s with
  | EmptyString => None
  | String c r =>
      if char_code c =? 34 then Some (EmptyString, r)
      else if char_code c <? 32 then None
      else if char_code c =? 92 then
        match r with
        | String e r' =>
            let continue (ch : ascii) (rest : string) :=
              match parse_json_chars rest with
              | Some (t, rest') => Some (String ch t, rest')
              | None => None
              end in
            if char_code e =? 34 then continue e r'
            else if char_code e =? 92 then continue e r'
            else if Ascii.eqb e "/"%char then continue e r'
            else if Ascii.eqb e "b"%char then continue (ascii_of_N 8) r'
            else if Ascii.eqb e "f"%char then continue (ascii_of_N 12) r'
            else if Ascii.eqb e "n"%char then continue (ascii_of_N 10) r'
            else if Ascii.eqb e "r"%char then continue (ascii_of_N 13) r'
            else if Ascii.eqb e "t"%char then continue (ascii_of_N 9) r'
            else if Ascii.eqb e "u"%char then
              match r' with
              | String h1 (String h2 (String h3 (String h4 r''))) =>
                  match hex_value h1, hex_value h2, hex_value h3, hex_value h4 with
                  | Some 0, Some 0, Some a, Some b =>
                      continue (ascii_of_N (Z.to_N (16 * a + b))) r''
                  | _, _, _, _ => None
                  end
              | _ => None
              end
            else None
        | EmptyString => None
        end
      else
        match parse_json_chars r with
        | Some (t, rest) => Some (String c t, rest)
        | None => None
        end
  end.

(** A JSON value at the front of [s] (white space before it skipped),
    and what follows it; the elements of an array after its opening
    bracket; the members of an object after its opening brace.  Every
    call spends one unit of [fuel] and reads at least one character, so
    the length of the text is always enough fuel. *)
Fixpoint parse_json_value (fuel : nat) (s : string) : option (json * string) :=
  match fuel with
  | O => None
  | S fuel' =>
      match skip_space s with
      | EmptyString => None
      | String c r =>
          if Ascii.eqb c "{"%char then
            match skip_space r with
            | String "}"%char r' => Some (JObject [], r')
            | _ => match parse_json_props fuel' r with
                   | Some (ps, r') => Some (JObject ps, r')
                   | None => None
                   end
            end
          else if Ascii.eqb c "["%char then
            match skip_space r with
            | String "]"%char r' => Some (JArray [], r')
            | _ => match parse_json_items fuel' r with
                   | Some (vs, r') => Some (JArray vs, r')
                   | None => None
                   end
            end
          else if char_code c =? 34 then
            match parse_json_chars r with
            | Some (t, r') => Some (JString t, r')
            | None => None
            end
          else if String.prefix "null" (String c r) then Some (JNull, str_drop 4 (String c r))
          else if String.prefix "true" (String c r) then Some (JBool true, str_drop 4 (String c r))
          else if String.prefix "false" (String c r) then Some (JBool false, str_drop 5 (String c r))
          else
            match parse_json_number (String c r) with
            | Some (n, r') => Some (JNumber n, r')
            | None => None
            end
      end
  end
with parse_json_items (fuel : nat) (s : string) : option (list json * string) :=
  match fuel with
  | O => None
  | S fuel' =>
      match parse_json_value fuel' s with
      | Some (v, r) =>
          match skip_space r with
          | String ","%char r' =>
              match parse_json_items fuel' r' with
              | Some (vs, r'') => Some (v :: vs, r'')
              | None => None
              end
          | String "]"%char r' => Some ([v], r')
          | _ => None
          end
      | None => None
      end
  end
with parse_json_props (fuel : nat) (s : string)
  : option (list (string * json) * string) :=
  match fuel with
  | O => None
  | S fuel' =>
      match skip_space s with
      | String q r0 =>
          if char_code q =? 34 then
            match parse_json_chars r0 with
            | Some (key, r1) =>
                match skip_space r1 with
                | String ":"%char r2 =>
                    match parse_json_value fuel' r2 with
                    | Some (v, r3) =>
                        match skip_space r3 with
                        | String ","%char r4 =>
                            match parse_json_props fuel' r4 with
                            | Some (ps, r5) => Some ((key, v) :: ps, r5)
                            | None => None
                            end
                        | String "}"%char r4 => Some ([(key, v)], r4)
                        | _ => None
                        end
                    | None => None
                    end
                | _ => None
                end
            | None => None
            end
          else None
      | EmptyString => None
      end
  end.

(** [JSON.parse]: one value, white space around it, nothing else. *)
Definition JSON_parse (text : string) : option json :=
  match parse_json_value (S (String.length text)) text with
  | Some (v, r) =>
      match skip_space r with
      | EmptyString => Some v
      | _ => None
      end
  | None => None
  end.

(** Property access [object[key]] on a parsed object: the last of the
    properties with that name. *)
Fixpoint json_get (key : string) (props : list (string * json)) : option json :=
  match props with
  | [] => None
  | (k, v) :: rest =>
      match json_get key rest with
      | Some v' => Some v'
      | None => if String.eqb k key then Some v else None
      end
  end.

(** The JSON object of a log line: the text after the first comma. *)
Fixpoint after_first_comma (line : string) : string :=
  match line with
  | EmptyString => EmptyString
  | String c r => if Ascii.eqb c ","%char then r else after_first_comma r
  end.

Definition line_record (line : string) : option json :=
  JSON_parse (after_first_comma line).

(** The value that a parsed record holds for a field. *)
Definition record_field (key : string) (v : option json) : option json :=
  match v with
  | Some (JObject props) => json_get key props
  | _ => None
  end.

(** ** The requests of the server and the event loop *)

Inductive request :=
| PostDetections (req : detections_request)
| PostUnit (domain : string) (req : unit_request)
| GetStatus
| GetHistory (domain : string) (q : history_query).

Definition handle (now : Z) (r : request) (st : server) : server * response :=
  match r with
  | PostDetections req => post_detections now req st
  | PostUnit domain req => post_unit now domain req st
  | GetStatus => (st, get_status st)
  | GetHistory domain q => (st, get_history now domain q st)
  end.

(** A request that arrives at time [now] is served after the timers that
    are due by then have run. *)
Definition serve (now : Z) (r : request) (st : server) : server * response :=
  handle now r (run_timers now st).

(** The state after a sequence of timed requests. *)
Definition run (events : list (Z * request)) (st : server) : server :=
  fold_left (λ s ev, (serve ev.1 ev.2 s).1) events st.

Definition is_detections_post (r : request) : bool :=
  match r with
  | PostDetections _ => true
  | _ => false
  end.

(** ** The earlier server ([server/index.ts]): POST /detections *)

Module Legacy.

Record detections_request := {
  d_is_json : bool;
  d_content_type : option string;
  d_body : json;
}.

(** [Object.entries] of a parsed body: the properties of an object, the
    indexed elements of an array. *)
Definition entries (v : json) : list (string * json) :=
  match v with
  | JObject props => props
  | JArray items => imap (λ i x, (decimal_digits (Z.of_nat i), x)) items
  | _ => []
  end.

(** One turn of the loop: a count that is a number [>= 0] is stored, any
    other is reported and skipped. *)
Definition record_count (domains : gmap string number) (entry : string * json)
  : gmap string number :=
  match entry.2 with
  | JNumber count => if num_ge count (number_of_Z 0)
                     then <[entry.1 := count]> domains else domains
  | _ => domains
  end.

(** [typeof v === "object" && v !== null] *)
Definition is_object (v : json) : bool :=
  match v with
  | JObject _ | JArray _ => true
  | _ => false
  end.

Definition post_detections (req : detections_request) (domains : gmap string number)
  : gmap string number * response :=
  if d_is_json req then
    if is_object (d_body req) then
      (fold_left record_count (entries (d_body req)) domains, OkEmpty)
    else (domains, BadRequest "Bad Request: body must be a JSON object.")
  else
    (domains, BadRequest ("Bad Request type "
                          +:+ default "undefined" (d_content_type req)
                          +:+ ", expected application/json.")).

End Legacy.

(** ** The history algorithm as the specification words it *)

(** A line is kept when it is not empty, has a time, is not before
    [start] (when given) and not after [end]. *)
Definition in_range (p : history_params) (line : string) : bool :=
  match line with
  | EmptyString => false
  | _ =>
      match line_time line with
      | Some time =>
          negb (match h_start p with Some start => num_lt time start | None => false end)
          && negb (num_gt time (h_end p))
      | None => false
      end
  end.

Definition matching_lines (p : history_params) (lines : list string) : list string :=
  List.filter (in_range p) lines.

(** Include a line if [time - lastIncludedTime >= step]. *)
Fixpoint downsample (step lastIncludedTime : number) (lines : list string)
  : list string :=
  match lines with
  | [] => []
  | line :: rest =>
      match line_time line with
      | Some time =>
          if num_ge (num_sub time lastIncludedTime) step
          then line :: downsample step time rest
          else downsample step lastIncludedTime rest
      | None => downsample step lastIncludedTime rest
      end
  end.

(** First matching line, then the downsampled lines that are no copy of
    the first or the last, then the last matching line if it differs. *)
Definition history_output (step : number) (matching : list string) : list string :=
  match matching with
  | [] => []
  | first :: _ =>
      let last_ := List.last matching first in
      [first]
      ++ List.filter (λ line, negb (String.eqb line first) && negb (String.eqb line last_))
                     (downsample step neg_Infinity matching)
      ++ (if String.eqb last_ first then [] else [last_])
  end.

(** The validation as the specification words it: the query is refused
    when [step] is not a number above 0, or a [start] or [end] that was
    supplied is not a finite number. *)
Definition spec_refuses (q : history_query) : bool :=
  let step := match stepParam q with
              | Some s => parseFloat s
              | None => number_of_Z 60
              end in
  let not_finite (param : option string) :=
    match param with
    | Some s => negb (is_finite (parseFloat s))
    | None => false
    end in
  negb (num_gt step (number_of_Z 0))
  || not_finite (startParam q) || not_finite (endParam q).

(** The validation that the handler applies: a parameter that is present
    and not empty is read by [parseFloat]; [start] and [end] are refused
    when that gives NaN, [step] when it gives NaN or a value [<= 0]. *)
Definition refused_parameter (test : number -> bool) (param : option string) : bool :=
  match supplied param with
  | Some s => test (parseFloat s)
  | None => false
  end.

Definition handler_refuses (q : history_query) : bool :=
  refused_parameter isNaN (startParam q)
  || refused_parameter isNaN (endParam q)
  || refused_parameter (λ x, isNaN x || num_le x (number_of_Z 0)) (stepParam q).

(** The payload test of the telemetry handler: a Buffer of at least 12
    bytes under a content type that mentions [application/octet-stream]. *)
Definition payload_accepted (req : unit_request) : bool :=
  match u_body req with
  | RawBuffer bytes =>
      includes "application/octet-stream" (default "" (u_content_type req))
      && (12 <=? length bytes)%nat
  | OtherBody => false
  end.

(** The domain a telemetry post is recorded under. *)
Definition unit_domain (domain_param : string) : string :=
  match domain_param with
  | EmptyString => "default"
  | d => d
  end.

(** ** The inactivity timer *)

(** [pending st id d]: the handle names timer [id], which is the only
    pending timer and is due at [d]. *)
Definition pending (st : server) (id : nat) (d : Z) : Prop :=
  detectionsTimeoutHandle st = Some id /\ timers st = {[ id := d ]}.

(** At most one timer is pending, and then the handle names it. *)
Definition timer_invariant (st : server) : Prop :=
  (detectionsTimeoutHandle st = None /\ timers st = ∅)
  \/ exists id d, pending st id d.

(** ** Predicates on strings used in the statements *)

(** [rest] does not go on with a digit. *)
Definition no_digit_ahead (rest : string) : bool :=
  match rest with
  | EmptyString => true
  | String c _ => negb (is_digit c)
  end.

(** The first character is a digit other than 0. *)
Definition leading_nonzero (s : string) : bool :=
  match s with
  | String c _ => (49 <=? char_code c) && (char_code c <=? 57)
  | EmptyString => false
  end.


(** [rest] does not go on with a character of a number. *)
Definition number_ends (rest : string) : bool :=
  match rest with
  | EmptyString => true
  | String c _ =>
      negb (is_digit c) && negb (Ascii.eqb c "."%char)
      && negb (Ascii.eqb c "e"%char) && negb (Ascii.eqb c "E"%char)
  end.

(** The text of a decimal literal: integer digits, fraction digits after
    a point (no point when there are none) and an exponent. *)
Definition exponent_text (ev : Z) : string :=
  "e" +:+ (if 0 <=? ev then "+" else "-") +:+ decimal_digits (Z.abs ev).

Definition literal_text (int frac : string) (ev : option Z) : string :=
  int
  +:+ match frac with EmptyString => EmptyString | _ => "." +:+ frac end
  +:+ match ev with Some v => exponent_text v | None => EmptyString end.

(** JSON has one zero: [-0] is written [0]. *)
Definition drop_zero_sign (x : number) : number :=
  match x with
  | S754_zero _ => S754_zero false
  | _ => x
  end.

(** What [JSON.parse] gives back for a number that went through
    [JSON.stringify]: the number itself when it is finite (the sign of
    zero apart), [null] for NaN and the infinities. *)
Definition json_of_number (x : number) : json :=
  if is_finite x then JNumber (drop_zero_sign x) else JNull.

(** [rest] goes on with a comma or a closing brace. *)
Definition member_ends (rest : string) : bool :=
  match rest with
  | String c _ => Ascii.eqb c ","%char || Ascii.eqb c "}"%char
  | EmptyString => false
  end.

(** A population whose member in a log line the theorems follow: a
    number that is a double, or one of the built-in objects that a name
    without a member of its own can reach (a function, or the prototype
    under the name [__proto__]). *)
Definition plain_population (v : js_value) : bool :=
  match v with
  | Json (JNumber n) => is_double n
  | Builtin _ => true
  | _ => false
  end.

(** What [JSON.parse] finds for the population in a line written for
    such a population: the number as [JSON.stringify] wrote it, no member
    for a function, an object or array without members for a prototype. *)
Definition json_of_population (v : js_value) : option json :=
  match v with
  | Json (JNumber n) => Some (json_of_number n)
  | Builtin ObjectPrototype => Some (JObject [])
  | Builtin ArrayPrototype => Some (JArray [])
  | _ => None
  end.

(** The object that [JSON.parse] builds from the JSON text of a reading
    with such a population. *)
Definition json_of_reading (r : reading) : json :=
  JObject ([("temperature", json_of_number (r_temperature r));
            ("humidity", json_of_number (r_humidity r));
            ("fan_rpm", json_of_number (r_fan_rpm r))]
           ++ match json_of_population (r_population r) with
              | Some p => [("population", p)]
              | None => []
              end).

(** The three readings are doubles and the population is a double or a
    built-in object. *)
Definition reading_is_double (r : reading) : bool :=
  is_double (r_temperature r) && is_double (r_humidity r)
  && is_double (r_fan_rpm r) && plain_population (r_population r).

(** The characters of a number as [Number::toString] and
    [JSON.stringify] write it: digits, point, exponent mark, signs and
    the letters of [Infinity], [NaN] and [null]. *)
Definition is_letter (c : ascii) : bool :=
  ((97 <=? char_code c) && (char_code c <=? 122))
  || ((65 <=? char_code c) && (char_code c <=? 90)).

Definition is_number_char (c : ascii) : bool :=
  is_digit c || Ascii.eqb c "."%char || Ascii.eqb c "+"%char
  || Ascii.eqb c "-"%char || is_letter c.

(** A character other than [sep]. *)
Definition is_not (sep : ascii) (c : ascii) : bool := negb (Ascii.eqb c sep).

(** [s] is not empty and [trimEnd] leaves it as it is. *)
Definition ends_plain (s : string) : Prop :=
  trimEnd s = s /\ s <> EmptyString.

(** The time in seconds of a post made at [now] milliseconds. *)
Definition seconds_of (now : Z) : number :=
  num_div (number_of_Z now) (number_of_Z 1000).

(** ** Examples used to instantiate the theorems *)

Definition example_log : string :=
  "0,{}" +:+ newline +:+ "10000,{}" +:+ newline +:+ "20000,{}" +:+ newline
  +:+ "30000,{}" +:+ newline +:+ "40000,{}" +:+ newline.


Definition example_query : history_query :=
  {| startParam := Some "0"; endParam := Some "40"; stepParam := Some "25" |}.


Definition example_server : server :=
  initial_server (number_of_Z 10000) {[ logFile "a" := Readable example_log ]}.


Definition example_unit_request : unit_request :=
  {| u_content_type := Some "application/octet-stream";
     u_body := RawBuffer [x00; x00; xbc; x41; x00; x00; x00; x00;
                          x00; x00; x00; x00] |}.


Definition example_detections : Legacy.detections_request :=
  {| Legacy.d_is_json := true; Legacy.d_content_type := Some "application/json";
     Legacy.d_body := JObject [("a", JNumber (number_of_Z 1));
                               ("b", JNumber (number_of_Z (-1)));
                               ("c", JString "many")] |}.


(** While no detections arrive, either the timer is still pending or it
    has run and the population map is empty. *)
Definition waiting (st : server) (id : nat) (d : Z) : Prop :=
  pending st id d
  \/ (detectionsTimeoutHandle st = None /\ timers st = ∅ /\ domains st = ∅).


Definition example_post : detections_request :=
  {| d_is_json := true; d_content_type := Some "application/json";
     d_body := ObjectBody (PlainObject {[ "a" := JNumber (number_of_Z 1) ]}) |}.


(** ** Status entries *)

(** The entry that [/status] shows for a domain without telemetry. *)
Definition population_only (p : json) : Status :=
  {| population := Json p; fan_power := None; temperature := None;
     humidity := None; fan_rpm := None |}.

(** The entry of a name in the record of [/status]: none for a name
    that is no own key of the population object, and none for
    [__proto__]. *)
Definition status_entry (st : server) (d : string) : option Status :=
  if decide (d = "__proto__") then None
  else match own_members (domains st) !! d with
       | Some p => Some (default (population_only p) (status st !! d))
       | None => None
       end.

(** An entry written by a telemetry post: every field is there, the
    readings are doubles and the fan power is the actuation of the
    recorded population. *)
Definition complete_entry (e : Status) : Prop :=
  fan_power e = actuation (population e) /\
  fan_power e <> None /\
  exists t h f,
    temperature e = Some t /\ humidity e = Some h /\ fan_rpm e = Some f /\
    is_double t = true /\ is_double h = true /\ is_double f = true.

(** A server that has seen detections for [a] and [b] and telemetry
    for [b]. *)
Definition example_two_domains : detections_request :=
  {| d_is_json := true; d_content_type := Some "application/json";
     d_body := ObjectBody (PlainObject {[ "a" := JNumber (number_of_Z 1);
                                          "b" := JNumber (number_of_Z 2) ]}) |}.

Definition example_busy_server : server :=
  run [(0, PostDetections example_two_domains);
       (1000, PostUnit "b" example_unit_request)]
      (initial_server (number_of_Z 10000) ∅).

(** What the telemetry post of [example_busy_server] stored for [b]. *)
Definition example_entry : Status :=
  {| population := Json (JNumber (number_of_Z 2));
     fan_power := Some (number_of_Z 1);
     temperature := Some (num_div (number_of_Z 47) (number_of_Z 2));
     humidity := Some (number_of_Z 0);
     fan_rpm := Some (number_of_Z 0) |}.

Definition example_recount : detections_request :=
  {| d_is_json := true; d_content_type := Some "application/json";
     d_body := ObjectBody (PlainObject {[ "b" := JNumber (number_of_Z 5) ]}) |}.

(** A detections post whose body is an array. *)
Definition example_items : list json :=
  [JNumber (number_of_Z 3); JString "many"].

Definition example_array_post : detections_request :=
  {| d_is_json := true; d_content_type := Some "application/json";
     d_body := ObjectBody (ArrayObject example_items) |}.

(** ** The data directory *)

(** [new] holds every file of [old] with nothing but text added at its
    end, what cannot be read stays so, and a path that is new is the log
    of a domain. *)
Definition extends (old new : gmap string file) : Prop :=
  forall path,
    match old !! path with
    | Some (Readable content) =>
        exists more, new !! path = Some (Readable (content +:+ more))
    | Some Unreadable => new !! path = Some Unreadable
    | None =>
        new !! path = None \/
        exists domain content,
          path = logFile domain /\ new !! path = Some (Readable content)
    end.

(** ** Sequences of requests *)

(** The population map of the earlier server after a sequence of
    detections posts. *)
Definition legacy_run (reqs : list Legacy.detections_request)
                      (domains : gmap string number) : gmap string number :=
  fold_left (λ m req, (Legacy.post_detections req m).1) reqs domains.

(** A request that is no detections post and arrives before [deadline]. *)
Definition quiet_before (deadline : Z) (ev : Z * request) : Prop :=
  ev.1 < deadline /\ is_detections_post ev.2 = false.

(** ** Logs written by the server *)

(** The text of a log that holds [lines]. *)
Definition log_text (lines : list string) : string :=
  foldr (λ line rest, line +:+ newline +:+ rest) EmptyString lines.

(** A line as the telemetry handler writes it: no line break inside, a
    character of a number first, no white space at its end. *)
Definition written_line (line : string) : Prop :=
  all_chars (is_not (ascii_of_N 10)) line = true /\
  (exists c r, line = String c r /\ is_number_char c = true) /\
  ends_plain line.

(** A sequence of telemetry posts of one unit, each with its time. *)
Definition post_all (domain : string) (posts : list (Z * unit_request))
                    (st : server) : server :=
  fold_left (λ s post, (post_unit post.1 domain post.2 s).1) posts st.

(** A post that is accepted, at a time that a Number holds exactly. *)
Definition accepted_post (post : Z * unit_request) : Prop :=
  Z.abs post.1 < 2 ^ 53 /\ payload_accepted post.2 = true.

(** ** The browser's reading of a history answer ([History.vue]) *)

(** The text that [response.text()] gives for an answer with status 200
    of the history handler. *)
Definition history_text (r : response) : option string :=
  match r with
  | OkText body => Some body
  | OkJsonArray [] => Some "[]"
  | _ => None
  end.

(** [data.trim().split("\n").filter((line) => line)] *)
Definition response_lines (data : string) : list string :=
  List.filter (λ line, negb (String.eqb line EmptyString))
              (split (ascii_of_N 10) (trim data)).

(** [const [ts, records] = JSON.parse("[" + line + "]")] with the tests
    that follow it: [ts] must be a number and [records] an object whose
    entries can be listed; any other line is reported and skipped. *)
Definition decode_line (line : string) : option (number * json) :=
  match JSON_parse ("[" +:+ line +:+ "]") with
  | Some (JArray (JNumber ts :: records :: _)) =>
      if Legacy.is_object records then Some (ts, records) else None
  | _ => None
  end.

Definition example_posts : list (Z * unit_request) :=
  [(1000, example_unit_request); (2000, example_unit_request)].

(** The log at [path] holds the lines [lines]; a log without lines may
    not exist yet. *)
Definition holds_lines (fs : gmap string file) (path : string)
                       (lines : list string) : Prop :=
  fs !! path = Some (Readable (log_text lines))
  \/ (lines = [] /\ fs !! path = None).

(** The line that a post wrote, when the population was [population]. *)
Definition line_of_post (population : js_value) (post : Z * unit_request)
                        (line : string) : Prop :=
  exists r, line = log_line post.1 r /\
            reading_is_double r = true /\
            r_population r = population.

(** A line in the format of the earlier server, which wrote the time as
    a quoted ISO string. *)
Definition example_old_line : string :=
  quoted "2025-01-01T00:00:00.000Z" +:+ ",{}".

(** ** The addresses printed at start ([getLocalIPs]) *)

Record network_node := {
  n_address : string;
  n_family : string;
  n_internal : bool;
}.

(** The loop over [Object.values(os.networkInterfaces())]: an entry may
    be undefined; the address of every node that is not internal and of
    family IPv4 is pushed. *)
Definition getLocalIPs (interfaces : list (option (list network_node)))
  : list string :=
  fold_left
    (λ ips iface,
       match iface with
       | None => ips
       | Some nodes =>
           fold_left
             (λ ips node,
                if negb (n_internal node) && String.eqb (n_family node) "IPv4"
                then ips ++ [n_address node] else ips)
             nodes ips
       end)
    interfaces [].

(** The nodes of all interfaces, in order. *)
Definition all_nodes (interfaces : list (option (list network_node)))
  : list network_node :=
  flat_map (λ iface, default [] iface) interfaces.

Definition external_ipv4 (node : network_node) : bool :=
  negb (n_internal node) && String.eqb (n_family node) "IPv4".

(** ** What a unit is answered for a count of people *)

(** The four bytes of the 32-bit floats 0, 0.5 and 1. *)
Definition answer_for_count (n : Z) : list Byte.byte :=
  if n <=? 0 then [x00; x00; x00; x00]
  else if n =? 1 then [x00; x00; x00; x3f]
  else [x00; x00; x80; x3f].

Definition example_interfaces : list (option (list network_node)) :=
  [Some [{| n_address := "127.0.0.1"; n_family := "IPv4"; n_internal := true |}];
   None;
   Some [{| n_address := "fe80::1"; n_family := "IPv6"; n_internal := false |};
         {| n_address := "192.168.1.20"; n_family := "IPv4"; n_internal := false |}]].

(** ** Sampling *)

(** Each line of [lines] has a time that is at least [step] after the
    time of the line before it, the first after [last]. *)
Fixpoint spaced (step last : number) (lines : list string) : Prop :=
  match lines with
  | [] => True
  | line :: rest =>
      exists time,
        line_time line = Some time /\
        num_ge (num_sub time last) step = true /\
        spaced step time rest
  end.

(** ** The unit's side of a telemetry post ([telemetryTask]) *)

(** The four bytes of a 32-bit word in the memory of the unit, least
    significant byte first. *)
Definition word_bytes (w : Z) : list Byte.byte :=
  [byte_of_Z w; byte_of_Z (w / 2 ^ 8); byte_of_Z (w / 2 ^ 16);
   byte_of_Z (w / 2 ^ 24)].

(** The request that the unit sends: the bytes of its [Status] struct,
    three floats (given by their bit patterns) in the order temperature,
    humidity, fan_rpm, under the content type of binary data. *)
Definition telemetry_request (temperature humidity fan_rpm : Z) : unit_request :=
  {| u_content_type := Some "application/octet-stream";
     u_body := RawBuffer (word_bytes temperature ++ word_bytes humidity
                          ++ word_bytes fan_rpm) |}.

(** * Properties *)


(** ** Binary digits and exact rounding *)

Lemma digits2_pos_log2 (p : positive) :
  Zpos (digits2_pos p) = Z.log2 (Zpos p) + 1.
Proof.
  induction p as [p IH|p IH|]; simpl digits2_pos.
  - rewrite Pos2Z.inj_succ, IH.
    change (Zpos p~1) with (2 * Zpos p + 1).
    rewrite Z.log2_succ_double by lia. lia.
  - rewrite Pos2Z.inj_succ, IH.
    change (Zpos p~0) with (2 * Zpos p).
    rewrite Z.log2_double by lia. lia.
  - reflexivity.
Qed.

Lemma Zdigits2_mul_pow2 (m : positive) (j : Z) :
  0 <= j -> Zdigits2 (Zpos m * 2 ^ j) = Zpos (digits2_pos m) + j.
Proof.
  intros Hj.
  assert (Hpos : 0 < Zpos m * 2 ^ j) by (apply Z.mul_pos_pos; [lia | apply Z.pow_pos_nonneg; lia]).
  destruct (Zpos m * 2 ^ j) as [|q|q] eqn:E; try lia.
  simpl Zdigits2. rewrite !digits2_pos_log2, <- E.
  rewrite Z.log2_mul_pow2 by lia. lia.
Qed.

Lemma iter_pos_iter {A : Type} (f : A -> A) (p : positive) (x : A) :
  SpecFloat.iter_pos f p x = Pos.iter f x p.
Proof.
  revert x. induction p as [p IH|p IH|]; intros x; simpl.
  - rewrite !IH. rewrite <- !Pos.iter_swap. reflexivity.
  - rewrite !IH. reflexivity.
  - reflexivity.
Qed.

Lemma Zpos_iter_xO (m p : positive) :
  Zpos (Pos.iter xO m p) = Zpos m * 2 ^ Zpos p.
Proof.
  induction p as [|p IH] using Pos.peano_ind.
  - simpl. lia.
  - rewrite Pos.iter_succ, Pos2Z.inj_succ, Z.pow_succ_r by lia.
    change (Zpos (Pos.iter xO m p)~0) with (2 * Zpos (Pos.iter xO m p)).
    rewrite IH. lia.
Qed.

Lemma iter_shr_1_zeros (m p : positive) :
  SpecFloat.iter_pos shr_1 p (Build_shr_record (Zpos (Pos.iter xO m p)) false false)
  = Build_shr_record (Zpos m) false false.
Proof.
  rewrite iter_pos_iter.
  induction p as [|p IH] using Pos.peano_ind.
  - reflexivity.
  - rewrite Pos.iter_succ_r, Pos.iter_succ. simpl shr_1. exact IH.
Qed.

(** Rounding a value that a double holds exactly gives that double back:
    [m * 2^j] at exponent [e - j] is the canonical [m] at exponent [e]. *)
Lemma binary_round_aux_exact (s : bool) (m : positive) (e j : Z) :
  bounded prec emax m e = true -> 0 <= j ->
  binary_round_aux prec emax s (Zpos m * 2 ^ j) (e - j) loc_Exact
  = S754_finite s m e.
Proof.
  intros Hb Hj.
  unfold bounded, canonical_mantissa in Hb.
  apply andb_prop in Hb as [Hc He].
  apply Z.eqb_eq in Hc.
  assert (Hfix : shr_fexp prec emax (Zpos m) e loc_Exact
                 = (Build_shr_record (Zpos m) false false, e)).
  { unfold shr_fexp. simpl Zdigits2. rewrite Hc, Z.sub_diag. reflexivity. }
  assert (H1 : shr_fexp prec emax (Zpos m * 2 ^ j) (e - j) loc_Exact
               = (Build_shr_record (Zpos m) false false, e)).
  { unfold shr_fexp. rewrite Zdigits2_mul_pow2 by lia.
    replace (Zpos (digits2_pos m) + j + (e - j)) with (Zpos (digits2_pos m) + e) by lia.
    rewrite Hc. replace (e - (e - j)) with j by lia.
    simpl shr_record_of_loc.
    destruct j as [|p|p]; try lia.
    - simpl. rewrite Z.mul_1_r. f_equal. lia.
    - unfold shr. rewrite <- Zpos_iter_xO, iter_shr_1_zeros. f_equal. lia. }
  unfold binary_round_aux. rewrite H1. simpl loc_of_shr_record.
  simpl round_nearest_even. simpl shr_m at 1. rewrite Hfix. simpl shr_m.
  rewrite He. reflexivity.
Qed.

Lemma fexp_mono (a b : Z) : a <= b -> fexp prec emax a <= fexp prec emax b.
Proof. unfold fexp. lia. Qed.

Lemma div_eucl_div_mod (a b : Z) : Z.div_eucl a b = (a / b, a mod b).
Proof. unfold Z.div, Z.modulo. destruct (Z.div_eucl a b). reflexivity. Qed.

Lemma new_location_zero (n : Z) : new_location n 0 = loc_Exact.
Proof.
  unfold new_location, new_location_even, new_location_odd.
  destruct (Z.even n); reflexivity.
Qed.

(** A quotient that is exactly a double is returned unrounded. *)
Lemma SFdiv_exact (s1 : bool) (m1 : positive) (e1 : Z)
                  (s2 : bool) (m2 : positive) (e2 : Z)
                  (mz : positive) (ez : Z) :
  bounded prec emax mz ez = true ->
  Zpos m1 * 2 ^ Z.max 0 (e1 - e2 - ez)
  = Zpos mz * Zpos m2 * 2 ^ Z.max 0 (ez - (e1 - e2)) ->
  SFdiv prec emax (S754_finite s1 m1 e1) (S754_finite s2 m2 e2)
  = S754_finite (xorb s1 s2) mz ez.
Proof.
  intros Hb Heq.
  pose proof Hb as Hb'. unfold bounded, canonical_mantissa in Hb'.
  apply andb_prop in Hb' as [Hc _]. apply Z.eqb_eq in Hc.
  unfold SFdiv, SFdiv_core_binary. simpl Zdigits2.
  set (e' := Z.min (fexp prec emax (Zpos (digits2_pos m1) + e1 - (Zpos (digits2_pos m2) + e2))) (e1 - e2)).
  assert (He' : e' <= ez).
  { destruct (Z_le_gt_dec (e1 - e2) ez) as [Hle|Hgt]; [unfold e'; lia|].
    assert (Hd : Zpos (digits2_pos m1) + e1 - (Zpos (digits2_pos m2) + e2)
                 <= Zpos (digits2_pos mz) + ez).
    { rewrite Z.max_r in Heq by lia. rewrite Z.max_l in Heq by lia.
      rewrite Z.pow_0_r, Z.mul_1_r in Heq.
      assert (Hl : Z.log2 (Zpos m1 * 2 ^ (e1 - e2 - ez)) = e1 - e2 - ez + Z.log2 (Zpos m1))
        by (apply Z.log2_mul_pow2; lia).
      rewrite Heq in Hl.
      pose proof (Z.log2_mul_above (Zpos mz) (Zpos m2) ltac:(lia) ltac:(lia)).
      rewrite !digits2_pos_log2. lia. }
    apply fexp_mono in Hd. rewrite Hc in Hd. unfold e'. lia. }
  assert (Hs : 0 <= e1 - e2 - e') by (unfold e'; lia).
  set (m' := match e1 - e2 - e' with
             | 0 => Zpos m1
             | Zpos _ => Z.shiftl (Zpos m1) (e1 - e2 - e')
             | Zneg _ => 0
             end).
  assert (Hm' : m' = Zpos mz * 2 ^ (ez - e') * Zpos m2).
  { assert (Hm1 : m' = Zpos m1 * 2 ^ (e1 - e2 - e')).
    { unfold m'. destruct (e1 - e2 - e') as [|p|p] eqn:E; try lia.
      rewrite Z.shiftl_mul_pow2 by lia. reflexivity. }
    rewrite Hm1.
    destruct (Z_le_gt_dec (e1 - e2) ez) as [Hle|Hgt].
    - rewrite Z.max_l in Heq by lia. rewrite Z.max_r in Heq by lia.
      rewrite Z.pow_0_r, Z.mul_1_r in Heq. rewrite Heq.
      replace (ez - e') with ((ez - (e1 - e2)) + (e1 - e2 - e')) by lia.
      rewrite Z.pow_add_r by lia. ring.
    - rewrite Z.max_r in Heq by lia. rewrite Z.max_l in Heq by lia.
      rewrite Z.pow_0_r, Z.mul_1_r in Heq.
      replace (e1 - e2 - e') with ((e1 - e2 - ez) + (ez - e')) by lia.
      rewrite Z.pow_add_r by lia.
      rewrite Z.mul_assoc, Heq. ring. }
  rewrite div_eucl_div_mod, Hm'.
  rewrite Z.div_mul by lia. rewrite Z.mod_mul by lia.
  rewrite new_location_zero.
  replace e' with (ez - (ez - e')) at 2 by lia.
  apply binary_round_aux_exact; [exact Hb | lia].
Qed.

(** ** ActuationPolicy *)

Lemma bounded_inv (m : positive) (e : Z) :
  bounded prec emax m e = true ->
  -1074 <= e <= 971 /\
  Zpos (digits2_pos m) <= 53 /\
  (-1074 < e -> Zpos (digits2_pos m) = 53).
Proof.
  unfold bounded, canonical_mantissa, fexp, emin, prec, emax.
  intros H. apply andb_prop in H as [Hc He].
  apply Z.eqb_eq in Hc. apply Z.leb_le in He. lia.
Qed.

Lemma bounded_intro (m : positive) (e : Z) :
  -1074 <= e <= 971 ->
  Zpos (digits2_pos m) <= 53 ->
  (-1074 < e -> Zpos (digits2_pos m) = 53) ->
  bounded prec emax m e = true.
Proof.
  unfold bounded, canonical_mantissa, fexp, emin, prec, emax.
  intros He Hd Hn. apply andb_true_intro. split.
  - apply Z.eqb_eq. lia.
  - apply Z.leb_le. lia.
Qed.

(** Rounding at the bottom of the range: a mantissa below 2^52 at the
    least exponent stays at that exponent. *)
Lemma binary_round_aux_bottom (s : bool) (m : Z) (l : location) :
  0 <= m < 2 ^ 52 ->
  binary_round_aux prec emax s m (-1074) l = S754_zero s \/
  exists m', binary_round_aux prec emax s m (-1074) l = S754_finite s m' (-1074).
Proof.
  intros Hm.
  assert (Hdig : forall z, 0 <= z <= 2 ^ 52 -> 0 <= Zdigits2 z <= 53).
  { intros z Hz. destruct z as [|q|q]; simpl; try lia.
    rewrite digits2_pos_log2.
    pose proof (Z.log2_le_mono (Zpos q) (2 ^ 52) ltac:(lia)) as Hl.
    rewrite Z.log2_pow2 in Hl by lia.
    pose proof (Z.log2_nonneg (Zpos q)). lia. }
  assert (Hshr : forall z l0, 0 <= z <= 2 ^ 52 ->
            shr_fexp prec emax z (-1074) l0 = (shr_record_of_loc z l0, -1074)).
  { intros z l0 Hz. unfold shr_fexp.
    replace (fexp prec emax (Zdigits2 z + -1074) - -1074) with 0
      by (pose proof (Hdig z Hz); unfold fexp, emin, prec, emax; lia).
    reflexivity. }
  unfold binary_round_aux. rewrite Hshr by lia.
  set (m'' := round_nearest_even (shr_m (shr_record_of_loc m l))
                                 (loc_of_shr_record (shr_record_of_loc m l))).
  assert (Hm'' : 0 <= m'' <= 2 ^ 52).
  { unfold m''. destruct l as [|[| |]]; simpl; try lia.
    destruct (Z.even m); lia. }
  rewrite Hshr by lia. simpl shr_m.
  destruct m'' as [|q|q]; [left; reflexivity | right | lia].
  exists q. reflexivity.
Qed.

Lemma half_of_small (mx : positive) (ex : Z) :
  bounded prec emax mx ex = true -> ex < -51 ->
  exists r, num_div (S754_finite false mx ex) (number_of_Z 2) = r /\
    (r = pos_zero \/ exists m e, r = S754_finite false m e /\ e < -52).
Proof.
  intros Hb Hex.
  destruct (bounded_inv _ _ Hb) as (Hr & Hd & Hn).
  change (number_of_Z 2) with (S754_finite false 4503599627370496 (-51)).
  unfold num_div.
  destruct (Z_lt_ge_dec (-1074) ex) as [Hnorm|Hbot].
  - (* the half is the same mantissa one exponent lower *)
    eexists. split.
    + apply (SFdiv_exact false mx ex false _ (-51) mx (ex - 1)).
      * pose proof (Hn Hnorm). apply bounded_intro; lia.
      * rewrite Z.max_r by lia. rewrite Z.max_l by lia.
        replace (ex - -51 - (ex - 1)) with 52 by lia. lia.
    + right. exists mx, (ex - 1). split; [reflexivity | lia].
  - assert (ex = -1074) by lia. subst ex.
    destruct mx as [q|q|].
    + (* odd mantissa: a tie, rounded to even *)
      unfold SFdiv, SFdiv_core_binary. simpl Zdigits2.
      replace (Z.min _ (-1074 - -51)) with (-1074)
        by (unfold fexp, emin, prec, emax; simpl in Hd; lia).
      replace (-1074 - -51 - -1074) with 51 by lia.
      rewrite div_eucl_div_mod.
      assert (Hq : Zpos (digits2_pos q) <= 52)
        by (simpl in Hd; lia).
      assert (Hq52 : Zpos q < 2 ^ 52).
      { rewrite digits2_pos_log2 in Hq. apply Z.log2_lt_pow2; lia. }
      rewrite Z.shiftl_mul_pow2 by lia.
      assert (Hdm : Zpos q~1 * 2 ^ 51 = 4503599627370496 * Zpos q + 2 ^ 51)
        by (change (Zpos q~1) with (2 * Zpos q + 1); lia).
      assert (Hdiv : Zpos q~1 * 2 ^ 51 / 4503599627370496 = Zpos q)
        by (symmetry; apply (Z.div_unique _ _ _ (2 ^ 51)); lia).
      assert (Hmod : (Zpos q~1 * 2 ^ 51) mod 4503599627370496 = 2 ^ 51)
        by (symmetry; apply (Z.mod_unique _ _ (Zpos q)); lia).
      rewrite Hdiv, Hmod.
      destruct (binary_round_aux_bottom false (Zpos q)
                  (new_location 4503599627370496 (2 ^ 51)) ltac:(lia))
        as [E|[m' E]]; simpl xorb; rewrite E;
        eexists; (split; [reflexivity|]).
      * left. reflexivity.
      * right. exists m', (-1074). split; [reflexivity | lia].
    + (* even mantissa: the half is exact *)
      eexists. split.
      * apply (SFdiv_exact false q~0 (-1074) false _ (-51) q (-1074)).
        -- apply bounded_intro; simpl in Hd; lia.
        -- change (Z.max 0 (-1074 - -51 - -1074)) with 51.
           change (Z.max 0 (-1074 - (-1074 - -51))) with 0.
           change (Zpos q~0) with (2 * Zpos q). lia.
      * right. exists q, (-1074). split; [reflexivity | lia].
    + (* the least subnormal: its half rounds to zero *)
      exists pos_zero. split; [vm_compute; reflexivity | left; reflexivity].
Qed.

Lemma clamp_finite_pos mx ex :
  populationToFanPower (S754_finite false mx ex)
  = num_div (if num_lt (number_of_Z 2) (S754_finite false mx ex)
             then number_of_Z 2 else S754_finite false mx ex) (number_of_Z 2).
Proof.
  unfold populationToFanPower. cbn [isNaN].
  unfold Math_min, Math_max. cbn [fold_left].
  change (max_step (Some neg_Infinity) (S754_finite false mx ex)) with (Some (S754_finite false mx ex)).
  change (max_step (Some (S754_finite false mx ex)) (number_of_Z 0)) with (Some (S754_finite false mx ex)).
  cbv iota beta.
  change (min_step (Some Infinity) (S754_finite false mx ex)) with (Some (S754_finite false mx ex)).
  change (min_step (Some (S754_finite false mx ex)) (number_of_Z 2))
    with (if num_lt (number_of_Z 2) (S754_finite false mx ex) then Some (number_of_Z 2) else Some (S754_finite false mx ex)).
  destruct (num_lt (number_of_Z 2) (S754_finite false mx ex)); reflexivity.
Qed.

Lemma num_lt_two (mx : positive) (ex : Z) :
  num_lt (number_of_Z 2) (S754_finite false mx ex)
  = match -51 ?= ex with
    | Eq => match (4503599627370496 ?= mx)%positive with Lt => true | _ => false end
    | Lt => true
    | Gt => false
    end.
Proof.
  change (number_of_Z 2) with (S754_finite false 4503599627370496 (-51)).
  unfold num_lt, SFltb, SFcompare.
  destruct (-51 ?= ex); reflexivity.
Qed.

Lemma populationToFanPower_range (p : number) :
  is_double p = true -> isNaN p = false ->
  num_le (number_of_Z 0) (populationToFanPower p) = true /\
  num_le (populationToFanPower p) (number_of_Z 1) = true.
Proof.
  intros Hv Hn.
  destruct p as [s|s| |s mx ex]; try discriminate.
  - destruct s; vm_compute; auto.
  - destruct s; vm_compute; auto.
  - simpl in Hv.
    destruct s.
    + (* a negative population is clamped to 0 *)
      split; reflexivity.
    + rewrite clamp_finite_pos, num_lt_two.
      destruct (bounded_inv _ _ Hv) as (Hr & Hd & Hnm).
      assert (Hsmall : ex < -51 ->
                num_le (number_of_Z 0) (num_div (S754_finite false mx ex) (number_of_Z 2)) = true /\
                num_le (num_div (S754_finite false mx ex) (number_of_Z 2)) (number_of_Z 1) = true).
      { intros Hex.
        destruct (half_of_small mx ex Hv Hex) as (r & -> & [->|(m & e & -> & He)]).
        - split; reflexivity.
        - split; [reflexivity|].
          unfold num_le, SFleb, SFcompare.
          change (number_of_Z 1) with (S754_finite false 4503599627370496 (-52)).
          cbv iota beta. apply Z.compare_lt_iff in He. rewrite He. reflexivity. }
      destruct (Z.compare_spec (-51) ex) as [E|E|E].
      * subst ex.
        assert (H52 : 2 ^ 52 <= Zpos mx < 2 ^ 53).
        { pose proof (Hnm ltac:(lia)) as H53. rewrite digits2_pos_log2 in H53.
          pose proof (Z.log2_spec (Zpos mx) ltac:(lia)).
          replace (Z.log2 (Zpos mx)) with 52 in * by lia. lia. }
        destruct (Pos.compare_spec 4503599627370496 mx) as [E'|E'|E'].
        -- subst mx. split; reflexivity.
        -- split; reflexivity.
        -- apply Pos2Z.pos_lt_pos in E'. clear - E' H52.
           change (2 ^ 52) with 4503599627370496 in H52. lia.
      * split; reflexivity.
      * apply Hsmall. lia.
Qed.

Lemma num_le_two (mx : positive) (ex : Z) :
  num_le (number_of_Z 2) (S754_finite false mx ex)
  = match -51 ?= ex with
    | Eq => match (4503599627370496 ?= mx)%positive with Gt => false | _ => true end
    | Lt => true
    | Gt => false
    end.
Proof.
  change (number_of_Z 2) with (S754_finite false 4503599627370496 (-51)).
  unfold num_le, SFleb, SFcompare.
  destruct (-51 ?= ex); [|reflexivity|reflexivity].
  unfold Pos.compare.
  destruct (Pos.compare_cont Eq 4503599627370496 mx); reflexivity.
Qed.

(** The function in closed form: 0 up to 0, half the argument between 0
    and 2, 1 from 2 on. *)
Lemma populationToFanPower_closed (p : number) :
  isNaN p = false ->
  populationToFanPower p
  = if num_le p (number_of_Z 0) then number_of_Z 0
    else if num_le (number_of_Z 2) p then number_of_Z 1
    else num_div p (number_of_Z 2).
Proof.
  intros Hn. destruct p as [s|s| |s mx ex]; try discriminate.
  - destruct s; reflexivity.
  - destruct s; reflexivity.
  - destruct s; [reflexivity|].
    rewrite clamp_finite_pos, num_lt_two, num_le_two.
    change (num_le (S754_finite false mx ex) (number_of_Z 0)) with false.
    cbv iota.
    destruct (-51 ?= ex) eqn:Ee; [|reflexivity|reflexivity].
    destruct (4503599627370496 ?= mx)%positive eqn:Em; [|reflexivity|reflexivity].
    apply Z.compare_eq in Ee. apply Pos.compare_eq in Em. subst. reflexivity.
Qed.

(** C2. [populationToFanPower] clamps its argument to [0, 2] and divides
    by 2: NaN is propagated; every other number is sent to 0 when it is
    at most 0, to 1 when it is at least 2, and to its half (the
    quotient by 2, correctly rounded) in between; so for every double
    that is not NaN (finite or not) the result lies between 0 and 1; 0,
    2, 5 and -1 are sent to 0, 1, 1 and 0, and 1 to one half. *)
Theorem populationToFanPower_clamps :
  (forall p : number,
      is_double p = true -> isNaN p = false ->
      num_le (number_of_Z 0) (populationToFanPower p) = true /\
      num_le (populationToFanPower p) (number_of_Z 1) = true) /\
  (forall p : number,
      isNaN p = false ->
      populationToFanPower p
      = if num_le p (number_of_Z 0) then number_of_Z 0
        else if num_le (number_of_Z 2) p then number_of_Z 1
        else num_div p (number_of_Z 2)) /\
  populationToFanPower NaN = NaN /\
  populationToFanPower (number_of_Z 0) = number_of_Z 0 /\
  populationToFanPower (number_of_Z 2) = number_of_Z 1 /\
  populationToFanPower (number_of_Z 5) = number_of_Z 1 /\
  populationToFanPower (number_of_Z (-1)) = number_of_Z 0 /\
  populationToFanPower (number_of_Z 1) = num_div (number_of_Z 1) (number_of_Z 2) /\
  num_div (number_of_Z 1) (number_of_Z 2) <> number_of_Z 0 /\
  num_div (number_of_Z 1) (number_of_Z 2) <> number_of_Z 1.
Proof.
  split; [exact populationToFanPower_range|].
  split; [exact populationToFanPower_closed|].
  repeat split; try reflexivity; vm_compute; discriminate.
Qed.

Lemma populationToFanPower_clamps_witness :
  (num_le (number_of_Z 0) (populationToFanPower (number_of_Z 1)) = true /\
   num_le (populationToFanPower (number_of_Z 1)) (number_of_Z 1) = true) /\
  populationToFanPower (num_div (number_of_Z 3) (number_of_Z 2))
  = if num_le (num_div (number_of_Z 3) (number_of_Z 2)) (number_of_Z 0)
    then number_of_Z 0
    else if num_le (number_of_Z 2) (num_div (number_of_Z 3) (number_of_Z 2))
         then number_of_Z 1
         else num_div (num_div (number_of_Z 3) (number_of_Z 2)) (number_of_Z 2).
Proof.
  split.
  - apply (proj1 populationToFanPower_clamps (number_of_Z 1)).
    + reflexivity.
    + reflexivity.
  - apply (proj1 (proj2 populationToFanPower_clamps)
             (num_div (number_of_Z 3) (number_of_Z 2))).
    reflexivity.
Defined.

(** ** HistoryQueryEngine: the filter loop *)

Lemma scan_line_out (p : history_params) (acc : scan) (line : string) :
  in_range p line = false -> scan_line p acc line = acc.
Proof.
  unfold in_range, scan_line. destruct line as [|c r]; [reflexivity|].
  destruct (line_time (String c r)) as [time|]; [|reflexivity].
  destruct (match h_start p with Some start => num_lt time start | None => false end);
    [reflexivity|].
  destruct (num_gt time (h_end p)); [reflexivity | discriminate].
Qed.

Lemma scan_line_in (p : history_params) (acc : scan) (line : string) :
  in_range p line = true ->
  exists time, line_time line = Some time /\
    scan_line p acc line =
    {| result := if num_ge (num_sub time (lastTime acc)) (h_step p)
                 then result acc ++ [line] else result acc;
       lastTime := if num_ge (num_sub time (lastTime acc)) (h_step p)
                   then time else lastTime acc;
       firstMatchingLine := match firstMatchingLine acc with
                            | None => Some line
                            | f => f
                            end;
       lastMatchingLine := Some line |}.
Proof.
  unfold in_range, scan_line. destruct line as [|c r]; [discriminate|].
  destruct (line_time (String c r)) as [time|]; [|discriminate].
  intros H. exists time. split; [reflexivity|].
  destruct (match h_start p with Some start => num_lt time start | None => false end);
    [discriminate|].
  destruct (num_gt time (h_end p)); [discriminate|].
  destruct (num_ge (num_sub time (lastTime acc)) (h_step p)); reflexivity.
Qed.

(** What the loop leaves in its variables, in terms of the matching
    lines. *)
Lemma fold_scan_line (p : history_params) (lines : list string) (acc : scan) :
  let matching := matching_lines p lines in
  let final := fold_left (scan_line p) lines acc in
  result final = result acc ++ downsample (h_step p) (lastTime acc) matching /\
  firstMatchingLine final = match firstMatchingLine acc with
                            | None => head matching
                            | f => f
                            end /\
  lastMatchingLine final = match matching with
                           | [] => lastMatchingLine acc
                           | first :: _ => Some (List.last matching first)
                           end.
Proof.
  revert acc. induction lines as [|line lines IH]; intros acc; simpl.
  - rewrite app_nil_r. destruct (firstMatchingLine acc); auto.
  - unfold matching_lines in *. simpl List.filter.
    destruct (in_range p line) eqn:Hin.
    + destruct (scan_line_in p acc line Hin) as (time & Ht & Hs).
      rewrite Hs. specialize (IH
        {| result := if num_ge (num_sub time (lastTime acc)) (h_step p)
                     then result acc ++ [line] else result acc;
           lastTime := if num_ge (num_sub time (lastTime acc)) (h_step p)
                       then time else lastTime acc;
           firstMatchingLine := match firstMatchingLine acc with
                                | None => Some line
                                | f => f
                                end;
           lastMatchingLine := Some line |}).
      simpl in IH. destruct IH as (Hr & Hf & Hl).
      rewrite Hr, Hf, Hl. simpl downsample. rewrite Ht. simpl head.
      split; [|split].
      * destruct (num_ge (num_sub time (lastTime acc)) (h_step p));
          [rewrite <- app_assoc|]; reflexivity.
      * destruct (firstMatchingLine acc); reflexivity.
      * destruct (List.filter (in_range p) lines) as [|m ms] eqn:E; [reflexivity|].
        f_equal. clear. revert m. induction ms as [|x ms IHms]; intros m; [reflexivity|].
        simpl in *. destruct ms; [reflexivity|]. apply IHms.
    + rewrite (scan_line_out p acc line Hin). apply IH.
Qed.

Lemma filter_as_bool {A : Type} (f : A -> bool) (l : list A) :
  filter (λ x, f x = true) l = List.filter f l.
Proof.
  induction l as [|x l IH]; [reflexivity|].
  rewrite filter_cons. simpl. rewrite IH.
  destruct (f x) eqn:E; case_decide; congruence.
Qed.

Lemma final_result_output (p : history_params) (lines : list string) :
  final_result (fold_left (scan_line p) lines scan_start)
  = history_output (h_step p) (matching_lines p lines).
Proof.
  destruct (fold_scan_line p lines scan_start) as (Hr & Hf & Hl).
  simpl in Hr, Hf, Hl. unfold final_result, history_output.
  destruct (matching_lines p lines) as [|first rest] eqn:E.
  - rewrite Hr, Hf, Hl. reflexivity.
  - remember (List.last (first :: rest) first) as last_ eqn:El.
    change (head (first :: rest)) with (Some first) in Hf.
    rewrite Hr, Hf, Hl. rewrite filter_as_bool. unfold differs.
    destruct (String.eqb last_ first); reflexivity.
Qed.

(** The text of the answer for a readable log. *)
Lemma get_history_readable (now : Z) (domain : string) (q : history_query)
      (st : server) (p : history_params) (fileContent : string) :
  history_parameters now q = inr p ->
  files st !! logFile domain = Some (Readable fileContent) ->
  get_history now domain q st
  = OkText (join newline (history_output (h_step p)
                            (matching_lines p (log_lines fileContent)))).
Proof.
  intros Hp Hf. unfold get_history. rewrite Hp, Hf.
  rewrite final_result_output. reflexivity.
Qed.

(** ** HistoryQueryEngine: the claims *)

Lemma last_in {A : Type} (l : list A) (d : A) : l <> [] -> In (List.last l d) l.
Proof.
  induction l as [|x l IH]; [congruence|]. intros _.
  destruct l as [|y l]; [left; reflexivity|].
  right. apply IH. discriminate.
Qed.



(** C5 (the code departs from the claim).  A line whose timestamp does
    not parse has time NaN; both range tests are false on NaN, so the line
    is taken as a matching line and is sent as the first (here also the
    last) matching line.  The query itself succeeds. *)
Theorem history_sends_unparseable_line :
  get_history 0 "a" example_query
    (initial_server (number_of_Z 10000) {[ logFile "a" := Readable ("abc,1" +:+ newline) ]})
  = OkText "abc,1" /\
  line_time "abc,1" = Some NaN /\
  in_range {| h_start := Some (number_of_Z 0); h_end := number_of_Z 40;
              h_step := number_of_Z 25 |} "abc,1" = true.
Proof. vm_compute. auto. Qed.

(** C7 (the code departs from the claim).  A history query with valid
    parameters for a domain that has no log file succeeds, but its output
    is not empty: the handler answers with [res.json([])], whose body is
    the JSON text of the empty array, the two characters [[]].  Read as
    the text of lines that every other answer of the handler is, and as
    the browser reads it, this is one line.  A log that exists and is
    empty is answered differently: the empty text, which has no line. *)
Theorem history_of_unknown_domain_sends_json_array
        (now : Z) (domain : string) (q : history_query) (st : server)
        (p : history_params) :
  history_parameters now q = inr p ->
  files st !! logFile domain = None ->
  get_history now domain q st = OkJsonArray [] /\
  status_code (get_history now domain q st) = 200 /\
  history_text (get_history now domain q st) = Some "[]" /\
  history_text (get_history now domain q st) <> Some EmptyString /\
  response_lines "[]" = ["[]"] /\
  forall st' : server,
    files st' !! logFile domain = Some (Readable EmptyString) ->
    get_history now domain q st' = OkText EmptyString /\
    history_text (get_history now domain q st') = Some EmptyString /\
    response_lines EmptyString = [].
Proof.
  intros Hp Hf. unfold get_history. rewrite Hp, Hf.
  split; [reflexivity|]. split; [reflexivity|]. split; [reflexivity|].
  split; [discriminate|]. split; [reflexivity|].
  intros st' Hf'. rewrite Hf'. repeat split; reflexivity.
Qed.

Lemma history_of_unknown_domain_witness :
  get_history 0 "nonexistent" example_query example_server = OkJsonArray [] /\
  status_code (get_history 0 "nonexistent" example_query example_server) = 200 /\
  history_text (get_history 0 "nonexistent" example_query example_server)
  = Some "[]" /\
  history_text (get_history 0 "nonexistent" example_query example_server)
  <> Some EmptyString /\
  response_lines "[]" = ["[]"] /\
  forall st' : server,
    files st' !! logFile "nonexistent" = Some (Readable EmptyString) ->
    get_history 0 "nonexistent" example_query st' = OkText EmptyString /\
    history_text (get_history 0 "nonexistent" example_query st') = Some EmptyString /\
    response_lines EmptyString = [].
Proof.
  apply (history_of_unknown_domain_sends_json_array 0 "nonexistent" example_query
           example_server
           {| h_start := Some (number_of_Z 0); h_end := number_of_Z 40;
              h_step := number_of_Z 25 |}).
  - vm_compute. reflexivity.
  - vm_compute. reflexivity.
Defined.

(** ** Rounding never yields NaN *)

Lemma shr_1_nonneg (mrs : shr_record) : 0 <= shr_m mrs -> 0 <= shr_m (shr_1 mrs).
Proof.
  destruct mrs as [m r s]. destruct m as [|[p|p|]|p]; simpl; lia.
Qed.

Lemma shr_nonneg (mrs : shr_record) (e n : Z) :
  0 <= shr_m mrs -> 0 <= shr_m (shr mrs e n).1.
Proof.
  intros H. unfold shr. destruct n as [|p|p]; simpl; try exact H.
  rewrite iter_pos_iter. apply Pos.iter_invariant; [|exact H].
  intros x Hx. apply shr_1_nonneg. exact Hx.
Qed.

Lemma shr_fexp_nonneg (m e : Z) (l : location) :
  0 <= m -> 0 <= shr_m (shr_fexp prec emax m e l).1.
Proof.
  intros H. unfold shr_fexp. apply shr_nonneg.
  destruct l as [|[| |]]; exact H.
Qed.

Lemma binary_round_aux_not_nan (s : bool) (m e : Z) (l : location) :
  0 <= m -> isNaN (binary_round_aux prec emax s m e l) = false.
Proof.
  intros H. unfold binary_round_aux.
  pose proof (shr_fexp_nonneg m e l H) as H1.
  destruct (shr_fexp prec emax m e l) as [mrs' e'].
  simpl in H1.
  assert (H2 : 0 <= round_nearest_even (shr_m mrs') (loc_of_shr_record mrs')).
  { unfold round_nearest_even.
    destruct (loc_of_shr_record mrs') as [|[| |]]; try lia.
    destruct (Z.even (shr_m mrs')); lia. }
  pose proof (shr_fexp_nonneg _ e' loc_Exact H2) as H3.
  destruct (shr_fexp prec emax _ e' loc_Exact) as [mrs'' e''].
  simpl in H3. destruct (shr_m mrs'') as [|p|p]; try reflexivity; try lia.
  destruct (e'' <=? emax - prec); reflexivity.
Qed.

Lemma number_of_Z_not_nan (z : Z) : isNaN (number_of_Z z) = false.
Proof.
  unfold number_of_Z, binary_normalize, binary_round.
  destruct z as [|p|p]; [reflexivity| |];
    destruct (shl_align p 0 _) as [mz ez];
    apply binary_round_aux_not_nan; lia.
Qed.

Lemma num_div_finite_not_nan (x : number) (s : bool) (m : positive) (e : Z) :
  isNaN x = false -> isNaN (num_div x (S754_finite s m e)) = false.
Proof.
  intros Hx. destruct x as [sx|sx| |sx mx ex]; try reflexivity; try discriminate.
  unfold num_div, SFdiv, SFdiv_core_binary.
  rewrite div_eucl_div_mod.
  apply binary_round_aux_not_nan.
  apply Z.div_pos; [|lia].
  destruct (ex - e - _) as [|p|p]; try lia.
  apply Z.shiftl_nonneg. lia.
Qed.

Lemma default_end_not_nan (now : Z) :
  isNaN (num_div (number_of_Z now) (number_of_Z 1000)) = false.
Proof.
  change (number_of_Z 1000) with (S754_finite false 8796093022208000 (-43)).
  apply num_div_finite_not_nan, number_of_Z_not_nan.
Qed.

(** ** HistoryQueryEngine: validation of the parameters *)

Lemma history_parameters_refuses (now : Z) (q : history_query) :
  (exists msg, history_parameters now q = inl (BadRequest msg)) /\ handler_refuses q = true
  \/ (exists p, history_parameters now q = inr p) /\ handler_refuses q = false.
Proof.
  unfold history_parameters, handler_refuses, refused_parameter.
  set (zero := number_of_Z 0).
  destruct (supplied (startParam q)) as [s|];
    destruct (supplied (endParam q)) as [e|];
    destruct (supplied (stepParam q)) as [t|];
    cbn [option_map]; rewrite ?default_end_not_nan;
    repeat match goal with
           | |- context [isNaN (parseFloat ?x)] => destruct (isNaN (parseFloat x))
           | |- context [num_le (parseFloat ?x) zero] => destruct (num_le (parseFloat x) zero)
           end;
    cbn [orb isNaN];
    first [ left; split; [eexists; reflexivity | reflexivity]
          | right; split; [eexists; reflexivity | reflexivity] ].
Qed.

(** C6 (as the code has it).  The handler answers 400 exactly when a
    parameter that is present and not empty does not parse: [start] or
    [end] gives NaN, or [step] gives NaN or a value [<= 0].  An infinite
    [start] or [end] is accepted.  Every other query succeeds (the empty
    JSON array without a log, the text of the lines with one), unless the
    log exists and cannot be read, which is a server error. *)
Theorem history_refuses_exactly_unparsable_parameters
        (now : Z) (domain : string) (q : history_query) (st : server) :
  (status_code (get_history now domain q st) = 400 <-> handler_refuses q = true) /\
  (handler_refuses q = false ->
     match files st !! logFile domain with
     | None => get_history now domain q st = OkJsonArray []
     | Some (Readable _) => exists body, get_history now domain q st = OkText body
     | Some Unreadable =>
         get_history now domain q st = InternalServerError "Internal Server Error"
     end).
Proof.
  unfold get_history.
  destruct (history_parameters_refuses now q) as [[[msg ->] Hr]|[[p ->] Hr]];
    rewrite Hr.
  - split; [split; reflexivity | discriminate].
  - split.
    + split; [|discriminate].
      destruct (files st !! logFile domain) as [[c|]|]; simpl; discriminate.
    + intros _. destruct (files st !! logFile domain) as [[c|]|]; eauto.
Qed.

(** C6, the claim as worded fails: [start=Infinity] is not a finite
    number, and the query is served. *)
Lemma history_accepts_infinite_start :
  ~ (forall (now : Z) (domain : string) (q : history_query) (st : server),
       status_code (get_history now domain q st) = 400 <-> spec_refuses q = true).
Proof.
  intros H.
  specialize (H 0 "a" {| startParam := Some "Infinity"; endParam := Some "40";
                         stepParam := Some "25" |} example_server).
  destruct H as [_ H]. 
  assert (E : status_code
                (get_history 0 "a"
                   {| startParam := Some "Infinity"; endParam := Some "40";
                      stepParam := Some "25" |} example_server) = 200)
    by (vm_compute; reflexivity).
  rewrite E in H. discriminate H. vm_compute. reflexivity.
Qed.

(** ** TelemetryLog: file names *)

Lemma logFile_eq (d1 d2 : string) :
  normalizeFilenameComponent d1 = normalizeFilenameComponent d2 ->
  logFile d1 = logFile d2.
Proof. unfold logFile. intros ->. reflexivity. Qed.

Lemma get_history_same_file (now : Z) (d1 d2 : string) (q : history_query)
      (st : server) :
  logFile d1 = logFile d2 -> get_history now d1 q st = get_history now d2 q st.
Proof. unfold get_history. intros ->. reflexivity. Qed.

(** What an accepted telemetry post leaves in the log of its domain. *)
Lemma post_unit_appends (now : Z) (domain : string) (req : unit_request)
      (st : server) (body : list Byte.byte) :
  domain <> EmptyString ->
  (post_unit now domain req st).2 = OkOctets body ->
  exists r : reading,
    files (post_unit now domain req st).1
    = appendFile (logFile domain) (log_line now r +:+ newline) (files st) /\
    r_population r = population_of (domains st) domain.
Proof.
  intros Hd. unfold post_unit.
  destruct domain as [|c d]; [congruence|].
  destruct (u_body req) as [bytes|]; [|discriminate].
  destruct (includes _ _ && _); [|discriminate].
  destruct (readFloatLE bytes 0) as [t|]; [|discriminate].
  destruct (readFloatLE bytes 4) as [h|]; [|discriminate].
  destruct (readFloatLE bytes 8) as [f|]; [|discriminate].
  destruct (actuation (population_of (domains st) (String c d))) as [power|];
    [|discriminate].
  intros _. eexists. split; reflexivity.
Qed.

(** C10. Two domain names with the same sanitized form (such as [a.b]
    and [a_b]) have the same log file: every history query answers the
    same for both, and the line that an accepted telemetry post under one
    name appends is in the file that a history query for the other name
    reads. *)
Theorem sanitized_names_share_a_log :
  (forall d1 d2 : string,
      d1 <> d2 ->
      normalizeFilenameComponent d1 = normalizeFilenameComponent d2 ->
      logFile d1 = logFile d2 /\
      (forall now q st, get_history now d1 q st = get_history now d2 q st) /\
      (forall now req st body,
          (post_unit now d1 req st).2 = OkOctets body ->
          files st !! logFile d1 <> Some Unreadable ->
          exists (r : reading) (old : string),
            files (post_unit now d1 req st).1 !! logFile d2
            = Some (Readable (old +:+ log_line now r +:+ newline)) /\
            (forall later q,
                get_history later d2 q (post_unit now d1 req st).1
                = get_history later d1 q (post_unit now d1 req st).1))) /\
  "a.b" <> "a_b" /\
  normalizeFilenameComponent "a.b" = normalizeFilenameComponent "a_b" /\
  get_history 2000 "a_b"
    {| startParam := None; endParam := None; stepParam := None |}
    (post_unit 1000 "a.b" example_unit_request (initial_server (number_of_Z 10000) ∅)).1
  = OkText (log_line 1000 {| r_temperature := num_div (number_of_Z 47) (number_of_Z 2);
                             r_humidity := number_of_Z 0;
                             r_fan_rpm := number_of_Z 0;
                             r_population := Json (JNumber NaN) |}).
Proof.
  split; [|split; [discriminate | split; [reflexivity | vm_compute; reflexivity]]].
  intros d1 d2 Hne Hn.
  pose proof (logFile_eq d1 d2 Hn) as Hl.
  split; [exact Hl|]. split.
  - intros now q st. apply get_history_same_file, Hl.
  - intros now req st body Hok Hread.
    assert (Hd1 : d1 <> EmptyString).
    { intros ->. destruct d2; [congruence | discriminate]. }
    destruct (post_unit_appends now d1 req st body Hd1 Hok) as (r & Hf & _).
    rewrite Hf, <- Hl. unfold appendFile.
    destruct (files st !! logFile d1) as [[old|]|] eqn:E; [| congruence |].
    + exists r, old. rewrite lookup_insert_eq. split; [reflexivity|].
      intros later q. symmetry. apply get_history_same_file, Hl.
    + exists r, EmptyString. rewrite lookup_insert_eq. split; [reflexivity|].
      intros later q. symmetry. apply get_history_same_file, Hl.
Qed.

Lemma sanitized_names_witness :
  logFile "a.b" = logFile "a_b" /\
  (forall now q st, get_history now "a.b" q st = get_history now "a_b" q st) /\
  (forall now req st body,
      (post_unit now "a.b" req st).2 = OkOctets body ->
      files st !! logFile "a.b" <> Some Unreadable ->
      exists (r : reading) (old : string),
        files (post_unit now "a.b" req st).1 !! logFile "a_b"
        = Some (Readable (old +:+ log_line now r +:+ newline)) /\
        (forall later q,
            get_history later "a_b" q (post_unit now "a.b" req st).1
            = get_history later "a.b" q (post_unit now "a.b" req st).1)).
Proof.
  apply (proj1 sanitized_names_share_a_log "a.b" "a_b").
  - discriminate.
  - reflexivity.
Defined.

(** ** Telemetry ingestion *)

Lemma writeFloatLE_length (x : number) : length (writeFloatLE x) = 4%nat.
Proof. reflexivity. Qed.

(** C9 (as the code has it).  A telemetry post is refused with 400, the
    state unchanged, when its body is not a Buffer, is shorter than 12
    bytes, or its content type does not mention
    [application/octet-stream].  Any Buffer of 12 bytes or more is
    accepted: its first twelve bytes are read as three little-endian
    binary32 values, temperature, humidity and fan speed in this order,
    and the answer is the four bytes of the little-endian binary32 fan
    power for the population of the domain.  The one exception is a
    population that cannot be converted to a number (an object of the
    detections body with a member [toString] of its own, or an array
    that holds one): then the handler throws, the state is unchanged and
    the answer is a 500.  A population that is a number always
    converts. *)
Theorem telemetry_payload_check
        (now : Z) (domain : string) (req : unit_request) (st : server) :
  (payload_accepted req = false ->
     post_unit now domain req st = (st, BadRequest "Bad Request")) /\
  (payload_accepted req = true ->
     exists b0 b1 b2 b3 b4 b5 b6 b7 b8 b9 b10 b11 rest,
       u_body req = RawBuffer ([b0; b1; b2; b3; b4; b5; b6; b7; b8; b9; b10; b11] ++ rest) /\
       let population := population_of (domains st) (unit_domain domain) in
       match actuation population with
       | Some power =>
           (post_unit now domain req st).2 = OkOctets (writeFloatLE power) /\
           length (writeFloatLE power) = 4%nat /\
           status (post_unit now domain req st).1 !! unit_domain domain
           = Some {| population := population;
                     fan_power := Some power;
                     temperature := Some (float32_of_bits (uint32_le b0 b1 b2 b3));
                     humidity := Some (float32_of_bits (uint32_le b4 b5 b6 b7));
                     fan_rpm := Some (float32_of_bits (uint32_le b8 b9 b10 b11)) |}
       | None =>
           post_unit now domain req st = (st, Thrown "TypeError")
       end) /\
  (forall n : number,
      actuation (Json (JNumber n)) = Some (populationToFanPower n)).
Proof.
  split; [|split; [|reflexivity]].
  - unfold payload_accepted, post_unit.
    destruct (u_body req) as [bytes|]; [|reflexivity].
    intros ->. reflexivity.
  - unfold payload_accepted, post_unit.
    destruct (u_body req) as [bytes|]; [|discriminate].
    intros Hacc. rewrite Hacc.
    apply andb_prop in Hacc as [_ Hlen]. apply Nat.leb_le in Hlen.
    do 12 (destruct bytes as [|? bytes]; [simpl in Hlen; lia|]).
    do 12 eexists. exists bytes. split; [reflexivity|].
    cbn [readFloatLE skipn]. cbv zeta. fold (unit_domain domain).
    destruct (actuation (population_of (domains st) (unit_domain domain)))
      as [power|]; [|reflexivity].
    cbn [snd fst status].
    split; [reflexivity|]. split; [reflexivity|].
    rewrite lookup_insert_eq. reflexivity.
Qed.

Lemma telemetry_payload_witness :
  exists b0 b1 b2 b3 b4 b5 b6 b7 b8 b9 b10 b11 rest,
    u_body example_unit_request
    = RawBuffer ([b0; b1; b2; b3; b4; b5; b6; b7; b8; b9; b10; b11] ++ rest) /\
    let population := population_of (domains example_server) (unit_domain "a") in
    match actuation population with
    | Some power =>
        (post_unit 0 "a" example_unit_request example_server).2
        = OkOctets (writeFloatLE power) /\
        length (writeFloatLE power) = 4%nat /\
        status (post_unit 0 "a" example_unit_request example_server).1
          !! unit_domain "a"
        = Some {| population := population;
                  fan_power := Some power;
                  temperature := Some (float32_of_bits (uint32_le b0 b1 b2 b3));
                  humidity := Some (float32_of_bits (uint32_le b4 b5 b6 b7));
                  fan_rpm := Some (float32_of_bits (uint32_le b8 b9 b10 b11)) |}
    | None =>
        post_unit 0 "a" example_unit_request example_server
        = (example_server, Thrown "TypeError")
    end.
Proof.
  apply (proj1 (proj2 (telemetry_payload_check 0 "a" example_unit_request
                         example_server))).
  vm_compute. reflexivity.
Defined.

(** C9, the claim as worded fails: a payload of 13 bytes does not have
    the fixed size and is accepted. *)
Lemma telemetry_accepts_longer_payload :
  ~ (forall (now : Z) (domain : string) (req : unit_request) (st : server)
            (bytes : list Byte.byte),
        u_body req = RawBuffer bytes -> length bytes <> 12%nat ->
        status_code (post_unit now domain req st).2 = 400).
Proof.
  intros H.
  specialize (H 0 "a"
    {| u_content_type := Some "application/octet-stream";
       u_body := RawBuffer [x00; x00; xbc; x41; x00; x00; x00; x00;
                            x00; x00; x00; x00; x00] |}
    example_server _ eq_refl ltac:(simpl; lia)).
  vm_compute in H. discriminate H.
Qed.

(** ** StatusRegistry: detections *)

Lemma record_count_lookup (m : gmap string number) (e : string * json) (k : string)
      (v : number) :
  Legacy.record_count m e !! k = Some v ->
  m !! k = Some v \/ (e = (k, JNumber v) /\ num_ge v (number_of_Z 0) = true).
Proof.
  unfold Legacy.record_count. destruct e as [d c]. cbn [fst snd].
  destruct c as [|b|n|s|items|props]; auto.
  destruct (num_ge n (number_of_Z 0)) eqn:Hge; auto.
  destruct (decide (d = k)) as [->|Hne].
  - rewrite lookup_insert_eq. intros [= ->]. auto.
  - rewrite lookup_insert_ne by exact Hne. auto.
Qed.

Lemma fold_record_count_sound (es : list (string * json)) (m : gmap string number)
      (k : string) (v : number) :
  fold_left Legacy.record_count es m !! k = Some v ->
  m !! k = Some v \/ (In (k, JNumber v) es /\ num_ge v (number_of_Z 0) = true).
Proof.
  revert m. induction es as [|e es IH]; intros m; cbn [fold_left]; [auto|].
  intros H. destruct (IH _ H) as [H1|[H1 H2]].
  - destruct (record_count_lookup m e k v H1) as [H3|[-> H3]].
    + left. exact H3.
    + right. split; [left; reflexivity | exact H3].
  - right. split; [right; exact H1 | exact H2].
Qed.

Lemma fold_record_count_other (es : list (string * json)) (m : gmap string number)
      (k : string) :
  ~ In k (map fst es) -> fold_left Legacy.record_count es m !! k = m !! k.
Proof.
  revert m. induction es as [|[d c] es IH]; intros m Hk; cbn [fold_left]; [reflexivity|].
  cbn [map fst In] in Hk. rewrite IH by tauto.
  unfold Legacy.record_count. cbn [fst snd].
  destruct c; try reflexivity.
  destruct (num_ge n (number_of_Z 0)); [|reflexivity].
  apply lookup_insert_ne. tauto.
Qed.

Lemma fold_record_count_complete (es : list (string * json)) (m : gmap string number)
      (k : string) (v : number) :
  List.NoDup (map fst es) -> In (k, JNumber v) es ->
  num_ge v (number_of_Z 0) = true ->
  fold_left Legacy.record_count es m !! k = Some v.
Proof.
  revert m. induction es as [|[d c] es IH]; intros m Hnd Hin Hge; [destruct Hin|].
  cbn [map fst] in Hnd. apply List.NoDup_cons_iff in Hnd as [Hd Hnd].
  destruct Hin as [[= -> ->]|Hin].
  - cbn [fold_left]. rewrite fold_record_count_other by exact Hd.
    unfold Legacy.record_count. cbn [fst snd]. rewrite Hge. apply lookup_insert_eq.
  - cbn [fold_left]. apply IH; assumption.
Qed.

(** C4 (as the code has it).  Both servers answer 400 and change nothing
    when the request is not JSON or its body is not an object.  For an
    object body the earlier server ([server/index.ts]) stores exactly the
    entries whose count is a number [>= 0] and skips the others: a stored
    count was there before or is a valid entry of the body, and every
    valid entry of a body without repeated names is stored.  The current
    server instead replaces the population object by the body as it is,
    whatever object or array the body is and whatever its members
    are. *)
Theorem detections_validation :
  (forall (now : Z) (req : detections_request) (st : server),
      d_is_json req = false \/ d_body req = NotAnObject ->
      (post_detections now req st).1 = st /\
      status_code (post_detections now req st).2 = 400) /\
  (forall (now : Z) (req : detections_request) (st : server)
          (detections : object_value),
      d_is_json req = true -> d_body req = ObjectBody detections ->
      domains (post_detections now req st).1 = detections /\
      (post_detections now req st).2 = OkEmpty) /\
  (forall (req : Legacy.detections_request) (domains : gmap string number),
      Legacy.d_is_json req = false \/ Legacy.is_object (Legacy.d_body req) = false ->
      (Legacy.post_detections req domains).1 = domains /\
      status_code (Legacy.post_detections req domains).2 = 400) /\
  (forall (req : Legacy.detections_request) (domains : gmap string number),
      Legacy.d_is_json req = true -> Legacy.is_object (Legacy.d_body req) = true ->
      (Legacy.post_detections req domains).2 = OkEmpty /\
      (forall k v,
          (Legacy.post_detections req domains).1 !! k = Some v ->
          domains !! k = Some v \/
          (In (k, JNumber v) (Legacy.entries (Legacy.d_body req)) /\
           num_ge v (number_of_Z 0) = true)) /\
      (forall k v,
          List.NoDup (map fst (Legacy.entries (Legacy.d_body req))) ->
          In (k, JNumber v) (Legacy.entries (Legacy.d_body req)) ->
          num_ge v (number_of_Z 0) = true ->
          (Legacy.post_detections req domains).1 !! k = Some v)).
Proof.
  split; [|split; [|split]].
  - intros now req st H. unfold post_detections.
    destruct (d_is_json req); [|split; reflexivity].
    destruct H as [H|H]; [discriminate|]. rewrite H. split; reflexivity.
  - intros now req st detections Hj Hb. unfold post_detections.
    rewrite Hj, Hb. split; reflexivity.
  - intros req domains H. unfold Legacy.post_detections.
    destruct (Legacy.d_is_json req); [|split; reflexivity].
    destruct H as [H|H]; [discriminate|]. rewrite H. split; reflexivity.
  - intros req domains Hj Hb. unfold Legacy.post_detections.
    rewrite Hj, Hb. cbn [fst snd]. split; [reflexivity|]. split.
    + intros k v. apply fold_record_count_sound.
    + intros k v. apply fold_record_count_complete.
Qed.

Lemma detections_validation_witness :
  (Legacy.post_detections example_detections ∅).2 = OkEmpty /\
  (forall k v,
      (Legacy.post_detections example_detections ∅).1 !! k = Some v ->
      (∅ : gmap string number) !! k = Some v \/
      (In (k, JNumber v) (Legacy.entries (Legacy.d_body example_detections)) /\
       num_ge v (number_of_Z 0) = true)) /\
  (forall k v,
      List.NoDup (map fst (Legacy.entries (Legacy.d_body example_detections))) ->
      In (k, JNumber v) (Legacy.entries (Legacy.d_body example_detections)) ->
      num_ge v (number_of_Z 0) = true ->
      (Legacy.post_detections example_detections ∅).1 !! k = Some v).
Proof.
  apply (proj2 (proj2 (proj2 detections_validation)) example_detections ∅).
  - reflexivity.
  - reflexivity.
Defined.

(** C4, the claim as worded fails on the current server: the negative
    count of the body is stored in the population object (and so is the
    count that is no number). *)
Lemma detections_stores_negative_count :
  ~ (forall (now : Z) (req : detections_request) (st : server)
            (detections : object_value) (k : string) (v : json),
        d_is_json req = true -> d_body req = ObjectBody detections ->
        own_members (domains (post_detections now req st).1) !! k = Some v ->
        exists n, v = JNumber n /\ num_ge n (number_of_Z 0) = true).
Proof.
  intros H.
  destruct (H 0
    {| d_is_json := true; d_content_type := Some "application/json";
       d_body := ObjectBody (PlainObject {[ "a" := JNumber (number_of_Z (-1));
                                            "b" := JString "many" ]}) |}
    example_server _ "a" (JNumber (number_of_Z (-1))) eq_refl eq_refl)
    as (n & Hn & Hge).
  - vm_compute. reflexivity.
  - injection Hn as <-. discriminate Hge.
Qed.

(** ** StatusRegistry: the inactivity timer *)

Lemma run_timers_none (now : Z) (st : server) :
  timers st = ∅ -> run_timers now st = st.
Proof.
  intros H. unfold run_timers, due_timers. rewrite H.
  rewrite map_filter_empty, map_to_list_empty. reflexivity.
Qed.

Lemma run_timers_single (now : Z) (st : server) (id : nat) (d : Z) :
  timers st = {[ id := d ]} ->
  run_timers now st = if decide (d <= now) then fire_timer id st else st.
Proof.
  intros H. unfold run_timers, due_timers. rewrite H.
  rewrite map_filter_singleton. cbn [snd].
  destruct (decide (d <= now)).
  - rewrite map_to_list_singleton. reflexivity.
  - rewrite map_to_list_empty. reflexivity.
Qed.

Lemma fire_timer_cleared (st : server) (id : nat) (d : Z) :
  timers st = {[ id := d ]} ->
  domains (fire_timer id st) = ∅ /\ status (fire_timer id st) = ∅ /\
  timers (fire_timer id st) = ∅ /\ detectionsTimeoutHandle (fire_timer id st) = None.
Proof.
  intros H. unfold fire_timer. cbn [domains status timers detectionsTimeoutHandle].
  rewrite H, delete_singleton_eq. auto.
Qed.

Lemma run_timers_invariant (now : Z) (st : server) :
  timer_invariant st -> timer_invariant (run_timers now st).
Proof.
  intros [[Hh Ht]|(id & d & Hh & Ht)].
  - rewrite run_timers_none by exact Ht. left. auto.
  - rewrite (run_timers_single now st id d Ht).
    destruct (decide (d <= now)).
    + left. destruct (fire_timer_cleared st id d Ht) as (_ & _ & H1 & H2). auto.
    + right. exists id, d. split; assumption.
Qed.

Lemma run_timers_timeout (now : Z) (st : server) :
  detectionsTimeout (run_timers now st) = detectionsTimeout st.
Proof.
  unfold run_timers. induction (due_timers now st) as [|id ids IH]; [reflexivity|].
  cbn [foldr]. exact IH.
Qed.

(** A request other than a detections post leaves the timers, the
    handle, the population map and the delay as they are. *)
Lemma handle_keeps_timers (now : Z) (r : request) (st : server) :
  is_detections_post r = false ->
  timers (handle now r st).1 = timers st /\
  detectionsTimeoutHandle (handle now r st).1 = detectionsTimeoutHandle st /\
  domains (handle now r st).1 = domains st /\
  detectionsTimeout (handle now r st).1 = detectionsTimeout st.
Proof.
  destruct r as [req|domain req| |domain q]; [discriminate| | |]; intros _;
    cbn [handle fst]; auto.
  unfold post_unit.
  destruct (u_body req) as [bytes|]; [|auto].
  destruct (includes _ _ && _); [|auto].
  destruct (readFloatLE bytes 0); [|auto].
  destruct (readFloatLE bytes 4); [|auto].
  destruct (readFloatLE bytes 8); [|auto].
  destruct (actuation _); auto.
Qed.

Lemma handle_timeout (now : Z) (r : request) (st : server) :
  detectionsTimeout (handle now r st).1 = detectionsTimeout st.
Proof.
  destruct (is_detections_post r) eqn:E.
  - destruct r as [req| | |]; try discriminate. cbn [handle].
    unfold post_detections.
    destruct (d_is_json req); [|reflexivity].
    destruct (d_body req); reflexivity.
  - apply handle_keeps_timers. exact E.
Qed.

Lemma post_detections_pending (now : Z) (req : detections_request) (st : server)
      (detections : object_value) :
  timer_invariant st ->
  d_is_json req = true -> d_body req = ObjectBody detections ->
  exists id, pending (post_detections now req st).1 id
                     (now + timer_delay (detectionsTimeout st)).
Proof.
  intros Hinv Hj Hb. unfold post_detections. rewrite Hj, Hb.
  exists (next_timer st). unfold pending, resetDetectionsTimeout.
  cbn [fst detectionsTimeoutHandle timers next_timer detectionsTimeout].
  split; [reflexivity|].
  destruct Hinv as [[Hh Ht]|(id & d & Hh & Ht)]; rewrite Hh, Ht.
  - reflexivity.
  - rewrite delete_singleton_eq. reflexivity.
Qed.

Lemma handle_invariant (now : Z) (r : request) (st : server) :
  timer_invariant st -> timer_invariant (handle now r st).1.
Proof.
  intros Hinv. destruct (is_detections_post r) eqn:E.
  - destruct r as [req| | |]; try discriminate. cbn [handle].
    destruct (d_is_json req) eqn:Hj.
    + destruct (d_body req) as [|detections] eqn:Hb.
      * unfold post_detections. rewrite Hj, Hb. exact Hinv.
      * destruct (post_detections_pending now req st detections Hinv Hj Hb) as [id H].
        right. eauto.
    + unfold post_detections. rewrite Hj. exact Hinv.
  - destruct (handle_keeps_timers now r st E) as (Ht & Hh & _).
    unfold timer_invariant, pending. rewrite Ht, Hh. exact Hinv.
Qed.

Lemma run_invariant (events : list (Z * request)) (st : server) :
  timer_invariant st -> timer_invariant (run events st).
Proof.
  revert st. induction events as [|ev events IH]; intros st H; [exact H|].
  unfold run in *. cbn [fold_left]. apply IH.
  unfold serve. apply handle_invariant, run_timers_invariant, H.
Qed.

Lemma run_timeout (events : list (Z * request)) (st : server) :
  detectionsTimeout (run events st) = detectionsTimeout st.
Proof.
  revert st. induction events as [|ev events IH]; intros st; [reflexivity|].
  unfold run in *. cbn [fold_left]. rewrite IH. unfold serve.
  rewrite handle_timeout. apply run_timers_timeout.
Qed.

Lemma run_timers_waiting (now : Z) (st : server) (id : nat) (d : Z) :
  waiting st id d -> waiting (run_timers now st) id d.
Proof.
  intros [[Hh Ht]|(Hh & Ht & Hd)].
  - rewrite (run_timers_single now st id d Ht).
    destruct (decide (d <= now)).
    + right. destruct (fire_timer_cleared st id d Ht) as (H1 & _ & H2 & H3). auto.
    + left. split; assumption.
  - rewrite run_timers_none by exact Ht. right. auto.
Qed.

Lemma run_waiting (events : list (Z * request)) (st : server) (id : nat) (d : Z) :
  forallb (λ ev, negb (is_detections_post ev.2)) events = true ->
  waiting st id d -> waiting (run events st) id d.
Proof.
  revert st. induction events as [|ev events IH]; intros st Hev H; [exact H|].
  cbn [forallb] in Hev. apply andb_prop in Hev as [He Hev].
  apply negb_true_iff in He.
  unfold run in *. cbn [fold_left]. apply IH; [exact Hev|].
  unfold serve.
  destruct (handle_keeps_timers ev.1 ev.2 (run_timers ev.1 st) He) as (Ht & Hh & Hd & _).
  pose proof (run_timers_waiting ev.1 st id d H) as Hw.
  unfold waiting, pending in *. rewrite Ht, Hh, Hd. exact Hw.
Qed.

Lemma get_status_empty (st : server) :
  domains st = ∅ -> get_status st = OkJsonStatus ∅.
Proof.
  intros H. unfold get_status. rewrite H.
  change (own_members ∅) with (∅ : gmap string json).
  rewrite map_imap_empty, delete_empty. reflexivity.
Qed.

(** ** Decimal digits *)

Lemma append_cons (x : ascii) (a b : string) :
  String x a +:+ b = String x (a +:+ b).
Proof. reflexivity. Qed.

Lemma append_nil_l (b : string) : EmptyString +:+ b = b.
Proof. reflexivity. Qed.

Lemma append_assoc (a b c : string) : (a +:+ b) +:+ c = a +:+ (b +:+ c).
Proof.
  induction a as [|x a IH]; [reflexivity|].
  rewrite !append_cons, IH. reflexivity.
Qed.

Lemma append_nil_r (a : string) : a +:+ EmptyString = a.
Proof.
  induction a as [|x a IH]; [reflexivity|]. rewrite append_cons, IH. reflexivity.
Qed.

Lemma str_length_cons (x : ascii) (a : string) :
  str_length (String x a) = 1 + str_length a.
Proof. unfold str_length. simpl String.length. lia. Qed.

Lemma str_length_nonneg (a : string) : 0 <= str_length a.
Proof. unfold str_length. lia. Qed.

Lemma str_length_app (a b : string) : str_length (a +:+ b) = str_length a + str_length b.
Proof.
  induction a as [|x a IH]; [rewrite append_nil_l; unfold str_length; simpl; lia|].
  rewrite append_cons, !str_length_cons, IH. lia.
Qed.

Lemma all_chars_app (p : ascii -> bool) (a b : string) :
  all_chars p (a +:+ b) = all_chars p a && all_chars p b.
Proof.
  induction a as [|x a IH]; [reflexivity|].
  rewrite append_cons. simpl. rewrite IH, andb_assoc. reflexivity.
Qed.

Lemma take_digits_app (ds rest : string) :
  all_chars is_digit ds = true -> no_digit_ahead rest = true ->
  take_digits (ds +:+ rest) = (ds, rest).
Proof.
  intros Hd Hr. induction ds as [|c ds IH].
  - rewrite append_nil_l. destruct rest as [|c r]; [reflexivity|].
    simpl in Hr. simpl. apply negb_true_iff in Hr. rewrite Hr. reflexivity.
  - simpl in Hd. apply andb_prop in Hd as [Hc Hd].
    rewrite append_cons. simpl. rewrite Hc, (IH Hd). reflexivity.
Qed.

Lemma digits_value_from_app (a : Z) (x y : string) :
  digits_value_from a (x +:+ y) = digits_value_from (digits_value_from a x) y.
Proof.
  revert a. induction x as [|c x IH]; intros a; [reflexivity|].
  rewrite append_cons. simpl. apply IH.
Qed.

Lemma digits_value_from_shift (a : Z) (x : string) :
  digits_value_from a x = a * 10 ^ str_length x + digits_value_from 0 x.
Proof.
  revert a. induction x as [|c x IH]; intros a.
  - simpl. unfold str_length. simpl. lia.
  - simpl digits_value_from. rewrite (IH (10 * a + _)), (IH (10 * 0 + _)).
    rewrite str_length_cons.
    replace (1 + str_length x) with (Z.succ (str_length x)) by lia.
    rewrite Z.pow_succ_r by apply str_length_nonneg. ring.
Qed.

Lemma digits_value_app (x y : string) :
  digits_value (x +:+ y) = digits_value x * 10 ^ str_length y + digits_value y.
Proof.
  unfold digits_value. rewrite digits_value_from_app, digits_value_from_shift.
  reflexivity.
Qed.

Lemma digit_char_code (d : Z) : 0 <= d < 10 -> char_code (digit_char d) = 48 + d.
Proof.
  intros H. unfold char_code, digit_char.
  rewrite N_ascii_embedding; [lia|].
  apply N2Z.inj_lt. rewrite Z2N.id by lia. simpl. lia.
Qed.

Lemma digit_char_is_digit (d : Z) : 0 <= d < 10 -> is_digit (digit_char d) = true.
Proof.
  intros H. unfold is_digit. rewrite digit_char_code by exact H.
  apply andb_true_intro. split; apply Z.leb_le; lia.
Qed.

Lemma decimal_digits_fuel_spec (fuel : nat) (z : Z) (acc : string) :
  0 < z < 2 ^ Z.of_nat fuel ->
  exists ds,
    decimal_digits_fuel fuel z acc = ds +:+ acc /\
    all_chars is_digit ds = true /\
    leading_nonzero ds = true /\
    digits_value ds = z.
Proof.
  revert z acc. induction fuel as [|fuel IH]; intros z acc Hz.
  - simpl in Hz. lia.
  - simpl decimal_digits_fuel.
    assert (Hmod : 0 <= z mod 10 < 10) by (apply Z.mod_pos_bound; lia).
    destruct (z <? 10) eqn:Hlt.
    + apply Z.ltb_lt in Hlt. rewrite Z.mod_small by lia.
      exists (String (digit_char z) EmptyString). split; [reflexivity|].
      split; [simpl; rewrite digit_char_is_digit by lia; reflexivity|].
      split.
      * simpl. rewrite digit_char_code by lia.
        apply andb_true_intro. split; apply Z.leb_le; lia.
      * unfold digits_value. simpl. rewrite digit_char_code by lia. lia.
    + apply Z.ltb_ge in Hlt.
      assert (Hq : 0 < z / 10 < 2 ^ Z.of_nat fuel).
      { rewrite Nat2Z.inj_succ, Z.pow_succ_r in Hz by lia.
        split; [apply Z.div_str_pos; lia|].
        apply Z.div_lt_upper_bound; lia. }
      destruct (IH (z / 10) (String (digit_char (z mod 10)) acc) Hq)
        as (ds & Hds & Hall & Hlead & Hval).
      exists (ds +:+ String (digit_char (z mod 10)) EmptyString).
      split; [rewrite Hds, append_assoc; reflexivity|].
      split; [rewrite all_chars_app, Hall; simpl;
              rewrite digit_char_is_digit by lia; reflexivity|].
      split.
      * destruct ds as [|c ds]; [discriminate|]. rewrite append_cons. exact Hlead.
      * rewrite digits_value_app, Hval. unfold digits_value, str_length.
        simpl String.length. simpl digits_value_from.
        rewrite digit_char_code by lia.
        pose proof (Z.div_mod z 10 ltac:(lia)). lia.
Qed.

Lemma decimal_digits_spec (z : Z) :
  0 < z ->
  all_chars is_digit (decimal_digits z) = true /\
  leading_nonzero (decimal_digits z) = true /\
  digits_value (decimal_digits z) = z.
Proof.
  intros Hz. unfold decimal_digits.
  destruct (decimal_digits_fuel_spec (S (Z.to_nat (Z.log2 z))) z EmptyString)
    as (ds & Hds & H).
  - split; [lia|]. rewrite Nat2Z.inj_succ, Z2Nat.id by apply Z.log2_nonneg.
    apply Z.log2_spec. lia.
  - rewrite Hds, append_nil_r. exact H.
Qed.

(** ** Reading back a decimal literal *)

Lemma number_ends_no_digit (rest : string) :
  number_ends rest = true -> no_digit_ahead rest = true.
Proof.
  destruct rest as [|c r]; [reflexivity|]. simpl.
  intros H. apply andb_prop in H as [H _]. apply andb_prop in H as [H _].
  apply andb_prop in H as [H _]. exact H.
Qed.

Lemma scan_exponent_none (rest : string) :
  number_ends rest = true -> scan_exponent rest = (0, rest).
Proof.
  destruct rest as [|c r]; [reflexivity|]. simpl. intros H.
  apply andb_prop in H as [H HE]. apply andb_prop in H as [H He].
  apply negb_true_iff in HE, He. rewrite He, HE. reflexivity.
Qed.

Lemma scan_exponent_text (v : Z) (rest : string) :
  v <> 0 -> number_ends rest = true ->
  scan_exponent (exponent_text v +:+ rest) = (v, rest).
Proof.
  intros Hv Hr.
  destruct (decimal_digits_spec (Z.abs v) ltac:(lia)) as (Hall & Hlead & Hval).
  unfold exponent_text. rewrite !append_assoc.
  change ("e" +:+ ?x) with (String "e"%char x).
  unfold scan_exponent. cbn [Ascii.eqb Bool.eqb orb andb].
  assert (Hne : decimal_digits (Z.abs v) <> EmptyString)
    by (destruct (decimal_digits (Z.abs v)); [discriminate | congruence]).
  destruct (0 <=? v) eqn:Hs.
  - change ("+" +:+ ?x) with (String "+"%char x). cbn [scan_sign].
    rewrite take_digits_app by (auto using number_ends_no_digit).
    destruct (decimal_digits (Z.abs v)) eqn:E; [congruence|].
    rewrite Hval. f_equal. apply Z.leb_le in Hs. lia.
  - change ("-" +:+ ?x) with (String "-"%char x). cbn [scan_sign].
    rewrite take_digits_app by (auto using number_ends_no_digit).
    destruct (decimal_digits (Z.abs v)) eqn:E; [congruence|].
    rewrite Hval. f_equal. apply Z.leb_gt in Hs. lia.
Qed.

Lemma scan_exponent_option (ev : option Z) (rest : string) :
  (forall v, ev = Some v -> v <> 0) -> number_ends rest = true ->
  scan_exponent (match ev with Some v => exponent_text v | None => EmptyString end
                 +:+ rest)
  = (default 0 ev, rest).
Proof.
  intros Hev Hr. destruct ev as [v|].
  - apply scan_exponent_text; auto.
  - rewrite append_nil_l. apply scan_exponent_none, Hr.
Qed.

Lemma exponent_part_no_digit (ev : option Z) (rest : string) :
  number_ends rest = true ->
  no_digit_ahead (match ev with Some v => exponent_text v | None => EmptyString end
                  +:+ rest) = true.
Proof.
  intros Hr. destruct ev as [v|]; [reflexivity|].
  rewrite append_nil_l. apply number_ends_no_digit, Hr.
Qed.

Lemma prefix_Infinity_digit (c : ascii) (r : string) :
  is_digit c = true -> String.prefix "Infinity" (String c r) = false.
Proof.
  intros H. destruct c as [[] [] [] [] [] [] [] []]; try discriminate H; reflexivity.
Qed.

(** [parseFloat]'s scanner on the text of a literal. *)
Lemma scan_unsigned_literal (int frac : string) (ev : option Z) (rest : string) :
  all_chars is_digit int = true -> int <> EmptyString ->
  all_chars is_digit frac = true ->
  (forall v, ev = Some v -> v <> 0) -> number_ends rest = true ->
  scan_unsigned (literal_text int frac ev +:+ rest)
  = Some (LitDecimal (digits_value (int +:+ frac)) (default 0 ev - str_length frac),
          rest).
Proof.
  intros Hint Hne Hfrac Hev Hr.
  unfold literal_text. rewrite !append_assoc.
  unfold scan_unsigned.
  destruct int as [|c int]; [congruence|].
  rewrite append_cons, prefix_Infinity_digit
    by (simpl in Hint; apply andb_prop in Hint as [H _]; exact H).
  rewrite <- append_cons.
  destruct frac as [|f frac].
  - rewrite append_nil_l.
    rewrite take_digits_app by (auto using exponent_part_no_digit).
    rewrite scan_exponent_option by assumption.
    rewrite append_nil_r. change (str_length EmptyString) with 0.
    rewrite Z.sub_0_r.
    destruct ev as [v|].
    + unfold exponent_text. rewrite !append_assoc.
      change ("e" +:+ ?x) with (String "e"%char x). reflexivity.
    + rewrite append_nil_l. destruct rest as [|r0 rest]; [reflexivity|].
      simpl in Hr. apply andb_prop in Hr as [Hr _]. apply andb_prop in Hr as [Hr _].
      apply andb_prop in Hr as [_ Hr]. apply negb_true_iff in Hr.
      destruct (ascii_dec r0 ".") as [->|Hd]; [discriminate Hr|].
      destruct r0 as [[] [] [] [] [] [] [] []]; try reflexivity. congruence.
  - rewrite append_assoc. change ("." +:+ ?x) with (String "."%char x).
    rewrite take_digits_app by (auto).
    rewrite take_digits_app by (auto using exponent_part_no_digit).
    rewrite scan_exponent_option by assumption.
    reflexivity.
Qed.

Lemma json_exponent_option (ev : option Z) (rest : string) :
  (forall v, ev = Some v -> v <> 0) -> number_ends rest = true ->
  json_exponent (match ev with Some v => exponent_text v | None => EmptyString end
                 +:+ rest)
  = Some (default 0 ev, rest).
Proof.
  intros Hev Hr. destruct ev as [v|].
  - specialize (Hev v eq_refl).
    destruct (decimal_digits_spec (Z.abs v) ltac:(lia)) as (Hall & Hlead & Hval).
    unfold exponent_text. rewrite !append_assoc.
    change ("e" +:+ ?x) with (String "e"%char x).
    unfold json_exponent. cbn [Ascii.eqb Bool.eqb orb andb].
    assert (Hne : decimal_digits (Z.abs v) <> EmptyString)
      by (destruct (decimal_digits (Z.abs v)); [discriminate | congruence]).
    destruct (0 <=? v) eqn:Hs.
    + change ("+" +:+ ?x) with (String "+"%char x). cbn [scan_sign].
      rewrite take_digits_app by (auto using number_ends_no_digit).
      destruct (decimal_digits (Z.abs v)) eqn:E; [congruence|].
      rewrite Hval. do 2 f_equal. apply Z.leb_le in Hs. simpl. lia.
    + change ("-" +:+ ?x) with (String "-"%char x). cbn [scan_sign].
      rewrite take_digits_app by (auto using number_ends_no_digit).
      destruct (decimal_digits (Z.abs v)) eqn:E; [congruence|].
      rewrite Hval. do 2 f_equal. apply Z.leb_gt in Hs. simpl. lia.
  - rewrite append_nil_l. destruct rest as [|c r]; [reflexivity|].
    simpl in Hr. apply andb_prop in Hr as [Hr HE]. apply andb_prop in Hr as [Hr He].
    apply negb_true_iff in HE, He. unfold json_exponent. rewrite He, HE. reflexivity.
Qed.

Lemma json_minus_digit (c : ascii) (r : string) :
  is_digit c = true -> json_minus (String c r) = (false, String c r).
Proof.
  intros H. destruct c as [[] [] [] [] [] [] [] []]; try discriminate H; reflexivity.
Qed.

Lemma json_fraction_none (rest : string) :
  number_ends rest = true \/ (exists r, rest = String "e"%char r) ->
  json_fraction rest = Some (EmptyString, rest).
Proof.
  intros [H|[r ->]]; [|reflexivity].
  destruct rest as [|c r]; [reflexivity|].
  simpl in H. apply andb_prop in H as [H _]. apply andb_prop in H as [H _].
  apply andb_prop in H as [_ H]. apply negb_true_iff in H.
  destruct c as [[] [] [] [] [] [] [] []]; try reflexivity. discriminate H.
Qed.

Lemma leading_nonzero_not_zero (c : ascii) (more : string) :
  leading_nonzero (String c more) = true -> Ascii.eqb c "0"%char = false.
Proof.
  intros H. destruct c as [[] [] [] [] [] [] [] []]; try reflexivity. discriminate H.
Qed.

(** [JSON.parse]'s number reader on the text of a literal. *)
Lemma parse_json_number_literal (neg : bool) (int frac : string) (ev : option Z)
      (rest : string) :
  all_chars is_digit int = true ->
  leading_nonzero int = true \/ int = "0" ->
  all_chars is_digit frac = true ->
  (forall v, ev = Some v -> v <> 0) -> number_ends rest = true ->
  parse_json_number ((if neg then "-" else EmptyString)
                     +:+ literal_text int frac ev +:+ rest)
  = Some (number_of_decimal neg (digits_value (int +:+ frac))
                                (default 0 ev - str_length frac), rest).
Proof.
  intros Hint Hlead Hfrac Hev Hr.
  unfold literal_text. rewrite !append_assoc.
  assert (Hne : exists c more, int = String c more /\ is_digit c = true /\
                  Ascii.eqb c "0"%char && negb (String.eqb more EmptyString) = false).
  { destruct Hlead as [Hl| ->].
    - destruct int as [|c more]; [discriminate|]. exists c, more.
      split; [reflexivity|]. simpl in Hint. apply andb_prop in Hint as [Hc _].
      split; [exact Hc|]. rewrite (leading_nonzero_not_zero c more Hl). reflexivity.
    - exists "0"%char, EmptyString. repeat split. }
  destruct Hne as (c & more & -> & Hc & Hz).
  unfold parse_json_number.
  assert (Hm : json_minus ((if neg then "-" else EmptyString) +:+ String c more
                           +:+ match frac with
                               | EmptyString => EmptyString
                               | _ => "." +:+ frac
                               end
                           +:+ match ev with
                               | Some v => exponent_text v
                               | None => EmptyString
                               end +:+ rest)
               = (neg, String c more
                       +:+ match frac with
                           | EmptyString => EmptyString
                           | _ => "." +:+ frac
                           end
                       +:+ match ev with
                           | Some v => exponent_text v
                           | None => EmptyString
                           end +:+ rest)).
  { destruct neg; [reflexivity|]. rewrite append_nil_l, append_cons.
    apply json_minus_digit, Hc. }
  rewrite Hm. clear Hm.
  destruct frac as [|f frac].
  - rewrite append_nil_l.
    rewrite take_digits_app by (auto using exponent_part_no_digit).
    rewrite Hz.
    rewrite json_fraction_none.
    + rewrite json_exponent_option by assumption. reflexivity.
    + destruct ev as [v|].
      * right. unfold exponent_text. rewrite !append_assoc.
        change ("e" +:+ ?x) with (String "e"%char x). eauto.
      * left. rewrite append_nil_l. exact Hr.
  - rewrite append_assoc. change ("." +:+ ?x) with (String "."%char x).
    rewrite take_digits_app by auto.
    rewrite Hz. unfold json_fraction.
    rewrite take_digits_app by (auto using exponent_part_no_digit).
    rewrite json_exponent_option by assumption. reflexivity.
Qed.

(** ** The notation of Number::toString is a decimal literal *)

Lemma zeros_digits (n : nat) : all_chars is_digit (zeros n) = true.
Proof. induction n as [|n IH]; [reflexivity|]. simpl. exact IH. Qed.

Lemma zeros_value_from (n : nat) : digits_value_from 0 (zeros n) = 0.
Proof. induction n as [|n IH]; [reflexivity|]. simpl. exact IH. Qed.

Lemma zeros_length (n : nat) : str_length (zeros n) = Z.of_nat n.
Proof.
  induction n as [|n IH]; [reflexivity|].
  simpl zeros. rewrite str_length_cons, IH. lia.
Qed.

Lemma take_drop (n : nat) (s : string) : str_take n s +:+ str_drop n s = s.
Proof.
  revert s. induction n as [|n IH]; intros s; [reflexivity|].
  destruct s as [|c s]; [reflexivity|]. simpl. rewrite append_cons, IH. reflexivity.
Qed.

Lemma all_chars_take (p : ascii -> bool) (n : nat) (s : string) :
  all_chars p s = true -> all_chars p (str_take n s) = true.
Proof.
  revert s. induction n as [|n IH]; intros s H; [reflexivity|].
  destruct s as [|c s]; [reflexivity|]. simpl in *.
  apply andb_prop in H as [Hc H]. rewrite Hc, (IH s H). reflexivity.
Qed.

Lemma all_chars_drop (p : ascii -> bool) (n : nat) (s : string) :
  all_chars p s = true -> all_chars p (str_drop n s) = true.
Proof.
  revert s. induction n as [|n IH]; intros s H; [exact H|].
  destruct s as [|c s]; [reflexivity|]. simpl in *.
  apply andb_prop in H as [_ H]. exact (IH s H).
Qed.

Lemma str_drop_length (n : nat) (s : string) :
  Z.of_nat n <= str_length s -> str_length (str_drop n s) = str_length s - Z.of_nat n.
Proof.
  revert s. induction n as [|n IH]; intros s H; [simpl; lia|].
  destruct s as [|c s].
  - unfold str_length in H. simpl in H. lia.
  - simpl str_drop. rewrite str_length_cons in *. rewrite IH by lia. lia.
Qed.

Lemma leading_nonzero_take (n : nat) (s : string) :
  (0 < n)%nat -> leading_nonzero s = true -> leading_nonzero (str_take n s) = true.
Proof.
  intros Hn H. destruct n as [|n]; [lia|]. destruct s as [|c s]; [discriminate|].
  exact H.
Qed.

Lemma str_length_zero (s : string) : str_length s = 0 -> s = EmptyString.
Proof.
  destruct s as [|c s]; [reflexivity|]. rewrite str_length_cons.
  pose proof (str_length_nonneg s). lia.
Qed.

Lemma binary_round_aux_sign (m e : Z) (l : location) :
  binary_round_aux prec emax true m e l
  = SFopp (binary_round_aux prec emax false m e l).
Proof.
  unfold binary_round_aux.
  destruct (shr_fexp prec emax m e l) as [mrs' e'].
  destruct (shr_fexp prec emax _ e' loc_Exact) as [mrs'' e''].
  destruct (shr_m mrs''); try reflexivity.
  destruct (e'' <=? emax - prec); reflexivity.
Qed.

(** The value of a literal with a non-negative exponent is the value of
    its digits written out. *)
Lemma number_of_decimal_scale (neg : bool) (s x : Z) :
  0 < s -> 0 <= x ->
  number_of_decimal neg (s * 10 ^ x) 0 = number_of_decimal neg s x.
Proof.
  intros Hs Hx.
  assert (Hp : 0 < 10 ^ x) by (apply Z.pow_pos_nonneg; lia).
  destruct s as [|p|p]; try lia.
  destruct (Zpos p * 10 ^ x) as [|q|q] eqn:E; try lia.
  unfold number_of_decimal.
  replace (0 <=? x) with true by (symmetry; apply Z.leb_le; lia).
  simpl (0 <=? 0). cbv iota.
  replace (q * Z.to_pos (10 ^ 0))%positive with (p * Z.to_pos (10 ^ x))%positive;
    [reflexivity|].
  apply Pos2Z.inj. rewrite !Pos2Z.inj_mul, !Z2Pos.id by lia.
  rewrite E. simpl. lia.
Qed.

Lemma format_decimal_literal (s x : Z) :
  0 < s ->
  exists int frac ev,
    format_decimal s x = literal_text int frac ev /\
    all_chars is_digit int = true /\
    (leading_nonzero int = true \/ int = "0") /\
    int <> EmptyString /\
    all_chars is_digit frac = true /\
    (forall v, ev = Some v -> v <> 0) /\
    (forall neg,
        number_of_decimal neg (digits_value (int +:+ frac))
                          (default 0 ev - str_length frac)
        = number_of_decimal neg s x).
Proof.
  intros Hs.
  destruct (decimal_digits_spec s Hs) as (Hall & Hlead & Hval).
  unfold format_decimal.
  set (ds := decimal_digits s) in *.
  set (k := str_length ds).
  assert (Hk : 1 <= k).
  { unfold k. destruct ds as [|c d]; [discriminate|].
    rewrite str_length_cons. pose proof (str_length_nonneg d). lia. }
  assert (Hds : ds <> EmptyString) by (destruct ds; [discriminate | congruence]).
  destruct ((-6 <? x + k) && (x + k <=? 21)) eqn:Hrange.
  - destruct (k <=? x + k) eqn:Hkn.
    + (* digits followed by zeros *)
      apply Z.leb_le in Hkn.
      exists (ds +:+ zeros (Z.to_nat (x + k - k))), EmptyString, None.
      split; [unfold literal_text; rewrite !append_nil_r; reflexivity|].
      split; [rewrite all_chars_app, Hall, zeros_digits; reflexivity|].
      split; [left; destruct ds; [discriminate | exact Hlead]|].
      split; [destruct ds; [congruence | discriminate]|].
      split; [reflexivity|]. split; [discriminate|].
      intros neg. rewrite append_nil_r, digits_value_app, Hval.
      unfold digits_value at 1. rewrite zeros_value_from, zeros_length.
      rewrite Z2Nat.id by lia. simpl default. change (str_length EmptyString) with 0.
      replace (x + k - k) with x by lia. rewrite Z.add_0_r, Z.sub_0_r.
      apply number_of_decimal_scale; lia.
    + apply Z.leb_gt in Hkn.
      destruct (0 <? x + k) eqn:Hn.
      * (* a point inside the digits *)
        apply Z.ltb_lt in Hn.
        assert (Hlen : str_length (str_drop (Z.to_nat (x + k)) ds) = - x).
        { rewrite str_drop_length; rewrite Z2Nat.id by lia; fold k; lia. }
        exists (str_take (Z.to_nat (x + k)) ds), (str_drop (Z.to_nat (x + k)) ds), None.
        split.
        { unfold literal_text.
          destruct (str_drop (Z.to_nat (x + k)) ds) eqn:E.
          - unfold str_length in Hlen. simpl in Hlen. lia.
          - rewrite append_nil_r. reflexivity. }
        split; [apply all_chars_take, Hall|].
        split; [left; apply leading_nonzero_take; [lia | exact Hlead]|].
        split.
        { intros E. pose proof (leading_nonzero_take (Z.to_nat (x + k)) ds
                                  ltac:(lia) Hlead) as H.
          rewrite E in H. discriminate H. }
        split; [apply all_chars_drop, Hall|]. split; [discriminate|].
        intros neg. rewrite take_drop, Hval, Hlen. simpl default.
        f_equal. lia.
      * (* 0. then zeros then the digits *)
        apply Z.ltb_ge in Hn.
        exists "0", (zeros (Z.to_nat (- (x + k))) +:+ ds), None.
        assert (Hfrac : zeros (Z.to_nat (- (x + k))) +:+ ds <> EmptyString).
        { intros E. apply (f_equal str_length) in E.
          rewrite str_length_app in E. fold k in E.
          pose proof (str_length_nonneg (zeros (Z.to_nat (- (x + k))))).
          change (str_length EmptyString) with 0 in E. lia. }
        split.
        { unfold literal_text.
          destruct (zeros (Z.to_nat (- (x + k))) +:+ ds) eqn:E; [congruence|].
          rewrite append_nil_r. reflexivity. }
        split; [reflexivity|]. split; [right; reflexivity|].
        split; [discriminate|].
        split; [rewrite all_chars_app, zeros_digits, Hall; reflexivity|].
        split; [discriminate|].
        intros neg. rewrite str_length_app, zeros_length. fold k.
        rewrite Z2Nat.id by lia.
        change ("0" +:+ ?y) with (String "0"%char y).
        unfold digits_value. simpl digits_value_from at 1.
        rewrite digits_value_from_app, zeros_value_from.
        fold (digits_value ds). rewrite Hval. simpl default. f_equal. lia.
  - assert (Hex : x + k - 1 <> 0).
    { apply andb_false_iff in Hrange as [H|H];
        [apply Z.ltb_ge in H | apply Z.leb_gt in H]; lia. }
    destruct (k =? 1) eqn:Hk1.
    + (* one digit and an exponent *)
      apply Z.eqb_eq in Hk1.
      exists ds, EmptyString, (Some (x + k - 1)).
      split; [unfold literal_text, exponent_text; rewrite append_nil_l; reflexivity|].
      split; [exact Hall|]. split; [left; exact Hlead|]. split; [exact Hds|].
      split; [reflexivity|]. split; [intros v [= <-]; exact Hex|].
      intros neg. rewrite append_nil_r, Hval. simpl default.
      change (str_length EmptyString) with 0. f_equal. lia.
    + (* one digit, a point, the other digits and an exponent *)
      apply Z.eqb_neq in Hk1.
      assert (Hlen : str_length (str_drop 1 ds) = k - 1).
      { rewrite str_drop_length; fold k; simpl Z.of_nat; lia. }
      exists (str_take 1 ds), (str_drop 1 ds), (Some (x + k - 1)).
      split.
      { unfold literal_text, exponent_text.
        destruct (str_drop 1 ds) eqn:E.
        - unfold str_length in Hlen. simpl in Hlen. lia.
        - rewrite !append_assoc. reflexivity. }
      split; [apply all_chars_take, Hall|].
      split; [left; apply leading_nonzero_take; [lia | exact Hlead]|].
      split.
      { intros E. pose proof (leading_nonzero_take 1 ds ltac:(lia) Hlead) as H.
        rewrite E in H. discriminate H. }
      split; [apply all_chars_drop, Hall|].
      split; [intros v [= <-]; exact Hex|].
      intros neg. rewrite take_drop, Hval, Hlen. simpl default. f_equal. lia.
Qed.

(** ** Number::toString reads back as the same double *)

Lemma same_number_eq (x y : number) : same_number x y = true -> x = y.
Proof.
  destruct x as [a|a| |a m e], y as [b|b| |b m' e']; simpl; try discriminate;
    try reflexivity.
  - intros H. apply Bool.eqb_prop in H. congruence.
  - intros H. apply Bool.eqb_prop in H. congruence.
  - intros H. apply andb_prop in H as [H He]. apply andb_prop in H as [Hs Hm].
    apply Bool.eqb_prop in Hs. apply Pos.eqb_eq in Hm. apply Z.eqb_eq in He.
    congruence.
Qed.

Lemma shortest_with_reads (m : positive) (e num den n k s x : Z) :
  shortest_with m e num den n k = Some (s, x) ->
  number_of_decimal false s x = S754_finite false m e.
Proof.
  unfold shortest_with.
  destruct (if n - k <=? 0 then Z.div_eucl (num * 10 ^ (- (n - k))) den
            else Z.div_eucl num (den * 10 ^ (n - k))) as [q r].
  set (hi := if q + 1 <? 10 ^ k then (q + 1, n - k) else (10 ^ (k - 1), n - k + 1)).
  destruct (same_number (number_of_decimal false q (n - k)) (S754_finite false m e))
    eqn:Hlo;
    destruct (same_number (number_of_decimal false hi.1 hi.2) (S754_finite false m e))
      eqn:Hhi.
  all: destruct hi as [hs hx]; cbn [fst snd] in Hhi; rewrite Hhi.
  all: apply same_number_eq in Hlo || clear Hlo.
  all: apply same_number_eq in Hhi || clear Hhi.
  - destruct (2 * r ?= _); [destruct (Z.even q)| |]; intros [= <- <-]; assumption.
  - intros [= <- <-]; assumption.
  - intros [= <- <-]; assumption.
  - discriminate.
Qed.

Lemma shortest_search_reads (m : positive) (e num den n : Z) (ks : list Z) (s x : Z) :
  shortest_search m e num den n ks = Some (s, x) ->
  number_of_decimal false s x = S754_finite false m e.
Proof.
  induction ks as [|k ks IH]; [discriminate|]. simpl.
  destruct (shortest_with m e num den n k) as [[s' x']|] eqn:E.
  - intros [= <- <-]. apply (shortest_with_reads _ _ _ _ _ _ _ _ E).
  - exact IH.
Qed.

(** The decimal chosen for a double is positive and reads back as that
    double. *)
Lemma shortest_decimal_reads (m : positive) (e : Z) :
  bounded prec emax m e = true ->
  0 < (shortest_decimal m e).1 /\
  number_of_decimal false (shortest_decimal m e).1 (shortest_decimal m e).2
  = S754_finite false m e.
Proof.
  intros Hb.
  assert (Hpos : forall s x, number_of_decimal false s x = S754_finite false m e -> 0 < s).
  { intros s x H. destruct s as [|p|p]; [discriminate H | lia | discriminate H]. }
  unfold shortest_decimal.
  destruct (shortest_search m e _ _ _ _) as [[s x]|] eqn:E.
  - apply shortest_search_reads in E. cbn [fst snd]. split; [eapply Hpos|]; exact E.
  - assert (Hexact : number_of_decimal false
                       (if 0 <=? e then (Zpos m * 2 ^ e, 0) else (Zpos m * 5 ^ (- e), e)).1
                       (if 0 <=? e then (Zpos m * 2 ^ e, 0) else (Zpos m * 5 ^ (- e), e)).2
                     = S754_finite false m e).
    { destruct (0 <=? e) eqn:He; cbn [fst snd].
      - apply Z.leb_le in He.
        assert (Hp : 0 < 2 ^ e) by (apply Z.pow_pos_nonneg; lia).
        destruct (Zpos m * 2 ^ e) as [|p|p] eqn:Ep; try lia.
        unfold number_of_decimal. simpl (0 <=? 0). cbv iota.
        apply (SFdiv_exact false _ 0 false 1 0 m e Hb).
        rewrite Z.max_l by lia. rewrite Z.max_r by lia.
        rewrite Pos2Z.inj_mul. change (Z.to_pos (10 ^ 0)) with 1%positive.
        rewrite <- Ep. replace (e - (0 - 0)) with e by lia. simpl (2 ^ 0). ring.
      - apply Z.leb_gt in He.
        assert (Hp5 : 0 < 5 ^ (- e)) by (apply Z.pow_pos_nonneg; lia).
        assert (Hp10 : 0 < 10 ^ (- e)) by (apply Z.pow_pos_nonneg; lia).
        destruct (Zpos m * 5 ^ (- e)) as [|p|p] eqn:Ep; try lia.
        unfold number_of_decimal.
        replace (0 <=? e) with false by (symmetry; apply Z.leb_gt; lia).
        apply (SFdiv_exact false _ 0 false _ 0 m e Hb).
        rewrite Z.max_r by lia. rewrite Z.max_l by lia.
        rewrite Z2Pos.id by lia. rewrite <- Ep.
        replace (0 - 0 - e) with (- e) by lia.
        change 10 with (5 * 2). rewrite Z.pow_mul_l. simpl (2 ^ 0). ring. }
    split; [eapply Hpos|]; exact Hexact.
Qed.

Lemma number_of_decimal_sign (s x : Z) :
  number_of_decimal true s x = SFopp (number_of_decimal false s x).
Proof.
  unfold number_of_decimal. destruct s as [|p|p]; try reflexivity.
  destruct (0 <=? x); unfold SFdiv;
    match goal with
    | |- context [SFdiv_core_binary ?a ?b ?c ?d ?e ?f] =>
        destruct (SFdiv_core_binary a b c d e f) as [[mz ez] lz]
    end; apply binary_round_aux_sign.
Qed.

Lemma number_of_decimal_signed (neg : bool) (m : positive) (e s x : Z) :
  number_of_decimal false s x = S754_finite false m e ->
  number_of_decimal neg s x = S754_finite neg m e.
Proof.
  intros H. destruct neg; [|exact H].
  rewrite number_of_decimal_sign, H. reflexivity.
Qed.

Lemma scan_sign_digit (c : ascii) (r : string) :
  is_digit c = true -> scan_sign (String c r) = (false, String c r).
Proof.
  intros H. destruct c as [[] [] [] [] [] [] [] []]; try discriminate H; reflexivity.
Qed.

Lemma trimStart_digit (c : ascii) (r : string) :
  is_digit c = true -> trimStart (String c r) = String c r.
Proof.
  intros H. destruct c as [[] [] [] [] [] [] [] []]; try discriminate H; reflexivity.
Qed.

Lemma literal_text_head (int frac : string) (ev : option Z) :
  all_chars is_digit int = true -> int <> EmptyString ->
  exists c r, literal_text int frac ev = String c r /\ is_digit c = true.
Proof.
  intros H Hne. destruct int as [|c int]; [congruence|].
  simpl in H. apply andb_prop in H as [Hc _].
  unfold literal_text. rewrite append_cons. eauto.
Qed.

(** [parseFloat] gives back every double from its decimal notation; only
    the sign of zero is lost (both zeros print as [0]). *)
Theorem parseFloat_Number_toString (x : number) :
  is_double x = true -> x <> S754_zero true ->
  parseFloat (Number_toString x) = x.
Proof.
  intros Hv Hz. destruct x as [s|s| |s m e].
  - destruct s; [congruence | reflexivity].
  - destruct s; reflexivity.
  - reflexivity.
  - simpl in Hv. destruct (shortest_decimal_reads m e Hv) as [Hpos Hread].
    unfold Number_toString.
    destruct (shortest_decimal m e) as [d x] eqn:E. cbn [fst snd] in Hpos, Hread.
    destruct (format_decimal_literal d x Hpos)
      as (int & frac & ev & Htext & Hint & Hlead & Hne & Hfrac & Hev & Hval).
    destruct (literal_text_head int frac ev Hint Hne) as (c & r & Hhead & Hc).
    assert (Hscan : scan_unsigned (format_decimal d x)
                    = Some (LitDecimal (digits_value (int +:+ frac))
                                       (default 0 ev - str_length frac), EmptyString)).
    { rewrite Htext, <- (append_nil_r (literal_text int frac ev)).
      apply scan_unsigned_literal; auto. }
    unfold parseFloat. destruct s.
    + change ("-" +:+ ?y) with (String "-"%char y). cbn [trimStart is_white_space].
      change (is_white_space "-") with false. cbv iota. cbn [scan_sign].
      rewrite Hscan. simpl literal_value. rewrite Hval.
      apply number_of_decimal_signed, Hread.
    + rewrite append_nil_l, Htext, Hhead, trimStart_digit, scan_sign_digit by exact Hc.
      rewrite <- Hhead, <- Htext, Hscan. simpl literal_value. rewrite Hval.
      apply number_of_decimal_signed, Hread.
Qed.

(** ** JSON numbers *)

Lemma member_ends_number_ends (rest : string) :
  member_ends rest = true -> number_ends rest = true.
Proof.
  destruct rest as [|c r]; [discriminate|]. simpl.
  destruct c as [[] [] [] [] [] [] [] []]; try discriminate; reflexivity.
Qed.

(** A finite double written by [JSON.stringify] is read back by the
    number reader of [JSON.parse]. *)
Lemma parse_json_number_stringify (x : number) (rest : string) :
  is_double x = true -> is_finite x = true -> number_ends rest = true ->
  parse_json_number (JSON_stringify_number x +:+ rest)
  = Some (drop_zero_sign x, rest).
Proof.
  intros Hv Hf Hr. unfold JSON_stringify_number. rewrite Hf.
  destruct x as [s|s| |s m e]; try discriminate.
  - (* both zeros are written 0 *)
    exact (parse_json_number_literal false "0" EmptyString None rest
             eq_refl (or_intror eq_refl) eq_refl
             ltac:(discriminate) Hr).
  - simpl in Hv. destruct (shortest_decimal_reads m e Hv) as [Hpos Hread].
    unfold Number_toString.
    destruct (shortest_decimal m e) as [d x] eqn:E. cbn [fst snd] in Hpos, Hread.
    destruct (format_decimal_literal d x Hpos)
      as (int & frac & ev & Htext & Hint & Hlead & Hne & Hfrac & Hev & Hval).
    rewrite Htext, append_assoc.
    rewrite parse_json_number_literal by assumption.
    rewrite Hval, (number_of_decimal_signed s m e d x Hread). reflexivity.
Qed.

Lemma Number_toString_head (s : bool) (m : positive) (e : Z) :
  bounded prec emax m e = true ->
  exists c r, Number_toString (S754_finite s m e) = String c r /\
              (is_digit c = true \/ c = "-"%char).
Proof.
  intros Hv. destruct (shortest_decimal_reads m e Hv) as [Hpos _].
  unfold Number_toString. destruct (shortest_decimal m e) as [d x].
  cbn [fst] in Hpos.
  destruct (format_decimal_literal d x Hpos)
    as (int & frac & ev & Htext & Hint & _ & Hne & _).
  destruct (literal_text_head int frac ev Hint Hne) as (c & r & Hhead & Hc).
  rewrite Htext, Hhead. destruct s.
  - exists "-"%char, (String c r). split; [reflexivity | right; reflexivity].
  - exists c, r. split; [reflexivity | left; exact Hc].
Qed.

Lemma parse_json_value_number (fuel : nat) (c : ascii) (r : string) :
  is_digit c = true \/ c = "-"%char ->
  parse_json_value (S fuel) (String c r)
  = match parse_json_number (String c r) with
    | Some (n, r') => Some (JNumber n, r')
    | None => None
    end.
Proof.
  intros [H| ->]; [|reflexivity].
  destruct c as [[] [] [] [] [] [] [] []]; try discriminate H; reflexivity.
Qed.

(** A number member of an object, as [JSON.stringify] writes it, is read
    back by the value reader of [JSON.parse]. *)
Lemma parse_json_value_stringify_number (fuel : nat) (x : number) (rest : string) :
  is_double x = true -> member_ends rest = true ->
  parse_json_value (S fuel) (JSON_stringify_number x +:+ rest)
  = Some (json_of_number x, rest).
Proof.
  intros Hv Hr. unfold json_of_number.
  destruct (is_finite x) eqn:Hf.
  - pose proof (parse_json_number_stringify x rest Hv Hf
                  (member_ends_number_ends rest Hr)) as Hp.
    assert (Hhead : exists c r, JSON_stringify_number x +:+ rest = String c r /\
                                (is_digit c = true \/ c = "-"%char)).
    { unfold JSON_stringify_number. rewrite Hf.
      destruct x as [s|s| |s m e]; try discriminate.
      - exists "0"%char, rest. split; [reflexivity | left; reflexivity].
      - destruct (Number_toString_head s m e Hv) as (c & r & -> & Hc).
        exists c, (r +:+ rest). split; [reflexivity | exact Hc]. }
    destruct Hhead as (c & r & Hh & Hc).
    rewrite Hh in *. rewrite parse_json_value_number by exact Hc.
    rewrite Hp. reflexivity.
  - unfold JSON_stringify_number. rewrite Hf.
    destruct rest as [|c r]; [discriminate Hr|]. reflexivity.
Qed.

(** ** The JSON text of a reading *)

(** The text when a member is written for the population, and when it
    is a function (no member is written for it). *)
Lemma reading_text_member (r : reading) (text : string) :
  JSON_stringify_member (r_population r) = Some text ->
  JSON_stringify_reading r
  = String "{" (quoted "temperature" +:+ String ":"
      (JSON_stringify_number (r_temperature r) +:+ String ","
        (quoted "humidity" +:+ String ":"
          (JSON_stringify_number (r_humidity r) +:+ String ","
            (quoted "fan_rpm" +:+ String ":"
              (JSON_stringify_number (r_fan_rpm r) +:+ String ","
                (quoted "population" +:+ String ":" (text +:+ "}")))))))).
Proof.
  intros H. unfold JSON_stringify_reading. rewrite H.
  rewrite !append_cons, !append_nil_l. reflexivity.
Qed.

Lemma reading_text (r : reading) (n : number) :
  r_population r = Json (JNumber n) ->
  JSON_stringify_reading r
  = String "{" (quoted "temperature" +:+ String ":"
      (JSON_stringify_number (r_temperature r) +:+ String ","
        (quoted "humidity" +:+ String ":"
          (JSON_stringify_number (r_humidity r) +:+ String ","
            (quoted "fan_rpm" +:+ String ":"
              (JSON_stringify_number (r_fan_rpm r) +:+ String ","
                (quoted "population" +:+ String ":"
                  (JSON_stringify_number n +:+ "}")))))))).
Proof.
  intros H. apply reading_text_member. rewrite H. reflexivity.
Qed.

Lemma reading_text_function (r : reading) :
  r_population r = Builtin BuiltinFunction ->
  JSON_stringify_reading r
  = String "{" (quoted "temperature" +:+ String ":"
      (JSON_stringify_number (r_temperature r) +:+ String ","
        (quoted "humidity" +:+ String ":"
          (JSON_stringify_number (r_humidity r) +:+ String ","
            (quoted "fan_rpm" +:+ String ":"
              (JSON_stringify_number (r_fan_rpm r) +:+ "}")))))).
Proof.
  intros H. unfold JSON_stringify_reading. rewrite H.
  cbn [JSON_stringify_member].
  rewrite !append_cons, !append_nil_l. reflexivity.
Qed.

Lemma parse_json_props_unfold (fuel : nat) (s : string) :
  parse_json_props (S fuel) s
  = match skip_space s with
    | String q r0 =>
        if char_code q =? 34 then
          match parse_json_chars r0 with
          | Some (key, r1) =>
              match skip_space r1 with
              | String ":"%char r2 =>
                  match parse_json_value fuel r2 with
                  | Some (v, r3) =>
                      match skip_space r3 with
                      | String ","%char r4 =>
                          match parse_json_props fuel r4 with
                          | Some (ps, r5) => Some ((key, v) :: ps, r5)
                          | None => None
                          end
                      | String "}"%char r4 => Some ([(key, v)], r4)
                      | _ => None
                      end
                  | None => None
                  end
              | _ => None
              end
          | None => None
          end
        else None
    | EmptyString => None
    end.
Proof. reflexivity. Qed.

(** One member with a number value, followed by more members. *)
Lemma parse_json_props_number (fuel : nat) (key : string) (x : number)
      (rest : string) (more : list (string * json)) (tail : string) :
  is_double x = true ->
  parse_json_chars (key +:+ dquote +:+ String ":" (JSON_stringify_number x +:+ String "," rest))
  = Some (key, String ":" (JSON_stringify_number x +:+ String "," rest)) ->
  parse_json_props fuel rest = Some (more, tail) ->
  parse_json_props (S fuel)
    (quoted key +:+ String ":" (JSON_stringify_number x +:+ String "," rest))
  = Some ((key, json_of_number x) :: more, tail).
Proof.
  intros Hx Hkey Hrest.
  destruct fuel as [|fuel]; [discriminate Hrest|].
  unfold quoted. rewrite !append_assoc.
  change (dquote +:+ ?y) with (String (ascii_of_N 34) y) at 1.
  rewrite parse_json_props_unfold. cbn [skip_space].
  change (is_json_space (ascii_of_N 34)) with false. cbv iota.
  change (char_code (ascii_of_N 34) =? 34) with true. cbv iota.
  rewrite Hkey. cbn [skip_space].
  change (is_json_space ":") with false. cbv iota.
  rewrite parse_json_value_stringify_number by auto.
  cbn [skip_space]. change (is_json_space ",") with false. cbv iota.
  rewrite Hrest. reflexivity.
Qed.

(** The last member. *)
Lemma parse_json_props_last (fuel : nat) (key : string) (x : number) :
  is_double x = true ->
  parse_json_chars (key +:+ dquote +:+ String ":" (JSON_stringify_number x +:+ "}"))
  = Some (key, String ":" (JSON_stringify_number x +:+ "}")) ->
  parse_json_props (S (S fuel))
    (quoted key +:+ String ":" (JSON_stringify_number x +:+ "}"))
  = Some ([(key, json_of_number x)], EmptyString).
Proof.
  intros Hx Hkey.
  unfold quoted. rewrite !append_assoc.
  change (dquote +:+ ?y) with (String (ascii_of_N 34) y) at 1.
  rewrite parse_json_props_unfold. cbn [skip_space].
  change (is_json_space (ascii_of_N 34)) with false. cbv iota.
  change (char_code (ascii_of_N 34) =? 34) with true. cbv iota.
  rewrite Hkey. cbn [skip_space].
  change (is_json_space ":") with false. cbv iota.
  rewrite parse_json_value_stringify_number by auto.
  reflexivity.
Qed.

Lemma parse_json_object (fuel : nat) (members : string)
      (props : list (string * json)) (rest : string) :
  (exists r0, members = String (ascii_of_N 34) r0) ->
  parse_json_props fuel members = Some (props, rest) ->
  parse_json_value (S fuel) (String "{" members) = Some (JObject props, rest).
Proof.
  intros [r0 Hc] Hm.
  cbn [parse_json_value skip_space].
  change (is_json_space "{") with false. cbv iota.
  change (Ascii.eqb "{" "{") with true. cbv iota.
  rewrite Hc. cbn [skip_space].
  change (is_json_space (ascii_of_N 34)) with false. cbv iota.
  rewrite <- Hc, Hm. reflexivity.
Qed.

Lemma parse_json_value_reading (fuel : nat) (r : reading) :
  reading_is_double r = true ->
  parse_json_value (S (S (S (S (S (S fuel)))))) (JSON_stringify_reading r)
  = Some (json_of_reading r, EmptyString).
Proof.
  intros Hv. unfold reading_is_double in Hv.
  apply andb_prop in Hv as [Hv Hp]. apply andb_prop in Hv as [Hv Hf].
  apply andb_prop in Hv as [Ht Hh].
  unfold json_of_reading.
  destruct (r_population r) as [[| |n| | |]|[| |]] eqn:Hpop; try discriminate Hp;
    [| |rewrite (reading_text_member r "{}") by (rewrite Hpop; reflexivity)
       |rewrite (reading_text_member r "[]") by (rewrite Hpop; reflexivity)].
  - rewrite (reading_text r n Hpop).
    apply parse_json_object.
    + unfold quoted. rewrite !append_assoc. eexists. reflexivity.
    + cbn [plain_population] in Hp. cbn [json_of_population app].
      apply parse_json_props_number; [exact Ht | reflexivity |].
      apply parse_json_props_number; [exact Hh | reflexivity |].
      apply parse_json_props_number; [exact Hf | reflexivity |].
      apply parse_json_props_last; [exact Hp | reflexivity].
  - rewrite (reading_text_function r Hpop).
    apply parse_json_object.
    + unfold quoted. rewrite !append_assoc. eexists. reflexivity.
    + cbn [json_of_population app].
      apply parse_json_props_number; [exact Ht | reflexivity |].
      apply parse_json_props_number; [exact Hh | reflexivity |].
      apply (parse_json_props_last (S fuel)); [exact Hf | reflexivity].
  - apply parse_json_object.
    + unfold quoted. rewrite !append_assoc. eexists. reflexivity.
    + cbn [json_of_population app].
      apply parse_json_props_number; [exact Ht | reflexivity |].
      apply parse_json_props_number; [exact Hh | reflexivity |].
      apply parse_json_props_number; [exact Hf | reflexivity |].
      reflexivity.
  - apply parse_json_object.
    + unfold quoted. rewrite !append_assoc. eexists. reflexivity.
    + cbn [json_of_population app].
      apply parse_json_props_number; [exact Ht | reflexivity |].
      apply parse_json_props_number; [exact Hh | reflexivity |].
      apply parse_json_props_number; [exact Hf | reflexivity |].
      reflexivity.
Qed.

Lemma reading_text_length (r : reading) :
  exists n, String.length (JSON_stringify_reading r) = S (S (S (S (S n)))).
Proof.
  unfold JSON_stringify_reading, quoted. rewrite !append_assoc.
  eexists. reflexivity.
Qed.

(** [JSON.parse] of the JSON text of a reading. *)
Lemma JSON_parse_reading (r : reading) :
  reading_is_double r = true ->
  JSON_parse (JSON_stringify_reading r) = Some (json_of_reading r).
Proof.
  intros Hv. unfold JSON_parse.
  destruct (reading_text_length r) as [n ->].
  rewrite parse_json_value_reading by exact Hv. reflexivity.
Qed.

(** ** The characters of a log line; [split] and [trim] on it *)

Lemma all_chars_impl (p q : ascii -> bool) (s : string) :
  (forall c, p c = true -> q c = true) ->
  all_chars p s = true -> all_chars q s = true.
Proof.
  intros Hpq. induction s as [|c s IH]; [reflexivity|]. simpl.
  intros H. apply andb_prop in H as [Hc Hs]. rewrite (Hpq c Hc), (IH Hs). reflexivity.
Qed.

Lemma digit_is_number_char (c : ascii) : is_digit c = true -> is_number_char c = true.
Proof. intros H. unfold is_number_char. rewrite H. reflexivity. Qed.

Lemma number_char_not_comma (c : ascii) :
  is_number_char c = true -> is_not "," c = true.
Proof. destruct c as [[] [] [] [] [] [] [] []]; try discriminate; reflexivity. Qed.

Lemma number_char_not_newline (c : ascii) :
  is_number_char c = true -> is_not (ascii_of_N 10) c = true.
Proof. destruct c as [[] [] [] [] [] [] [] []]; try discriminate; reflexivity. Qed.

Lemma literal_text_chars (int frac : string) (ev : option Z) :
  all_chars is_digit int = true -> all_chars is_digit frac = true ->
  (forall v, ev = Some v -> v <> 0) ->
  all_chars is_number_char (literal_text int frac ev) = true.
Proof.
  intros Hint Hfrac Hev. unfold literal_text.
  rewrite !all_chars_app.
  rewrite (all_chars_impl _ _ int digit_is_number_char Hint).
  assert (H1 : all_chars is_number_char
                 match frac with EmptyString => EmptyString | _ => "." +:+ frac end = true).
  { destruct frac as [|f frac]; [reflexivity|].
    change ("." +:+ ?y) with (String "."%char y).
    change (all_chars is_number_char (String "." ?y))
      with (all_chars is_number_char y).
    apply (all_chars_impl _ _ _ digit_is_number_char Hfrac). }
  rewrite H1. destruct ev as [v|]; [|reflexivity].
  unfold exponent_text. rewrite !all_chars_app.
  destruct (decimal_digits_spec (Z.abs v) ltac:(specialize (Hev v eq_refl); lia))
    as (Hall & _).
  rewrite (all_chars_impl _ _ _ digit_is_number_char Hall).
  destruct (0 <=? v); reflexivity.
Qed.

Lemma Number_toString_chars (x : number) :
  is_double x = true -> all_chars is_number_char (Number_toString x) = true.
Proof.
  intros Hv. destruct x as [s|s| |s m e]; try (destruct s; reflexivity); [reflexivity|].
  simpl in Hv. destruct (shortest_decimal_reads m e Hv) as [Hpos _].
  unfold Number_toString. destruct (shortest_decimal m e) as [d x]. cbn [fst] in Hpos.
  destruct (format_decimal_literal d x Hpos)
    as (int & frac & ev & -> & Hint & _ & _ & Hfrac & Hev & _).
  rewrite all_chars_app, literal_text_chars by assumption.
  destruct s; reflexivity.
Qed.

Lemma JSON_stringify_number_chars (x : number) :
  is_double x = true -> all_chars is_number_char (JSON_stringify_number x) = true.
Proof.
  intros Hv. unfold JSON_stringify_number.
  destruct (is_finite x); [apply Number_toString_chars, Hv | reflexivity].
Qed.

Lemma split_no_sep (sep : ascii) (a : string) :
  all_chars (is_not sep) a = true -> split sep a = [a].
Proof.
  induction a as [|c a IH]; [reflexivity|]. simpl. intros H.
  apply andb_prop in H as [Hc Ha]. unfold is_not in Hc. apply negb_true_iff in Hc.
  rewrite Hc, (IH Ha). reflexivity.
Qed.

Lemma split_app_sep (sep : ascii) (a b : string) :
  all_chars (is_not sep) a = true ->
  split sep (a +:+ String sep b) = a :: split sep b.
Proof.
  induction a as [|c a IH].
  - intros _. rewrite append_nil_l. simpl. rewrite Ascii.eqb_refl. reflexivity.
  - simpl. intros H. apply andb_prop in H as [Hc Ha].
    unfold is_not in Hc. apply negb_true_iff in Hc.
    rewrite ?append_cons. simpl. rewrite Hc, (IH Ha). reflexivity.
Qed.

Lemma split_not_nil (sep : ascii) (s : string) : split sep s <> [].
Proof.
  destruct s as [|c s]; [discriminate|]. simpl.
  destruct (Ascii.eqb c sep); [discriminate|].
  destruct (split sep s); discriminate.
Qed.

Lemma after_first_comma_app (a b : string) :
  all_chars (is_not ",") a = true ->
  after_first_comma (a +:+ String "," b) = b.
Proof.
  induction a as [|c a IH].
  - reflexivity.
  - simpl. intros H. apply andb_prop in H as [Hc Ha].
    unfold is_not in Hc. apply negb_true_iff in Hc.
    rewrite ?append_cons. simpl. rewrite Hc. exact (IH Ha).
Qed.

Lemma trimEnd_newline (a : string) : trimEnd (a +:+ newline) = trimEnd a.
Proof.
  induction a as [|c a IH]; [reflexivity|].
  rewrite append_cons. simpl. rewrite IH. reflexivity.
Qed.

Lemma trimEnd_closing_brace (a : string) : trimEnd (a +:+ "}") = a +:+ "}".
Proof.
  induction a as [|c a IH]; [reflexivity|].
  rewrite append_cons. simpl. rewrite IH.
  destruct (a +:+ "}") eqn:E; [|reflexivity].
  destruct a; discriminate E.
Qed.

(** ** Doubles that hold small integers and binary32 values *)

Lemma digits2_pos_le (m : positive) (n : Z) :
  0 <= n -> Zpos m < 2 ^ n -> Zpos (digits2_pos m) <= n.
Proof.
  intros Hn H. rewrite digits2_pos_log2.
  destruct (Z.le_gt_cases n (Z.log2 (Zpos m))) as [Hle|Hgt]; [|lia].
  pose proof (Z.log2_spec (Zpos m) ltac:(lia)) as [Hlo _].
  pose proof (Z.pow_le_mono_r 2 n (Z.log2 (Zpos m)) ltac:(lia) Hle). lia.
Qed.

(** A mantissa of at most 53 bits in the normal range is held exactly;
    rounding only aligns it. *)
Lemma binary_round_aligned (s : bool) (m : positive) (e : Z) :
  Zpos (digits2_pos m) <= 53 ->
  -1074 <= Zpos (digits2_pos m) + e - 53 <= 971 ->
  exists mz,
    binary_round prec emax s m e
    = S754_finite s mz (Zpos (digits2_pos m) + e - 53) /\
    bounded prec emax mz (Zpos (digits2_pos m) + e - 53) = true /\
    Zpos mz = Zpos m * 2 ^ (53 - Zpos (digits2_pos m)).
Proof.
  intros Hd He. set (d := Zpos (digits2_pos m)) in *.
  unfold binary_round.
  assert (Hf : fexp prec emax (d + e) = d + e - 53)
    by (unfold fexp, emin, prec, emax; lia).
  fold d. rewrite Hf. unfold shl_align.
  assert (Hfin : forall mz, Zpos (digits2_pos mz) = 53 ->
            binary_round_aux prec emax s (Zpos mz) (d + e - 53) loc_Exact
            = S754_finite s mz (d + e - 53) /\
            bounded prec emax mz (d + e - 53) = true).
  { intros mz Hmz.
    assert (Hb : bounded prec emax mz (d + e - 53) = true)
      by (apply bounded_intro; lia).
    split; [|exact Hb].
    pose proof (binary_round_aux_exact s mz (d + e - 53) 0 Hb ltac:(lia)) as H.
    rewrite Z.pow_0_r, Z.mul_1_r, Z.sub_0_r in H. exact H. }
  destruct (d + e - 53 - e) as [|p|p] eqn:E.
  - exists m. replace e with (d + e - 53) at 1 by lia.
    destruct (Hfin m ltac:(fold d; lia)) as [H1 H2].
    split; [exact H1|]. split; [exact H2|].
    replace (53 - d) with 0 by lia. lia.
  - lia.
  - exists (Pos.iter xO m p).
    pose proof (Zdigits2_mul_pow2 m (Zpos p) ltac:(lia)) as H.
    rewrite <- Zpos_iter_xO in H. simpl Zdigits2 in H.
    destruct (Hfin (Pos.iter xO m p) ltac:(rewrite H; fold d; lia)) as [H1 H2].
    split; [exact H1|]. split; [exact H2|].
    rewrite Zpos_iter_xO. replace (53 - d) with (Zpos p) by lia. reflexivity.
Qed.

Lemma binary_round_exact (s : bool) (m : positive) (e : Z) :
  Zpos (digits2_pos m) <= 53 ->
  -1074 <= Zpos (digits2_pos m) + e - 53 <= 971 ->
  exists mz,
    binary_round prec emax s m e
    = S754_finite s mz (Zpos (digits2_pos m) + e - 53) /\
    bounded prec emax mz (Zpos (digits2_pos m) + e - 53) = true.
Proof.
  intros Hd He.
  destruct (binary_round_aligned s m e Hd He) as (mz & H1 & H2 & _). eauto.
Qed.

Lemma number_of_Z_exact (z : Z) :
  0 < Z.abs z < 2 ^ 53 ->
  exists m e, number_of_Z z = S754_finite (z <? 0) m e /\
              bounded prec emax m e = true.
Proof.
  intros Hz. unfold number_of_Z, binary_normalize.
  destruct z as [|p|p]; [simpl in Hz; lia| |].
  - destruct (binary_round_exact false p 0) as (mz & H1 & H2).
    + apply digits2_pos_le; simpl in Hz; lia.
    + pose proof (digits2_pos_le p 53 ltac:(lia) ltac:(simpl in Hz; lia)).
      pose proof (Pos2Z.is_pos (digits2_pos p)). lia.
    + eauto.
  - destruct (binary_round_exact true p 0) as (mz & H1 & H2).
    + apply digits2_pos_le; simpl in Hz; lia.
    + pose proof (digits2_pos_le p 53 ltac:(lia) ltac:(simpl in Hz; lia)).
      pose proof (Pos2Z.is_pos (digits2_pos p)). lia.
    + eauto.
Qed.

(** A time value (an integer below 2^53 in magnitude) is a double, and
    never the negative zero. *)
Lemma number_of_Z_is_double (z : Z) :
  Z.abs z < 2 ^ 53 ->
  is_double (number_of_Z z) = true /\ number_of_Z z <> S754_zero true.
Proof.
  intros Hz. destruct (Z.eq_dec z 0) as [->|Hne].
  - split; [reflexivity | discriminate].
  - destruct (number_of_Z_exact z ltac:(lia)) as (m & e & -> & Hb).
    split; [exact Hb | discriminate].
Qed.

(** Every binary32 bit pattern is read as a double. *)
Lemma float32_of_bits_is_double (w : Z) :
  0 <= w -> is_double (float32_of_bits w) = true.
Proof.
  intros Hw. unfold float32_of_bits.
  set (biased := (w / 2 ^ 23) mod 256).
  set (frac := w mod 2 ^ 23).
  assert (Hb : 0 <= biased < 256) by (apply Z.mod_pos_bound; lia).
  assert (Hf : 0 <= frac < 2 ^ 23) by (apply Z.mod_pos_bound; lia).
  destruct (biased =? 255) eqn:E255; [destruct (frac =? 0); reflexivity|].
  apply Z.eqb_neq in E255.
  assert (Hround : forall (s : bool) (m : positive) (e : Z),
            Zpos m < 2 ^ 24 -> -149 <= e <= 104 ->
            is_double (binary_round prec emax s m e) = true).
  { intros s m e Hm He.
    pose proof (digits2_pos_le m 24 ltac:(lia) Hm).
    pose proof (Pos2Z.is_pos (digits2_pos m)).
    destruct (binary_round_exact s m e ltac:(lia) ltac:(lia)) as (mz & -> & H2).
    exact H2. }
  assert (Hnorm : forall (m e : Z), 0 <= m < 2 ^ 24 -> -149 <= e <= 104 ->
            is_double (binary_normalize prec emax
                         (if Z.testbit w 31 then - m else m) e (Z.testbit w 31)) = true).
  { intros m e Hm He. unfold binary_normalize.
    destruct m as [|p|p]; [destruct (Z.testbit w 31); reflexivity | | lia].
    destruct (Z.testbit w 31); simpl Z.opp; apply Hround; lia. }
  destruct (biased =? 0) eqn:E0.
  - apply Hnorm; lia.
  - apply Z.eqb_neq in E0. apply Hnorm; lia.
Qed.

Lemma uint32_le_nonneg (b0 b1 b2 b3 : Byte.byte) : 0 <= uint32_le b0 b1 b2 b3.
Proof.
  unfold uint32_le, byte_value.
  pose proof (N2Z.is_nonneg (Byte.to_N b0)). pose proof (N2Z.is_nonneg (Byte.to_N b1)).
  pose proof (N2Z.is_nonneg (Byte.to_N b2)). pose proof (N2Z.is_nonneg (Byte.to_N b3)).
  lia.
Qed.

Lemma readFloatLE_is_double (buf : list Byte.byte) (offset : nat) (x : number) :
  readFloatLE buf offset = Some x -> is_double x = true.
Proof.
  unfold readFloatLE.
  destruct (skipn offset buf) as [|b0 [|b1 [|b2 [|b3 rest]]]]; try discriminate.
  intros [= <-]. apply float32_of_bits_is_double, uint32_le_nonneg.
Qed.

(** ** Comparisons *)

Lemma SFcompare_antisym (x y : number) :
  SFcompare y x = option_map CompOpp (SFcompare x y).
Proof.
  destruct x as [a|a| |a m e], y as [b|b| |b m' e']; simpl;
    try (destruct a; reflexivity); try (destruct b; reflexivity);
    try (destruct a, b; reflexivity); try reflexivity.
  destruct a, b; try reflexivity.
  - rewrite (Z.compare_antisym e e'). destruct (e ?= e'); simpl; try reflexivity.
    rewrite (Pos.compare_cont_antisym m m' Eq). simpl.
    destruct (Pos.compare_cont Eq m m'); reflexivity.
  - rewrite (Z.compare_antisym e e'). destruct (e ?= e'); simpl; try reflexivity.
    rewrite (Pos.compare_cont_antisym m m' Eq). simpl. reflexivity.
Qed.

Lemma num_le_not_gt (x y : number) : num_le x y = true -> num_gt x y = false.
Proof.
  unfold num_le, num_gt, SFleb, SFltb. rewrite (SFcompare_antisym x y).
  destruct (SFcompare x y) as [[| |]|]; simpl; congruence.
Qed.

Lemma num_le_not_lt (x y : number) : num_le x y = true -> num_lt y x = false.
Proof. apply num_le_not_gt. Qed.

(** ** A log line read back *)

Lemma ends_plain_brace : ends_plain "}".
Proof. split; [reflexivity | discriminate]. Qed.

Lemma ends_plain_cons (c : ascii) (s : string) : ends_plain s -> ends_plain (String c s).
Proof.
  intros [H Hne]. split; [|discriminate].
  simpl. rewrite H. destruct s; [congruence | reflexivity].
Qed.

Lemma ends_plain_app (a s : string) : ends_plain s -> ends_plain (a +:+ s).
Proof.
  intros H. induction a as [|c a IH]; [exact H|].
  rewrite append_cons. apply ends_plain_cons, IH.
Qed.

Lemma ends_plain_reading (r : reading) : ends_plain (JSON_stringify_reading r).
Proof.
  unfold JSON_stringify_reading.
  repeat first [ apply ends_plain_brace | apply ends_plain_app ].
Qed.

Lemma reading_chars (r : reading) :
  reading_is_double r = true ->
  all_chars (is_not (ascii_of_N 10)) (JSON_stringify_reading r) = true.
Proof.
  intros Hv. unfold reading_is_double in Hv.
  apply andb_prop in Hv as [Hv Hp]. apply andb_prop in Hv as [Hv Hf].
  apply andb_prop in Hv as [Ht Hh].
  assert (Hn : forall x, is_double x = true ->
                 all_chars (is_not (ascii_of_N 10)) (JSON_stringify_number x) = true).
  { intros x Hx. apply (all_chars_impl _ _ _ number_char_not_newline).
    apply JSON_stringify_number_chars, Hx. }
  destruct (r_population r) as [[| |n| | |]|[| |]] eqn:Hpop; try discriminate Hp;
    [rewrite (reading_text r n Hpop)
    |rewrite (reading_text_function r Hpop)
    |rewrite (reading_text_member r "{}") by (rewrite Hpop; reflexivity)
    |rewrite (reading_text_member r "[]") by (rewrite Hpop; reflexivity)];
    unfold quoted;
    repeat (rewrite ?all_chars_app; cbn [all_chars]);
    rewrite !Hn by assumption; reflexivity.
Qed.

Lemma trimStart_number_char (c : ascii) (r : string) :
  is_number_char c = true -> trimStart (String c r) = String c r.
Proof.
  intros H. destruct c as [[] [] [] [] [] [] [] []]; try discriminate H; reflexivity.
Qed.

Lemma Number_toString_not_empty (x : number) :
  is_double x = true ->
  exists c r, Number_toString x = String c r /\ is_number_char c = true.
Proof.
  intros Hv. pose proof (Number_toString_chars x Hv) as Hc.
  destruct x as [s|s| |s m e].
  - exists "0"%char, EmptyString. split; reflexivity.
  - destruct s; eexists _, _; split; reflexivity.
  - eexists _, _; split; reflexivity.
  - destruct (Number_toString_head s m e Hv) as (c & r & E & _).
    rewrite E in *. simpl in Hc. apply andb_prop in Hc as [Hc _]. eauto.
Qed.

(** What the history handler and a JSON reader see in the line that a
    telemetry post writes. *)
Lemma log_line_read_back (now : Z) (r : reading) :
  Z.abs now < 2 ^ 53 -> reading_is_double r = true ->
  log_lines (log_line now r +:+ newline) = [log_line now r] /\
  log_line now r <> EmptyString /\
  line_time (log_line now r) = Some (seconds_of now) /\
  line_record (log_line now r) = Some (json_of_reading r) /\
  all_chars (is_not (ascii_of_N 10)) (log_line now r) = true.
Proof.
  intros Hnow Hr.
  destruct (number_of_Z_is_double now Hnow) as [Hd Hz].
  set (ts := Number_toString (number_of_Z now)).
  assert (Hline : log_line now r = ts +:+ String "," (JSON_stringify_reading r))
    by reflexivity.
  pose proof (Number_toString_chars _ Hd) as Hts. fold ts in Hts.
  destruct (Number_toString_not_empty _ Hd) as (c & rest & Hhead & Hc). fold ts in Hhead.
  assert (Hcomma : all_chars (is_not ",") ts = true)
    by (apply (all_chars_impl _ _ _ number_char_not_comma), Hts).
  assert (Hnl : all_chars (is_not (ascii_of_N 10)) (log_line now r) = true).
  { rewrite Hline, all_chars_app. cbn [all_chars].
    rewrite (all_chars_impl _ _ _ number_char_not_newline Hts), reading_chars by exact Hr.
    reflexivity. }
  assert (Hplain : ends_plain (log_line now r)).
  { rewrite Hline. apply ends_plain_app, ends_plain_cons, ends_plain_reading. }
  split; [|split; [exact (proj2 Hplain)|split; [|split; [|exact Hnl]]]].
  - unfold log_lines, trim.
    assert (Hs : trimStart (log_line now r +:+ newline) = log_line now r +:+ newline).
    { rewrite Hline, Hhead, !append_cons. apply trimStart_number_char, Hc. }
    rewrite Hs, trimEnd_newline, (proj1 Hplain).
    apply split_no_sep, Hnl.
  - unfold line_time. rewrite Hline, split_app_sep by exact Hcomma.
    pose proof (split_not_nil "," (JSON_stringify_reading r)) as Hne.
    destruct (split "," (JSON_stringify_reading r)) as [|x xs]; [congruence|].
    cbn [length Nat.leb hd]. unfold ts.
    rewrite parseFloat_Number_toString by assumption. reflexivity.
  - unfold line_record. rewrite Hline, after_first_comma_app by exact Hcomma.
    apply JSON_parse_reading, Hr.
Qed.

(** An accepted telemetry post: the new state and the answer, or the
    exception when the population does not convert to a number. *)
Lemma post_unit_accepted (now : Z) (domain : string) (req : unit_request) (st : server) :
  payload_accepted req = true ->
  exists t h f,
    is_double t = true /\ is_double h = true /\ is_double f = true /\
    let population := population_of (domains st) (unit_domain domain) in
    post_unit now domain req st
    = match actuation population with
      | Some power =>
          ({| detectionsTimeout := detectionsTimeout st;
              domains := domains st;
              status := <[unit_domain domain :=
                            {| population := population; fan_power := Some power;
                               temperature := Some t; humidity := Some h;
                               fan_rpm := Some f |}]> (status st);
              detectionsTimeoutHandle := detectionsTimeoutHandle st;
              timers := timers st;
              next_timer := next_timer st;
              files := appendFile (logFile (unit_domain domain))
                         (log_line now {| r_temperature := t; r_humidity := h;
                                          r_fan_rpm := f; r_population := population |}
                          +:+ newline) (files st) |},
           OkOctets (writeFloatLE power))
      | None => (st, Thrown "TypeError")
      end.
Proof.
  unfold payload_accepted, post_unit. fold (unit_domain domain).
  destruct (u_body req) as [bytes|]; [|discriminate].
  intros Hacc. rewrite Hacc.
  apply andb_prop in Hacc as [_ Hlen]. apply Nat.leb_le in Hlen.
  do 12 (destruct bytes as [|? bytes]; [simpl in Hlen; lia|]).
  cbn [readFloatLE skipn].
  eexists _, _, _.
  split; [apply float32_of_bits_is_double, uint32_le_nonneg|].
  split; [apply float32_of_bits_is_double, uint32_le_nonneg|].
  split; [apply float32_of_bits_is_double, uint32_le_nonneg|].
  reflexivity.
Qed.

(** The conversion of a plain population never throws. *)
Lemma actuation_plain (population : js_value) :
  plain_population population = true ->
  exists power, actuation population = Some power.
Proof.
  destruct population as [[| |n| | |]|[| |]]; try discriminate; intros _;
    eexists; reflexivity.
Qed.

Lemma history_output_single (step : number) (line : string) :
  history_output step [line] = [line].
Proof.
  unfold history_output. cbn [List.last downsample].
  rewrite String.eqb_refl.
  destruct (line_time line) as [time|]; [|reflexivity].
  destruct (num_ge _ step); [|reflexivity].
  cbn [List.filter]. rewrite String.eqb_refl. reflexivity.
Qed.

(** ** Round trip: telemetry post, then history query *)

Lemma in_range_intro (p : history_params) (line : string) (time : number) :
  line <> EmptyString -> line_time line = Some time ->
  (forall start, h_start p = Some start -> num_le start time = true) ->
  num_le time (h_end p) = true ->
  in_range p line = true.
Proof.
  intros Hne Htime Hstart Hend. unfold in_range.
  destruct line as [|c l]; [congruence|]. rewrite Htime.
  rewrite (num_le_not_gt _ _ Hend).
  destruct (h_start p) as [start|]; [|reflexivity].
  rewrite (num_le_not_lt _ _ (Hstart start eq_refl)). reflexivity.
Qed.




(** ** The status map and [/status] *)

Lemma prune_status_fold (D : gset string) (m : gmap string Status)
      (l : list string) (k : string) :
  foldr (λ domain m, if decide (domain ∈ D) then m else delete domain m) m l !! k
  = if decide (k ∈ D) then m !! k
    else if decide (k ∈ l) then None else m !! k.
Proof.
  induction l as [|x l IH]; cbn [foldr].
  - destruct (decide (k ∈ D)); [reflexivity|].
    destruct (decide (k ∈ [])) as [H|_]; [inversion H | reflexivity].
  - destruct (decide (x ∈ D)) as [Hx|Hx].
    + rewrite IH. destruct (decide (k ∈ D)) as [Hk|Hk]; [reflexivity|].
      destruct (decide (k ∈ l)) as [Hl|Hl].
      * rewrite decide_True by (right; exact Hl). reflexivity.
      * rewrite decide_False; [reflexivity|].
        intros [->|H]%elem_of_cons; [exact (Hk Hx) | exact (Hl H)].
    + destruct (decide (k = x)) as [->|Hkx].
      * rewrite lookup_delete_eq. rewrite decide_False by exact Hx.
        rewrite decide_True by left. reflexivity.
      * rewrite lookup_delete_ne by congruence. rewrite IH.
        destruct (decide (k ∈ D)); [reflexivity|].
        destruct (decide (k ∈ l)) as [Hl|Hl].
        -- rewrite decide_True by (right; exact Hl). reflexivity.
        -- rewrite decide_False; [reflexivity|].
           intros [->|H]%elem_of_cons; [exact (Hkx eq_refl) | exact (Hl H)].
Qed.

(** The pruning loop keeps the status of the named domains and nothing
    else. *)
Lemma prune_status_lookup (D : gset string) (m : gmap string Status) (k : string) :
  prune_status D m !! k = if decide (k ∈ D) then m !! k else None.
Proof.
  unfold prune_status. rewrite prune_status_fold.
  destruct (decide (k ∈ D)); [reflexivity|].
  destruct (decide (k ∈ elements (dom m))) as [H|H]; [reflexivity|].
  rewrite elem_of_elements, elem_of_dom in H.
  destruct (m !! k) eqn:E; [|reflexivity].
  exfalso. apply H. eauto.
Qed.

Lemma get_status_lookup (st : server) (d : string) :
  exists record,
    get_status st = OkJsonStatus record /\ record !! d = status_entry st d.
Proof.
  eexists. split; [reflexivity|]. unfold status_entry.
  destruct (decide (d = "__proto__")) as [->|Hd].
  - apply lookup_delete_eq.
  - rewrite lookup_delete_ne by congruence.
    rewrite map_lookup_imap. destruct (own_members (domains st) !! d); reflexivity.
Qed.

Lemma status_post_detections (now : Z) (req : detections_request) (st : server)
      (detections : object_value) :
  d_is_json req = true -> d_body req = ObjectBody detections ->
  status (post_detections now req st).1 = prune_status (dom detections) (status st) /\
  domains (post_detections now req st).1 = detections.
Proof.
  intros Hj Hb. unfold post_detections. rewrite Hj, Hb. split; reflexivity.
Qed.

(** X1. An accepted detections post keeps the status of the domains it
    names and deletes the status of every other domain, so that
    afterwards every domain with a status is a detected domain. *)
Theorem detections_post_prunes_status
        (now : Z) (req : detections_request) (st : server)
        (detections : object_value) :
  d_is_json req = true -> d_body req = ObjectBody detections ->
  (forall d, status (post_detections now req st).1 !! d
             = if decide (d ∈ dom detections) then status st !! d else None) /\
  dom (status (post_detections now req st).1)
  ⊆ dom (domains (post_detections now req st).1).
Proof.
  intros Hj Hb.
  destruct (status_post_detections now req st detections Hj Hb) as [-> ->].
  split.
  - intros d. apply prune_status_lookup.
  - intros d [e He]%elem_of_dom. rewrite prune_status_lookup in He.
    destruct (decide (d ∈ dom detections)); [assumption | discriminate].
Qed.

Lemma detections_post_prunes_status_witness :
  (forall d, status (post_detections 2000 example_post example_busy_server).1 !! d
             = if decide (d ∈ dom (PlainObject {[ "a" := JNumber (number_of_Z 1) ]}))
               then status example_busy_server !! d else None) /\
  dom (status (post_detections 2000 example_post example_busy_server).1)
  ⊆ dom (domains (post_detections 2000 example_post example_busy_server).1).
Proof.
  exact (detections_post_prunes_status 2000 example_post example_busy_server
           (PlainObject {[ "a" := JNumber (number_of_Z 1) ]}) eq_refl eq_refl).
Defined.

(** X2. [/status] lists exactly the own keys of the population object
    other than [__proto__]: each with its stored status when there is
    one, and with its population alone otherwise.  A name that is no own
    key is never listed, and neither is the key [__proto__]: the
    assignment under that name sets the prototype of the record. *)
Theorem status_lists_the_detected_domains (st : server) :
  exists record,
    get_status st = OkJsonStatus record /\
    dom record = dom (domains st) ∖ {["__proto__"]} /\
    record !! "__proto__" = None /\
    forall d, d <> "__proto__" ->
              record !! d
              = match own_members (domains st) !! d with
                | Some p => Some (default (population_only p) (status st !! d))
                | None => None
                end.
Proof.
  destruct (get_status_lookup st "__proto__") as (record & Hr & Hproto).
  exists record. split; [exact Hr|].
  assert (Hl : forall d, record !! d = status_entry st d).
  { intros d. destruct (get_status_lookup st d) as (record' & Hr' & Hd).
    rewrite Hr in Hr'. injection Hr' as <-. exact Hd. }
  split; [|split].
  - apply set_eq. intros d.
    rewrite elem_of_difference, elem_of_singleton, elem_of_dom, Hl.
    unfold dom at 1, object_dom. rewrite elem_of_dom. unfold status_entry.
    destruct (decide (d = "__proto__")) as [->|Hd].
    + split; [intros [x Hx]; discriminate | intros [_ H]; congruence].
    + destruct (own_members (domains st) !! d); split.
      * intros _. split; [eauto | exact Hd].
      * intros _. eauto.
      * intros [x Hx]. discriminate.
      * intros [[x Hx] _]. discriminate.
  - exact Hproto.
  - intros d Hd. rewrite Hl. unfold status_entry.
    rewrite decide_False by exact Hd. reflexivity.
Qed.

(** X3. A detections post does not touch the status of a domain that it
    names: [/status] goes on showing the entry of the last telemetry
    post, with the population recorded then, whatever count the
    detections give now.  (The name [__proto__] is never shown.) *)
Theorem status_keeps_population_of_last_telemetry
        (now : Z) (req : detections_request) (st : server)
        (detections : object_value) (d : string) (e : Status) (p : json) :
  d_is_json req = true -> d_body req = ObjectBody detections ->
  d <> "__proto__" ->
  status st !! d = Some e -> own_members detections !! d = Some p ->
  exists record,
    get_status (post_detections now req st).1 = OkJsonStatus record /\
    record !! d = Some e /\
    own_members (domains (post_detections now req st).1) !! d = Some p.
Proof.
  intros Hj Hb Hd He Hp.
  destruct (get_status_lookup (post_detections now req st).1 d) as (record & Hr & Hl).
  exists record. split; [exact Hr|].
  destruct (status_post_detections now req st detections Hj Hb) as [Hs Hdom].
  unfold status_entry in Hl. rewrite decide_False in Hl by exact Hd.
  rewrite Hs, Hdom, Hp, prune_status_lookup in Hl.
  rewrite decide_True in Hl by (apply elem_of_dom; eauto).
  rewrite He in Hl. rewrite Hdom. split; [exact Hl | exact Hp].
Qed.

Lemma status_keeps_population_witness :
  exists record,
    get_status (post_detections 2000 example_recount example_busy_server).1
    = OkJsonStatus record /\
    record !! "b" = Some example_entry /\
    own_members (domains (post_detections 2000 example_recount example_busy_server).1)
      !! "b"
    = Some (JNumber (number_of_Z 5)).
Proof.
  apply (status_keeps_population_of_last_telemetry
           2000 example_recount example_busy_server
           (PlainObject {[ "b" := JNumber (number_of_Z 5) ]})
           "b" example_entry (JNumber (number_of_Z 5))).
  - reflexivity.
  - reflexivity.
  - discriminate.
  - vm_compute. reflexivity.
  - vm_compute. reflexivity.
Defined.

(** *** Every stored entry comes from a telemetry post *)

Lemma status_run_timers (now : Z) (st : server) :
  status (run_timers now st) = status st \/ status (run_timers now st) = ∅.
Proof.
  unfold run_timers. destruct (due_timers now st) as [|id l]; [left; reflexivity|].
  right. reflexivity.
Qed.

Lemma post_unit_status (now : Z) (domain : string) (req : unit_request) (st : server) :
  (post_unit now domain req st).1 = st \/
  exists e, complete_entry e /\
            population e = population_of (domains st) (unit_domain domain) /\
            status (post_unit now domain req st).1
            = <[unit_domain domain := e]> (status st) /\
            domains (post_unit now domain req st).1 = domains st.
Proof.
  destruct (payload_accepted req) eqn:Hp.
  - destruct (post_unit_accepted now domain req st Hp)
      as (t & h & f & Ht & Hh & Hf & Heq).
    cbv zeta in Heq. rewrite Heq.
    destruct (actuation (population_of (domains st) (unit_domain domain)))
      as [power|] eqn:Hpower; [right | left; reflexivity].
    exists {| population := population_of (domains st) (unit_domain domain);
              fan_power := Some power;
              temperature := Some t; humidity := Some h; fan_rpm := Some f |}.
    split; [|split; [|split]]; try reflexivity.
    split; [cbn [fan_power population]; congruence|].
    split; [discriminate|]. exists t, h, f. auto 10.
  - left. unfold post_unit. unfold payload_accepted in Hp.
    destruct (u_body req); [|reflexivity]. rewrite Hp. reflexivity.
Qed.

Lemma handle_complete (now : Z) (r : request) (st : server) :
  map_Forall (λ _ e, complete_entry e) (status st) ->
  map_Forall (λ _ e, complete_entry e) (status (handle now r st).1).
Proof.
  intros Hst. destruct r as [req|domain req| |domain q]; cbn [handle fst];
    try exact Hst.
  - unfold post_detections. destruct (d_is_json req); [|exact Hst].
    destruct (d_body req) as [|detections]; [exact Hst|].
    cbn [fst resetDetectionsTimeout status].
    intros d e He. rewrite prune_status_lookup in He.
    destruct (decide (d ∈ dom detections)); [|discriminate].
    exact (Hst d e He).
  - destruct (post_unit_status now domain req st) as [->|(e & He & _ & -> & _)];
      [exact Hst|].
    apply map_Forall_insert_2; assumption.
Qed.

Lemma run_complete (events : list (Z * request)) (st : server) :
  map_Forall (λ _ e, complete_entry e) (status st) ->
  map_Forall (λ _ e, complete_entry e) (status (run events st)).
Proof.
  revert st. induction events as [|[now r] events IH]; intros st Hst; [exact Hst|].
  unfold run. cbn [fold_left]. apply IH. unfold serve. cbn [fst snd].
  apply handle_complete.
  destruct (status_run_timers now st) as [-> | ->];
    [exact Hst | apply map_Forall_empty].
Qed.

(** X4. In every state that the server reaches from its start, each
    stored status entry was written by a telemetry post: all its fields
    are present, its readings are doubles, and its fan power is the
    actuation of the population it records. *)
Theorem status_entries_are_complete
        (timeout : number) (fs : gmap string file) (events : list (Z * request))
        (d : string) (e : Status) :
  status (run events (initial_server timeout fs)) !! d = Some e ->
  complete_entry e.
Proof.
  intros He.
  exact (run_complete events (initial_server timeout fs)
           (map_Forall_empty _) d e He).
Qed.

Lemma status_entries_are_complete_witness : complete_entry example_entry.
Proof.
  apply (status_entries_are_complete (number_of_Z 10000) ∅
           [(0, PostDetections example_two_domains);
            (1000, PostUnit "b" example_unit_request)] "b" example_entry).
  vm_compute. reflexivity.
Defined.

Lemma get_status_insert_undetected (st : server) (d : string) (e : Status)
      (st' : server) :
  domains st' = domains st -> status st' = <[d := e]> (status st) ->
  own_members (domains st) !! d = None -> get_status st' = get_status st.
Proof.
  intros Hd Hs Hnone. unfold get_status. rewrite Hd, Hs. do 2 f_equal.
  apply map_eq. intros k. rewrite !map_lookup_imap.
  destruct (own_members (domains st) !! k) eqn:Hk; [|reflexivity].
  cbn [mbind option_bind].
  rewrite lookup_insert_ne by congruence. reflexivity.
Qed.

(** X5. A telemetry post that is accepted and answered changes one
    entry of [/status] at most: the domain's own, which shows the new
    complete entry when the name is an own key of the population object
    other than [__proto__], and stays unlisted when it is not.  The
    population of the entry is [domains[domain] ?? NaN], whatever kind of
    value that is. *)
Theorem telemetry_shows_in_status
        (now : Z) (domain : string) (req : unit_request) (st : server)
        (power : number) :
  payload_accepted req = true ->
  actuation (population_of (domains st) (unit_domain domain)) = Some power ->
  exists before after e,
    get_status st = OkJsonStatus before /\
    get_status (post_unit now domain req st).1 = OkJsonStatus after /\
    complete_entry e /\
    population e = population_of (domains st) (unit_domain domain) /\
    fan_power e = Some power /\
    status (post_unit now domain req st).1 !! unit_domain domain = Some e /\
    after !! unit_domain domain
    = (if decide (unit_domain domain = "__proto__") then None
       else match own_members (domains st) !! unit_domain domain with
            | Some _ => Some e
            | None => None
            end) /\
    forall d, d <> unit_domain domain -> after !! d = before !! d.
Proof.
  intros Hp Hpower.
  destruct (post_unit_accepted now domain req st Hp)
    as (t & h & f & Ht & Hh & Hf & Heq).
  cbv zeta in Heq. rewrite Hpower in Heq.
  set (e := {| population := population_of (domains st) (unit_domain domain);
               fan_power := Some power;
               temperature := Some t; humidity := Some h; fan_rpm := Some f |}).
  destruct (get_status_lookup st (unit_domain domain)) as (before & Hb & _).
  destruct (get_status_lookup (post_unit now domain req st).1 (unit_domain domain))
    as (after & Ha & Hown).
  exists before, after, e.
  split; [exact Hb|]. split; [exact Ha|].
  split; [split; [cbn [fan_power population e]; congruence
                 |split; [discriminate | exists t, h, f; auto 10]]|].
  split; [reflexivity|]. split; [reflexivity|].
  split; [rewrite Heq; cbn [fst status]; apply lookup_insert_eq|].
  split.
  - rewrite Hown. unfold status_entry. rewrite Heq. cbn [fst status domains].
    destruct (decide (unit_domain domain = "__proto__")); [reflexivity|].
    destruct (own_members (domains st) !! unit_domain domain); [|reflexivity].
    rewrite lookup_insert_eq. reflexivity.
  - intros d Hne.
    destruct (get_status_lookup st d) as (before' & Hb' & Hd).
    destruct (get_status_lookup (post_unit now domain req st).1 d)
      as (after' & Ha' & Hd').
    rewrite Hb in Hb'. injection Hb' as <-.
    rewrite Ha in Ha'. injection Ha' as <-.
    rewrite Hd, Hd'. unfold status_entry. rewrite Heq. cbn [fst status domains].
    rewrite lookup_insert_ne by congruence. reflexivity.
Qed.

Lemma telemetry_shows_in_status_witness :
  exists before after e,
    get_status example_busy_server = OkJsonStatus before /\
    get_status (post_unit 1500 "a" example_unit_request example_busy_server).1
    = OkJsonStatus after /\
    complete_entry e /\
    population e = population_of (domains example_busy_server) (unit_domain "a") /\
    fan_power e = Some (num_div (number_of_Z 1) (number_of_Z 2)) /\
    status (post_unit 1500 "a" example_unit_request example_busy_server).1
      !! unit_domain "a" = Some e /\
    after !! unit_domain "a"
    = (if decide (unit_domain "a" = "__proto__") then None
       else match own_members (domains example_busy_server) !! unit_domain "a" with
            | Some _ => Some e
            | None => None
            end) /\
    forall d, d <> unit_domain "a" -> after !! d = before !! d.
Proof.
  apply (telemetry_shows_in_status 1500 "a" example_unit_request example_busy_server
           (num_div (number_of_Z 1) (number_of_Z 2))).
  - reflexivity.
  - vm_compute. reflexivity.
Defined.

(** The name has no member, own or inherited, in a population object
    without own member of that name: the answer of [?? NaN], and what
    the conversion makes of each answer. *)
Lemma population_of_not_own (o : object_value) (d : string) :
  own_members o !! d = None ->
  exists power, actuation (population_of o d) = Some power /\
    (member o d = None ->
     population_of o d = Json (JNumber NaN) /\ power = NaN) /\
    (forall b, member o d = Some (Builtin b) ->
               population_of o d = Builtin b /\
               power = match b with
                       | ArrayPrototype => pos_zero
                       | _ => NaN
                       end) /\
    (forall n, member o d = Some (Json (JNumber n)) ->
               exists items, o = ArrayObject items /\ d = "length" /\
                             n = number_of_Z (Z.of_nat (length items)) /\
                             population_of o d = Json (JNumber n) /\
                             power = populationToFanPower n).
Proof.
  intros Hown. unfold population_of, member. rewrite Hown.
  destruct o as [members|items].
  - unfold Object_prototype_member.
    destruct (String.eqb d "__proto__").
    + eexists. split; [reflexivity|]. split; [discriminate|].
      split; [intros b [= <-]; split; reflexivity | discriminate].
    + destruct (is_name_of Object_prototype_names d).
      * eexists. split; [reflexivity|]. split; [discriminate|].
        split; [intros b [= <-]; split; reflexivity | discriminate].
      * eexists. split; [reflexivity|]. split; [intros _; split; reflexivity|].
        split; [discriminate | discriminate].
  - destruct (String.eqb d "length") eqn:Hlen.
    + apply String.eqb_eq in Hlen as ->.
      eexists. split; [reflexivity|]. split; [discriminate|].
      split; [discriminate|]. intros n [= <-]. exists items.
      repeat split; reflexivity.
    + destruct (is_name_of Array_prototype_names d).
      * eexists. split; [reflexivity|]. split; [discriminate|].
        split; [intros b [= <-]; split; reflexivity | discriminate].
      * unfold Object_prototype_member.
        destruct (String.eqb d "__proto__").
        -- eexists. split; [reflexivity|]. split; [discriminate|].
           split; [intros b [= <-]; split; reflexivity | discriminate].
        -- destruct (is_name_of Object_prototype_names d).
           ++ eexists. split; [reflexivity|]. split; [discriminate|].
              split; [intros b [= <-]; split; reflexivity | discriminate].
           ++ eexists. split; [reflexivity|]. split; [intros _; split; reflexivity|].
              split; [discriminate | discriminate].
Qed.

(** X6. A unit of a domain that is no own key of the population object
    is always answered, and its entry is stored, but [/status] stays as
    it was.  When the name has no inherited member either, the answer is
    the four bytes of a 32-bit NaN and the population recorded is NaN.
    When the name is inherited from a prototype (such as [constructor]),
    the population recorded is that built-in object and the answer is
    again NaN, except for the prototype of an array, which converts to 0.
    The only number that a name without own member can reach is the
    [length] of a population object that is an array. *)
Theorem unit_of_unknown_domain_gets_NaN
        (now : Z) (domain : string) (req : unit_request) (st : server) :
  payload_accepted req = true ->
  own_members (domains st) !! unit_domain domain = None ->
  exists power e,
    (post_unit now domain req st).2 = OkOctets (writeFloatLE power) /\
    status (post_unit now domain req st).1 !! unit_domain domain = Some e /\
    population e = population_of (domains st) (unit_domain domain) /\
    fan_power e = Some power /\
    get_status (post_unit now domain req st).1 = get_status st /\
    writeFloatLE NaN = [x00; x00; xc0; x7f] /\
    readFloatLE [x00; x00; xc0; x7f] 0 = Some NaN /\
    (member (domains st) (unit_domain domain) = None ->
     population e = Json (JNumber NaN) /\ power = NaN) /\
    (forall b, member (domains st) (unit_domain domain) = Some (Builtin b) ->
               population e = Builtin b /\
               power = match b with
                       | ArrayPrototype => pos_zero
                       | _ => NaN
                       end) /\
    (forall n, member (domains st) (unit_domain domain) = Some (Json (JNumber n)) ->
               exists items, domains st = ArrayObject items /\
                             unit_domain domain = "length" /\
                             n = number_of_Z (Z.of_nat (length items)) /\
                             population e = Json (JNumber n) /\
                             power = populationToFanPower n).
Proof.
  intros Hp Hnone.
  destruct (post_unit_accepted now domain req st Hp)
    as (t & h & f & Ht & Hh & Hf & Heq).
  destruct (population_of_not_own (domains st) (unit_domain domain) Hnone)
    as (power & Hpower & Hmissing & Hbuiltin & Hnumber).
  cbv zeta in Heq. rewrite Hpower in Heq.
  exists power. eexists.
  rewrite Heq. cbn [fst snd status].
  split; [reflexivity|]. split; [apply lookup_insert_eq|].
  cbn [population fan_power].
  split; [reflexivity|]. split; [reflexivity|].
  split; [eapply get_status_insert_undetected; [reflexivity | reflexivity | exact Hnone]|].
  split; [reflexivity|]. split; [reflexivity|].
  split; [exact Hmissing|]. split; [exact Hbuiltin | exact Hnumber].
Qed.

Lemma unit_of_unknown_domain_witness :
  exists power e,
    (post_unit 0 "constructor" example_unit_request example_busy_server).2
    = OkOctets (writeFloatLE power) /\
    status (post_unit 0 "constructor" example_unit_request example_busy_server).1
      !! unit_domain "constructor" = Some e /\
    population e
    = population_of (domains example_busy_server) (unit_domain "constructor") /\
    fan_power e = Some power /\
    get_status (post_unit 0 "constructor" example_unit_request example_busy_server).1
    = get_status example_busy_server /\
    writeFloatLE NaN = [x00; x00; xc0; x7f] /\
    readFloatLE [x00; x00; xc0; x7f] 0 = Some NaN /\
    (member (domains example_busy_server) (unit_domain "constructor") = None ->
     population e = Json (JNumber NaN) /\ power = NaN) /\
    (forall b, member (domains example_busy_server) (unit_domain "constructor")
               = Some (Builtin b) ->
               population e = Builtin b /\
               power = match b with
                       | ArrayPrototype => pos_zero
                       | _ => NaN
                       end) /\
    (forall n, member (domains example_busy_server) (unit_domain "constructor")
               = Some (Json (JNumber n)) ->
               exists items, domains example_busy_server = ArrayObject items /\
                             unit_domain "constructor" = "length" /\
                             n = number_of_Z (Z.of_nat (length items)) /\
                             population e = Json (JNumber n) /\
                             power = populationToFanPower n).
Proof.
  apply (unit_of_unknown_domain_gets_NaN 0 "constructor" example_unit_request
           example_busy_server).
  - reflexivity.
  - vm_compute. reflexivity.
Defined.

(** ** The log files *)

Lemma appendFile_lookup (path data : string) (fs : gmap string file) (k : string) :
  appendFile path data fs !! k
  = if decide (k = path)
    then match fs !! path with
         | None => Some (Readable data)
         | Some (Readable content) => Some (Readable (content +:+ data))
         | Some Unreadable => Some Unreadable
         end
    else fs !! k.
Proof.
  unfold appendFile. destruct (decide (k = path)) as [->|Hne].
  - destruct (fs !! path) as [[content|]|] eqn:E;
      rewrite ?lookup_insert_eq; [reflexivity | exact E | reflexivity].
  - destruct (fs !! path) as [[content|]|];
      rewrite ?lookup_insert_ne by congruence; reflexivity.
Qed.

Lemma extends_refl (fs : gmap string file) : extends fs fs.
Proof.
  intros path. destruct (fs !! path) as [[content|]|] eqn:E.
  - exists EmptyString. rewrite append_nil_r. reflexivity.
  - reflexivity.
  - left. reflexivity.
Qed.

Lemma extends_trans (a b c : gmap string file) :
  extends a b -> extends b c -> extends a c.
Proof.
  intros Hab Hbc path. specialize (Hab path). specialize (Hbc path).
  destruct (a !! path) as [[content|]|].
  - destruct Hab as [more Hb]. rewrite Hb in Hbc. destruct Hbc as [more' Hc].
    exists (more +:+ more'). rewrite Hc, append_assoc. reflexivity.
  - rewrite Hab in Hbc. exact Hbc.
  - destruct Hab as [Hb|(domain & content & Hpath & Hb)].
    + rewrite Hb in Hbc. exact Hbc.
    + rewrite Hb in Hbc. destruct Hbc as [more Hc].
      right. exists domain, (content +:+ more). split; assumption.
Qed.

Lemma extends_appendFile (domain data : string) (fs : gmap string file) :
  extends fs (appendFile (logFile domain) data fs).
Proof.
  intros path. rewrite appendFile_lookup.
  destruct (decide (path = logFile domain)) as [->|Hne].
  - destruct (fs !! logFile domain) as [[content|]|].
    + exists data. reflexivity.
    + reflexivity.
    + right. exists domain, data. split; reflexivity.
  - destruct (fs !! path) as [[content|]|] eqn:E.
    + exists EmptyString. rewrite append_nil_r. reflexivity.
    + reflexivity.
    + left. reflexivity.
Qed.

Lemma files_run_timers (now : Z) (st : server) : files (run_timers now st) = files st.
Proof.
  unfold run_timers. induction (due_timers now st) as [|id l IH]; [reflexivity|].
  cbn [foldr]. exact IH.
Qed.

Lemma files_handle (now : Z) (r : request) (st : server) :
  extends (files st) (files (handle now r st).1).
Proof.
  destruct r as [req|domain req| |domain q]; cbn [handle fst];
    try apply extends_refl.
  - unfold post_detections. destruct (d_is_json req); [|apply extends_refl].
    destruct (d_body req); apply extends_refl.
  - destruct (payload_accepted req) eqn:Hp.
    + destruct (post_unit_accepted now domain req st Hp)
        as (t & h & f & _ & _ & _ & Heq).
      cbv zeta in Heq. rewrite Heq.
      destruct (actuation _); [|apply extends_refl].
      cbn [fst files]. apply extends_appendFile.
    + unfold post_unit. unfold payload_accepted in Hp.
      destruct (u_body req); [|apply extends_refl]. rewrite Hp. apply extends_refl.
Qed.

(** X7. The server never deletes, truncates or rewrites a file: after
    any sequence of requests every file holds what it held with text
    added at its end at most, what could not be read still cannot, and a
    path that is new is the log of some domain. *)
Theorem logs_are_append_only (events : list (Z * request)) (st : server) :
  extends (files st) (files (run events st)).
Proof.
  revert st. induction events as [|[now r] events IH]; intros st;
    [apply extends_refl|].
  unfold run. cbn [fold_left]. eapply extends_trans; [|apply IH].
  unfold serve. cbn [fst snd]. rewrite <- (files_run_timers now st).
  apply files_handle.
Qed.

(** ** File names *)

Lemma filename_char_not_separator (c : ascii) :
  is_filename_char c = true -> is_not "/" c = true /\ is_not "." c = true.
Proof. destruct c as [[] [] [] [] [] [] [] []]; try discriminate; split; reflexivity. Qed.

Lemma normalizeFilenameComponent_chars (name : string) :
  all_chars is_filename_char (normalizeFilenameComponent name) = true.
Proof.
  induction name as [|c r IH]; [reflexivity|].
  cbn [normalizeFilenameComponent all_chars]. rewrite IH, andb_true_r.
  destruct (is_filename_char c) eqn:E; [exact E | reflexivity].
Qed.

Lemma normalizeFilenameComponent_fixed (name : string) :
  normalizeFilenameComponent name = name <-> all_chars is_filename_char name = true.
Proof.
  induction name as [|c r IH]; [split; reflexivity|].
  cbn [normalizeFilenameComponent all_chars]. split.
  - intros H. injection H as Hc Hr. apply IH in Hr. rewrite Hr, andb_true_r.
    destruct (is_filename_char c) eqn:E; [reflexivity|].
    subst c. discriminate E.
  - intros [Hc Hr]%andb_prop. rewrite Hc. f_equal. apply IH. exact Hr.
Qed.

(** X8. Sanitising a name keeps its length, leaves only letters,
    digits, underscores and hyphens (so the name adds no directory
    separator and no dot to the path of the log), changes nothing when
    applied again, and leaves exactly the names made of such characters
    as they are. *)
Theorem normalizeFilenameComponent_safe (name : string) :
  String.length (normalizeFilenameComponent name) = String.length name /\
  all_chars is_filename_char (normalizeFilenameComponent name) = true /\
  all_chars (is_not "/") (normalizeFilenameComponent name) = true /\
  all_chars (is_not ".") (normalizeFilenameComponent name) = true /\
  normalizeFilenameComponent (normalizeFilenameComponent name)
  = normalizeFilenameComponent name /\
  (normalizeFilenameComponent name = name
   <-> all_chars is_filename_char name = true).
Proof.
  split; [|split; [|split; [|split; [|split]]]].
  - induction name as [|c r IH]; [reflexivity|].
    cbn [normalizeFilenameComponent String.length]. rewrite IH. reflexivity.
  - apply normalizeFilenameComponent_chars.
  - eapply all_chars_impl; [|apply normalizeFilenameComponent_chars].
    intros c Hc. apply filename_char_not_separator, Hc.
  - eapply all_chars_impl; [|apply normalizeFilenameComponent_chars].
    intros c Hc. apply filename_char_not_separator, Hc.
  - apply normalizeFilenameComponent_fixed, normalizeFilenameComponent_chars.
  - apply normalizeFilenameComponent_fixed.
Qed.

Lemma append_cancel_l (p a b : string) : p +:+ a = p +:+ b -> a = b.
Proof.
  induction p as [|c p IH]; [rewrite !append_nil_l; auto|].
  rewrite !append_cons. intros H. injection H as H. apply IH, H.
Qed.

Lemma append_cancel_r (a b s : string) : a +:+ s = b +:+ s -> a = b.
Proof.
  revert b. induction a as [|c a IH]; intros [|c' b] H.
  - reflexivity.
  - exfalso. apply (f_equal str_length) in H.
    rewrite append_nil_l, str_length_app, str_length_cons in H.
    pose proof (str_length_nonneg b). lia.
  - exfalso. apply (f_equal str_length) in H.
    rewrite append_nil_l, str_length_app, str_length_cons in H.
    pose proof (str_length_nonneg a). lia.
  - rewrite !append_cons in H. injection H as -> H. f_equal. apply IH, H.
Qed.

Lemma logFile_inj (d1 d2 : string) :
  logFile d1 = logFile d2 ->
  normalizeFilenameComponent d1 = normalizeFilenameComponent d2.
Proof.
  unfold logFile. intros H. apply append_cancel_l in H.
  apply append_cancel_r in H. exact H.
Qed.

(** X9. Two names that differ after sanitising have logs of their own:
    a telemetry post under one leaves the log of the other, and every
    history answer for it, as they were. *)
Theorem logs_of_distinct_sanitized_names_are_independent
        (d1 d2 : string) (now : Z) (req : unit_request) (st : server)
        (later : Z) (q : history_query) :
  normalizeFilenameComponent (unit_domain d1) <> normalizeFilenameComponent d2 ->
  logFile (unit_domain d1) <> logFile d2 /\
  files (post_unit now d1 req st).1 !! logFile d2 = files st !! logFile d2 /\
  get_history later d2 q (post_unit now d1 req st).1 = get_history later d2 q st.
Proof.
  intros Hne.
  assert (Hlog : logFile (unit_domain d1) <> logFile d2).
  { intros H. apply Hne, logFile_inj, H. }
  assert (Hfile : files (post_unit now d1 req st).1 !! logFile d2
                  = files st !! logFile d2).
  { destruct (payload_accepted req) eqn:Hp.
    - destruct (post_unit_accepted now d1 req st Hp)
        as (t & h & f & _ & _ & _ & Heq).
      cbv zeta in Heq. rewrite Heq.
      destruct (actuation _); [|reflexivity]. cbn [fst files].
      rewrite appendFile_lookup. rewrite decide_False by congruence. reflexivity.
    - unfold post_unit. unfold payload_accepted in Hp.
      destruct (u_body req); [|reflexivity]. rewrite Hp. reflexivity. }
  split; [exact Hlog|]. split; [exact Hfile|].
  unfold get_history. rewrite Hfile. reflexivity.
Qed.

Lemma logs_of_distinct_sanitized_names_witness :
  logFile (unit_domain "a.b") <> logFile "a-b" /\
  files (post_unit 1000 "a.b" example_unit_request example_server).1 !! logFile "a-b"
  = files example_server !! logFile "a-b" /\
  get_history 2000 "a-b" example_query
    (post_unit 1000 "a.b" example_unit_request example_server).1
  = get_history 2000 "a-b" example_query example_server.
Proof.
  apply (logs_of_distinct_sanitized_names_are_independent
           "a.b" "a-b" 1000 example_unit_request example_server 2000 example_query).
  vm_compute. discriminate.
Defined.

(** X10. Sanitising is injective on the names that need none: two
    different names made of letters, digits, underscores and hyphens
    only never share a log. *)
Theorem plain_names_have_their_own_log (d1 d2 : string) :
  all_chars is_filename_char d1 = true ->
  all_chars is_filename_char d2 = true ->
  d1 <> d2 ->
  normalizeFilenameComponent d1 <> normalizeFilenameComponent d2 /\
  logFile d1 <> logFile d2.
Proof.
  intros H1 H2 Hne.
  apply normalizeFilenameComponent_fixed in H1, H2.
  assert (Hn : normalizeFilenameComponent d1 <> normalizeFilenameComponent d2)
    by congruence.
  split; [exact Hn|]. intros H. apply Hn, logFile_inj, H.
Qed.

Lemma plain_names_witness :
  normalizeFilenameComponent "room-1" <> normalizeFilenameComponent "room_1" /\
  logFile "room-1" <> logFile "room_1".
Proof.
  apply (plain_names_have_their_own_log "room-1" "room_1").
  - reflexivity.
  - reflexivity.
  - discriminate.
Defined.

(** ** The history answer *)

Lemma downsample_sublist (step lastIncludedTime : number) (lines : list string) :
  sublist (downsample step lastIncludedTime lines) lines.
Proof.
  revert lastIncludedTime. induction lines as [|line rest IH]; intros t;
    cbn [downsample]; [constructor|].
  destruct (line_time line) as [time|]; [|apply sublist_cons, IH].
  destruct (num_ge (num_sub time t) step);
    [apply sublist_skip, IH | apply sublist_cons, IH].
Qed.

Lemma List_filter_sublist {A : Type} (f : A -> bool) (l : list A) :
  sublist (List.filter f l) l.
Proof.
  induction l as [|x l IH]; cbn [List.filter]; [constructor|].
  destruct (f x); [apply sublist_skip, IH | apply sublist_cons, IH].
Qed.

Lemma List_filter_mono {A : Type} (f : A -> bool) (a b : list A) :
  sublist a b -> sublist (List.filter f a) (List.filter f b).
Proof.
  induction 1 as [|x a b _ IH|x a b _ IH]; cbn [List.filter].
  - constructor.
  - destruct (f x); [apply sublist_skip, IH | exact IH].
  - destruct (f x); [apply sublist_cons, IH | exact IH].
Qed.

(** The lines sent are lines of the input, in the order of the input. *)
Lemma history_output_sublist (step : number) (matching : list string) :
  sublist (history_output step matching) matching.
Proof.
  destruct matching as [|first rest]; [constructor|].
  unfold history_output.
  set (last_ := List.last (first :: rest) first).
  set (keep := λ line : string,
         negb (String.eqb line first) && negb (String.eqb line last_)).
  set (sampled := downsample step neg_Infinity (first :: rest)).
  assert (Hs : sublist sampled (first :: rest)) by apply downsample_sublist.
  assert (Hfirst : keep first = false).
  { unfold keep. rewrite String.eqb_refl. reflexivity. }
  assert (Hlast : keep last_ = false).
  { unfold keep. rewrite (String.eqb_refl last_). apply andb_false_r. }
  cbn [app]. apply sublist_skip.
  apply (List_filter_mono keep) in Hs. cbn [List.filter] in Hs.
  rewrite Hfirst in Hs.
  destruct rest as [|z rest' _] using rev_ind.
  - apply sublist_nil_r in Hs. rewrite Hs.
    subst last_. cbn [List.last]. rewrite String.eqb_refl. constructor.
  - assert (Hz : last_ = z).
    { subst last_. change (first :: rest' ++ [z]) with ((first :: rest') ++ [z]).
      apply last_last. }
    rewrite List.filter_app in Hs. cbn [List.filter] in Hs.
    rewrite <- Hz, Hlast, app_nil_r in Hs.
    apply sublist_app.
    + etransitivity; [exact Hs | apply List_filter_sublist].
    + rewrite Hz. destruct (String.eqb z first); [apply sublist_nil_l | reflexivity].
Qed.

Lemma in_range_inv (p : history_params) (line : string) :
  in_range p line = true ->
  line <> EmptyString /\
  (2 <= length (split "," line))%nat /\
  exists time,
    line_time line = Some time /\
    (forall start, h_start p = Some start -> num_lt time start = false) /\
    num_gt time (h_end p) = false.
Proof.
  unfold in_range. destruct line as [|c r]; [discriminate|].
  destruct (line_time (String c r)) as [time|] eqn:Ht; [|discriminate].
  intros [Hs He]%andb_prop. apply negb_true_iff in Hs, He.
  split; [discriminate|]. split.
  - unfold line_time in Ht.
    destruct (2 <=? length (split "," (String c r)))%nat eqn:E; [|discriminate].
    apply Nat.leb_le, E.
  - exists time. split; [reflexivity|]. split; [|exact He].
    intros start Hstart. rewrite Hstart in Hs. exact Hs.
Qed.

(** X11. For a log that can be read, the lines of a history answer are
    lines of the log in the order of the log, each taken at most as
    often as it stands there; every one of them is not empty, has a
    comma, and has a time that is neither before [start] nor after
    [end]. *)
Theorem history_answer_is_a_subsequence
        (now : Z) (domain : string) (q : history_query) (st : server)
        (p : history_params) (fileContent : string) :
  history_parameters now q = inr p ->
  files st !! logFile domain = Some (Readable fileContent) ->
  exists sent,
    get_history now domain q st = OkText (join newline sent) /\
    sublist sent (matching_lines p (log_lines fileContent)) /\
    sublist sent (log_lines fileContent) /\
    (length sent <= length (log_lines fileContent))%nat /\
    forall line, In line sent ->
      line <> EmptyString /\
      (2 <= length (split "," line))%nat /\
      exists time,
        line_time line = Some time /\
        (forall start, h_start p = Some start -> num_lt time start = false) /\
        num_gt time (h_end p) = false.
Proof.
  intros Hq Hfile.
  exists (history_output (h_step p) (matching_lines p (log_lines fileContent))).
  split; [apply get_history_readable; assumption|].
  pose proof (history_output_sublist (h_step p)
                (matching_lines p (log_lines fileContent))) as Hsub.
  assert (Hall : sublist (history_output (h_step p)
                            (matching_lines p (log_lines fileContent)))
                         (log_lines fileContent)).
  { etransitivity; [exact Hsub | apply List_filter_sublist]. }
  split; [exact Hsub|]. split; [exact Hall|].
  split; [apply sublist_length, Hall|].
  intros line Hin. apply in_range_inv.
  apply list_elem_of_In in Hin.
  pose proof (sublist_subseteq _ _ Hsub line Hin) as Hm.
  apply list_elem_of_In in Hm.
  unfold matching_lines in Hm. apply List.filter_In in Hm. apply Hm.
Qed.

Lemma history_answer_is_a_subsequence_witness :
  exists sent,
    get_history 0 "a" example_query example_server = OkText (join newline sent) /\
    sublist sent (matching_lines {| h_start := Some (number_of_Z 0);
                                    h_end := number_of_Z 40;
                                    h_step := number_of_Z 25 |}
                                 (log_lines example_log)) /\
    sublist sent (log_lines example_log) /\
    (length sent <= length (log_lines example_log))%nat /\
    forall line, In line sent ->
      line <> EmptyString /\
      (2 <= length (split "," line))%nat /\
      exists time,
        line_time line = Some time /\
        (forall start, Some (number_of_Z 0) = Some start -> num_lt time start = false) /\
        num_gt time (number_of_Z 40) = false.
Proof.
  apply (history_answer_is_a_subsequence 0 "a" example_query example_server
           {| h_start := Some (number_of_Z 0); h_end := number_of_Z 40;
              h_step := number_of_Z 25 |} example_log).
  - vm_compute. reflexivity.
  - vm_compute. reflexivity.
Defined.

(** X12. A log that exists and has no line in range gives an empty text
    with status 200 (and not the empty JSON array of a missing log); an
    empty log file is such a log for every query. *)
Theorem history_of_log_without_match_is_empty_text
        (now : Z) (domain : string) (q : history_query) (st : server)
        (p : history_params) (fileContent : string) :
  history_parameters now q = inr p ->
  files st !! logFile domain = Some (Readable fileContent) ->
  matching_lines p (log_lines fileContent) = [] ->
  get_history now domain q st = OkText EmptyString /\
  status_code (get_history now domain q st) = 200 /\
  matching_lines p (log_lines EmptyString) = [].
Proof.
  intros Hq Hfile Hnone.
  rewrite (get_history_readable now domain q st p fileContent Hq Hfile), Hnone.
  split; [reflexivity|]. split; reflexivity.
Qed.

Lemma history_of_log_without_match_witness :
  get_history 100 "a"
    {| startParam := Some "50"; endParam := None; stepParam := None |}
    example_server = OkText EmptyString /\
  status_code (get_history 100 "a"
                 {| startParam := Some "50"; endParam := None; stepParam := None |}
                 example_server) = 200 /\
  matching_lines {| h_start := Some (number_of_Z 50);
                    h_end := seconds_of 100;
                    h_step := number_of_Z 60 |}
                 (log_lines EmptyString) = [].
Proof.
  apply (history_of_log_without_match_is_empty_text 100 "a"
           {| startParam := Some "50"; endParam := None; stepParam := None |}
           example_server
           {| h_start := Some (number_of_Z 50); h_end := seconds_of 100;
              h_step := number_of_Z 60 |} example_log).
  - vm_compute. reflexivity.
  - vm_compute. reflexivity.
  - vm_compute. reflexivity.
Defined.

(** ** The parameters of a history query *)

Lemma SFcompare_number (x y : number) :
  isNaN x = false -> isNaN y = false -> exists c, SFcompare x y = Some c.
Proof.
  destruct x as [sx|sx| |sx mx ex], y as [sy|sy| |sy my ey];
    try discriminate; intros _ _; cbn [SFcompare];
    repeat match goal with
           | |- context [match ?c with _ => _ end] => destruct c
           end; eauto.
Qed.

Lemma num_gt_of_not_le (x y : number) :
  isNaN x = false -> isNaN y = false -> num_le x y = false -> num_gt x y = true.
Proof.
  intros Hx Hy. unfold num_le, num_gt, SFleb, SFltb.
  rewrite (SFcompare_antisym x y).
  destruct (SFcompare_number x y Hx Hy) as [c ->].
  destruct c; try discriminate. reflexivity.
Qed.

(** X13. The parameters that pass the validation are numbers: [end] and
    [step] are not NaN, [step] is above 0, and a [start] that is given is
    not NaN.  A parameter that is absent or empty takes its default: no
    lower bound, the current time in seconds, and 60. *)
Theorem accepted_history_parameters_are_numbers
        (now : Z) (q : history_query) (p : history_params) :
  history_parameters now q = inr p ->
  isNaN (h_end p) = false /\
  isNaN (h_step p) = false /\
  num_gt (h_step p) (number_of_Z 0) = true /\
  (forall start, h_start p = Some start -> isNaN start = false) /\
  h_start p = option_map parseFloat (supplied (startParam q)) /\
  (supplied (endParam q) = None -> h_end p = seconds_of now) /\
  (supplied (stepParam q) = None -> h_step p = number_of_Z 60).
Proof.
  unfold history_parameters.
  set (start := option_map parseFloat (supplied (startParam q))).
  set (end_ := match supplied (endParam q) with
               | Some s => parseFloat s
               | None => num_div (number_of_Z now) (number_of_Z 1000)
               end).
  set (step := match supplied (stepParam q) with
               | Some s => parseFloat s
               | None => number_of_Z 60
               end).
  destruct (match start with Some s => isNaN s | None => false end) eqn:Hs;
    [discriminate|].
  destruct (isNaN end_) eqn:He; [discriminate|].
  destruct (isNaN step) eqn:Hn; [discriminate|].
  destruct (num_le step (number_of_Z 0)) eqn:Hle; [discriminate|].
  cbn [orb]. intros H. injection H as <-. cbn [h_start h_end h_step].
  split; [exact He|]. split; [exact Hn|].
  split; [apply num_gt_of_not_le; [exact Hn | reflexivity | exact Hle]|].
  split.
  - intros s0 Hs0. rewrite Hs0 in Hs. exact Hs.
  - split; [reflexivity|]. split.
    + intros Hnone. unfold end_. rewrite Hnone. reflexivity.
    + intros Hnone. unfold step. rewrite Hnone. reflexivity.
Qed.

Lemma accepted_history_parameters_witness :
  isNaN (number_of_Z 40) = false /\
  isNaN (number_of_Z 25) = false /\
  num_gt (number_of_Z 25) (number_of_Z 0) = true /\
  (forall start, Some (number_of_Z 0) = Some start -> isNaN start = false) /\
  Some (number_of_Z 0) = option_map parseFloat (supplied (startParam example_query)) /\
  (supplied (endParam example_query) = None -> number_of_Z 40 = seconds_of 0) /\
  (supplied (stepParam example_query) = None -> number_of_Z 25 = number_of_Z 60).
Proof.
  apply (accepted_history_parameters_are_numbers 0 example_query
           {| h_start := Some (number_of_Z 0); h_end := number_of_Z 40;
              h_step := number_of_Z 25 |}).
  vm_compute. reflexivity.
Defined.

(** ** Before the timeout *)

Lemma run_timers_before (now : Z) (st : server) (id : nat) (d : Z) :
  pending st id d -> now < d -> run_timers now st = st.
Proof.
  intros [_ Ht] Hlt. rewrite (run_timers_single now st id d Ht).
  rewrite decide_False by lia. reflexivity.
Qed.

Lemma run_pending (events : list (Z * request)) (st : server) (id : nat) (d : Z) :
  Forall (quiet_before d) events -> pending st id d ->
  pending (run events st) id d /\ domains (run events st) = domains st.
Proof.
  intros Hev. revert st. induction Hev as [|[now r] events [Hlt Hq] _ IH];
    intros st Hp; [split; [exact Hp | reflexivity]|].
  cbn [fst snd] in Hlt, Hq.
  change (run ((now, r) :: events) st) with (run events (serve now r st).1).
  unfold serve. rewrite (run_timers_before now st id d Hp Hlt).
  destruct (handle_keeps_timers now r st Hq) as (Ht & Hh & Hd & _).
  destruct (IH (handle now r st).1) as [Hp' Hd'].
  - destruct Hp as [Hh0 Ht0]. split; congruence.
  - split; [exact Hp'|]. rewrite Hd'. exact Hd.
Qed.

(** ** The delay of the timer *)

Lemma SFleb_finite_pos (m1 m2 : positive) (e1 e2 : Z) :
  SFleb (S754_finite false m1 e1) (S754_finite false m2 e2)
  = match e1 ?= e2 with
    | Lt => true
    | Gt => false
    | Eq => match (m1 ?= m2)%positive with Gt => false | _ => true end
    end.
Proof.
  unfold SFleb, SFcompare. destruct (e1 ?= e2); reflexivity.
Qed.

(** A whole number of milliseconds between 1 and 2^31 - 1 is the delay
    of its timer. *)
Lemma timer_delay_whole (t : Z) :
  1 <= t <= TIMEOUT_MAX -> timer_delay (number_of_Z t) = t.
Proof.
  intros Ht. unfold TIMEOUT_MAX in Ht. destruct t as [|p|p]; try lia.
  assert (Hp : Zpos p < 2 ^ 31) by lia.
  pose proof (digits2_pos_le p 31 ltac:(lia) Hp) as Hd.
  pose proof (Pos2Z.is_pos (digits2_pos p)) as Hpos.
  unfold number_of_Z at 1, binary_normalize.
  destruct (binary_round_aligned false p 0 ltac:(lia) ltac:(lia))
    as (mz & -> & _ & Hmz).
  rewrite Z.add_0_r. set (d := Zpos (digits2_pos p)) in *.
  assert (H1 : number_of_Z 1 = S754_finite false 4503599627370496 (-52))
    by reflexivity.
  assert (H2 : number_of_Z TIMEOUT_MAX = S754_finite false 9007199250546688 (-22))
    by reflexivity.
  unfold timer_delay, num_ge, num_le. rewrite H1, H2, !SFleb_finite_pos.
  assert (Hge : match -52 ?= d - 53 with
                | Lt => true
                | Gt => false
                | Eq => match (4503599627370496 ?= mz)%positive with
                        | Gt => false
                        | _ => true
                        end
                end = true).
  { destruct (Z.compare_spec (-52) (d - 53)) as [He|He|He]; [|reflexivity|lia].
    replace (53 - d) with 52 in Hmz by lia.
    change (2 ^ 52) with 4503599627370496 in Hmz.
    destruct (Pos.compare_spec 4503599627370496 mz) as [Hc|Hc|Hc]; try reflexivity.
    apply Pos2Z.pos_lt_pos in Hc. rewrite Hmz in Hc. lia. }
  assert (Hle : match d - 53 ?= -22 with
                | Lt => true
                | Gt => false
                | Eq => match (mz ?= 9007199250546688)%positive with
                        | Gt => false
                        | _ => true
                        end
                end = true).
  { destruct (Z.compare_spec (d - 53) (-22)) as [He|He|He]; [|reflexivity|lia].
    replace (53 - d) with 22 in Hmz by lia.
    change (2 ^ 22) with 4194304 in Hmz.
    destruct (Pos.compare_spec mz 9007199250546688) as [Hc|Hc|Hc]; try reflexivity.
    apply Pos2Z.pos_lt_pos in Hc. rewrite Hmz in Hc. lia. }
  rewrite Hge, Hle. cbn [andb]. unfold truncate.
  destruct (0 <=? d - 53) eqn:E; [apply Z.leb_le in E; lia|].
  replace (- (d - 53)) with (53 - d) by lia.
  rewrite Hmz, Z.div_mul; [reflexivity|].
  apply Z.pow_nonzero; lia.
Qed.

(** C8. In every reachable state at most one timer is pending, the one
    the handle names.  A detections post leaves exactly one pending
    timer, due one timer delay later (a timer that was pending before is
    cancelled); the delay is the one the runtime gives to the configured
    timeout: the timeout itself when it is a whole number of milliseconds
    between 1 and 2^31 - 1, 10000 ms for the default option of 10
    seconds.  When that
    timer runs, the population object and the status map are cleared; and
    whatever requests other than detections posts are served in between,
    once the delay has passed the population object is empty and
    [/status] answers the empty record. *)
Theorem inactivity_timeout_clears_detections :
  (forall (timeout : number) (fs : gmap string file) (events : list (Z * request)),
      timer_invariant (run events (initial_server timeout fs))) /\
  (forall (timeout : number) (fs : gmap string file) (before : list (Z * request))
          (now : Z) (req : detections_request) (detections : object_value)
          (between : list (Z * request)) (later : Z),
      d_is_json req = true -> d_body req = ObjectBody detections ->
      forallb (λ ev, negb (is_detections_post ev.2)) between = true ->
      now + timer_delay timeout <= later ->
      let st0 := run before (initial_server timeout fs) in
      let st1 := (serve now (PostDetections req) st0).1 in
      (exists id, detectionsTimeoutHandle st1 = Some id /\
                  timers st1 = {[ id := now + timer_delay timeout ]}) /\
      (domains (run_timers later st1) = ∅ /\
       status (run_timers later st1) = ∅ /\
       timers (run_timers later st1) = ∅ /\
       detectionsTimeoutHandle (run_timers later st1) = None) /\
      (domains (run_timers later (run between st1)) = ∅ /\
       get_status (run_timers later (run between st1)) = OkJsonStatus ∅)) /\
  (forall t : Z, 1 <= t <= 2 ^ 31 - 1 -> timer_delay (number_of_Z t) = t) /\
  timer_delay (detectionsTimeout_of_option "10") = 10000.
Proof.
  split; [|split; [|split; [exact timer_delay_whole | reflexivity]]].
  - intros timeout fs events. apply run_invariant. left. split; reflexivity.
  - intros timeout fs before now req detections between later Hj Hb Hev Hlater st0 st1.
    set (delay := timer_delay timeout) in *.
    assert (Hinv : timer_invariant (run_timers now st0)).
    { apply run_timers_invariant, run_invariant. left. split; reflexivity. }
    assert (Hto : detectionsTimeout (run_timers now st0) = timeout).
    { rewrite run_timers_timeout. unfold st0. rewrite run_timeout. reflexivity. }
    destruct (post_detections_pending now req _ detections Hinv Hj Hb) as [id Hp].
    rewrite Hto in Hp. fold delay in Hp.
    change (post_detections now req (run_timers now st0)).1 with st1 in Hp.
    split; [exists id; exact Hp|].
    destruct Hp as [Hh Ht]. split.
    + rewrite (run_timers_single later st1 id _ Ht).
      destruct (decide (now + delay <= later)); [|lia].
      apply (fire_timer_cleared st1 id _ Ht).
    + assert (Hw : waiting (run_timers later (run between st1)) id (now + delay)).
      { apply run_timers_waiting, run_waiting; [exact Hev|]. left. split; assumption. }
      assert (Hd : domains (run_timers later (run between st1)) = ∅).
      { destruct Hw as [[Hh' Ht']|(_ & _ & Hd)]; [|exact Hd].
        exfalso.
        pose proof (run_waiting between st1 id (now + delay) Hev
                      (or_introl (conj Hh Ht))) as Hw2.
        destruct Hw2 as [[_ Ht2]|(_ & Ht2 & _)].
        - rewrite (run_timers_single later _ id _ Ht2) in Ht'.
          destruct (decide (now + delay <= later)); [|lia].
          destruct (fire_timer_cleared _ id _ Ht2) as (_ & _ & H3 & _).
          rewrite H3 in Ht'. symmetry in Ht'.
          apply (map_non_empty_singleton id (now + delay)) in Ht'. exact Ht'.
        - rewrite run_timers_none in Ht' by exact Ht2. rewrite Ht2 in Ht'.
          symmetry in Ht'.
          apply (map_non_empty_singleton id (now + delay)) in Ht'. exact Ht'. }
      split; [exact Hd | apply get_status_empty, Hd].
Qed.

Lemma inactivity_timeout_witness :
  let st0 := run [] (initial_server (number_of_Z 10000) ∅) in
  let st1 := (serve 0 (PostDetections example_post) st0).1 in
  (exists id, detectionsTimeoutHandle st1 = Some id /\
              timers st1 = {[ id := 0 + timer_delay (number_of_Z 10000) ]}) /\
  (domains (run_timers 10000 st1) = ∅ /\
   status (run_timers 10000 st1) = ∅ /\
   timers (run_timers 10000 st1) = ∅ /\
   detectionsTimeoutHandle (run_timers 10000 st1) = None) /\
  (domains (run_timers 10000 (run [(5000, GetStatus)] st1)) = ∅ /\
   get_status (run_timers 10000 (run [(5000, GetStatus)] st1)) = OkJsonStatus ∅).
Proof.
  apply (proj1 (proj2 inactivity_timeout_clears_detections) (number_of_Z 10000) ∅ []
           0 example_post (PlainObject {[ "a" := JNumber (number_of_Z 1) ]})
           [(5000, GetStatus)] 10000).
  - reflexivity.
  - reflexivity.
  - reflexivity.
  - vm_compute. discriminate.
Defined.

(** ** From the post to the deadline *)

(** X14. Until the delay of the timer has passed after the last
    detections post, the detections stay: whatever the server did before,
    after a detections post at [now] and any requests other than
    detections posts that arrive before the deadline, the population
    object is still the posted one at every time before the deadline, and
    one timer is pending, due at the deadline.  The deadline is [now]
    plus the delay that the runtime gives to the configured timeout: the
    timeout itself, without its fraction of a millisecond, when it is
    between 1 and 2^31 - 1 ms, and 1 ms otherwise. *)
Theorem detections_are_kept_until_the_timeout
        (timeout : number) (fs : gmap string file) (before : list (Z * request))
        (now : Z) (req : detections_request) (detections : object_value)
        (between : list (Z * request)) (later : Z) :
  d_is_json req = true -> d_body req = ObjectBody detections ->
  Forall (quiet_before (now + timer_delay timeout)) between ->
  later < now + timer_delay timeout ->
  let st0 := run before (initial_server timeout fs) in
  let st1 := (serve now (PostDetections req) st0).1 in
  domains (run_timers later (run between st1)) = detections /\
  exists id, pending (run_timers later (run between st1)) id
                     (now + timer_delay timeout).
Proof.
  intros Hj Hb Hq Hlt st0 st1.
  assert (Hinv : timer_invariant (run_timers now st0)).
  { apply run_timers_invariant, run_invariant. left. split; reflexivity. }
  assert (Hto : detectionsTimeout (run_timers now st0) = timeout).
  { rewrite run_timers_timeout. unfold st0. rewrite run_timeout. reflexivity. }
  destruct (post_detections_pending now req (run_timers now st0) detections
              Hinv Hj Hb) as [id Hp].
  rewrite Hto in Hp.
  change (post_detections now req (run_timers now st0)).1 with st1 in Hp.
  destruct (run_pending between st1 id _ Hq Hp) as [Hp' Hd].
  rewrite (run_timers_before later _ id _ Hp' Hlt).
  split; [|exists id; exact Hp'].
  rewrite Hd.
  apply (status_post_detections now req (run_timers now st0) detections Hj Hb).
Qed.

Lemma detections_are_kept_witness :
  let st0 := run [(0, PostDetections example_two_domains)]
                 (initial_server (detectionsTimeout_of_option "10") ∅) in
  let st1 := (serve 6000 (PostDetections example_post) st0).1 in
  domains (run_timers 15000 (run [(12000, GetStatus)] st1))
  = PlainObject {[ "a" := JNumber (number_of_Z 1) ]} /\
  exists id, pending (run_timers 15000 (run [(12000, GetStatus)] st1)) id 16000.
Proof.
  apply (detections_are_kept_until_the_timeout (detectionsTimeout_of_option "10") ∅
           [(0, PostDetections example_two_domains)] 6000 example_post
           (PlainObject {[ "a" := JNumber (number_of_Z 1) ]})
           [(12000, GetStatus)] 15000).
  - reflexivity.
  - reflexivity.
  - constructor; [|constructor]. split; [vm_compute; reflexivity | reflexivity].
  - vm_compute. reflexivity.
Defined.

(** A timeout that the runtime does not take as it is: the timer is due
    one millisecond after the post. *)
Lemma timer_delay_replaced (timeout : number) :
  num_ge timeout (number_of_Z 1) && num_le timeout (number_of_Z TIMEOUT_MAX) = false ->
  timer_delay timeout = 1.
Proof. intros H. unfold timer_delay. rewrite H. reflexivity. Qed.

(** X27. A timeout that is not between 1 and 2^31 - 1 milliseconds
    (the option [--detections-timeout 3000000] is one, and so are 0 and
    a text that is no number) does not keep the detections for that
    long: the timer that a detections post at [now] starts is due at
    [now + 1], and at any later time the population object and the
    status map are cleared. *)
Theorem oversized_timeout_clears_after_a_millisecond
        (timeout : number) (fs : gmap string file) (before : list (Z * request))
        (now : Z) (req : detections_request) (detections : object_value)
        (later : Z) :
  num_ge timeout (number_of_Z 1) && num_le timeout (number_of_Z TIMEOUT_MAX) = false ->
  d_is_json req = true -> d_body req = ObjectBody detections ->
  now + 1 <= later ->
  let st0 := run before (initial_server timeout fs) in
  let st1 := (serve now (PostDetections req) st0).1 in
  domains st1 = detections /\
  (exists id, pending st1 id (now + 1)) /\
  domains (run_timers later st1) = ∅ /\
  status (run_timers later st1) = ∅ /\
  get_status (run_timers later st1) = OkJsonStatus ∅.
Proof.
  intros Hout Hj Hb Hlater st0 st1.
  assert (Hinv : timer_invariant (run_timers now st0)).
  { apply run_timers_invariant, run_invariant. left. split; reflexivity. }
  assert (Hto : detectionsTimeout (run_timers now st0) = timeout).
  { rewrite run_timers_timeout. unfold st0. rewrite run_timeout. reflexivity. }
  destruct (post_detections_pending now req (run_timers now st0) detections
              Hinv Hj Hb) as [id Hp].
  rewrite Hto, (timer_delay_replaced timeout Hout) in Hp.
  change (post_detections now req (run_timers now st0)).1 with st1 in Hp.
  split; [apply (status_post_detections now req (run_timers now st0) detections Hj Hb)|].
  split; [exists id; exact Hp|].
  destruct Hp as [Hh Ht].
  rewrite (run_timers_single later st1 id _ Ht).
  rewrite decide_True by lia.
  destruct (fire_timer_cleared st1 id _ Ht) as (Hd & Hs & _ & _).
  split; [exact Hd|]. split; [exact Hs|]. apply get_status_empty, Hd.
Qed.

Lemma oversized_timeout_witness :
  let st0 := run [] (initial_server (detectionsTimeout_of_option "3000000") ∅) in
  let st1 := (serve 5000 (PostDetections example_post) st0).1 in
  domains st1 = PlainObject {[ "a" := JNumber (number_of_Z 1) ]} /\
  (exists id, pending st1 id (5000 + 1)) /\
  domains (run_timers 5242 st1) = ∅ /\
  status (run_timers 5242 st1) = ∅ /\
  get_status (run_timers 5242 st1) = OkJsonStatus ∅.
Proof.
  apply (oversized_timeout_clears_after_a_millisecond
           (detectionsTimeout_of_option "3000000") ∅ [] 5000 example_post
           (PlainObject {[ "a" := JNumber (number_of_Z 1) ]}) 5242).
  - vm_compute. reflexivity.
  - reflexivity.
  - reflexivity.
  - lia.
Defined.

(** ** The earlier server *)

Lemma num_ge_zero_not_nan (v : number) :
  num_ge v (number_of_Z 0) = true -> isNaN v = false.
Proof. destruct v; [reflexivity | reflexivity | discriminate | reflexivity]. Qed.

Lemma record_count_keeps (m : gmap string number) (e : string * json) (k : string) :
  is_Some (m !! k) -> is_Some (Legacy.record_count m e !! k).
Proof.
  intros Hk. unfold Legacy.record_count. destruct e.2 as [| |count| | |]; try exact Hk.
  destruct (num_ge count (number_of_Z 0)); [|exact Hk].
  apply lookup_insert_is_Some. destruct (decide (e.1 = k)); auto.
Qed.

Lemma fold_record_count_keeps (es : list (string * json)) (m : gmap string number)
      (k : string) :
  is_Some (m !! k) -> is_Some (fold_left Legacy.record_count es m !! k).
Proof.
  revert m. induction es as [|e es IH]; intros m Hk; [exact Hk|].
  cbn [fold_left]. apply IH, record_count_keeps, Hk.
Qed.

Lemma legacy_post_keeps (req : Legacy.detections_request) (m : gmap string number)
      (k : string) :
  is_Some (m !! k) -> is_Some ((Legacy.post_detections req m).1 !! k).
Proof.
  intros Hk. unfold Legacy.post_detections.
  destruct (Legacy.d_is_json req); [|exact Hk].
  destruct (Legacy.is_object (Legacy.d_body req)); [|exact Hk].
  cbn [fst]. apply fold_record_count_keeps, Hk.
Qed.

Lemma legacy_post_valid (req : Legacy.detections_request) (m : gmap string number) :
  map_Forall (λ _ v, num_ge v (number_of_Z 0) = true) m ->
  map_Forall (λ _ v, num_ge v (number_of_Z 0) = true)
             (Legacy.post_detections req m).1.
Proof.
  intros Hm. unfold Legacy.post_detections.
  destruct (Legacy.d_is_json req); [|exact Hm].
  destruct (Legacy.is_object (Legacy.d_body req)); [|exact Hm].
  cbn [fst]. intros k v Hk.
  destruct (fold_record_count_sound _ _ _ _ Hk) as [H|[_ H]];
    [exact (Hm k v H) | exact H].
Qed.

(** X15. The earlier server never forgets a domain and never holds an
    invalid count: after any sequence of detections posts, every domain
    that was known is still known, and, starting from the empty map,
    every stored count is a number that is at least 0. *)
Theorem legacy_server_keeps_valid_counts (reqs : list Legacy.detections_request) :
  (forall (domains : gmap string number) (k : string),
      is_Some (domains !! k) -> is_Some (legacy_run reqs domains !! k)) /\
  (forall (k : string) (v : number),
      legacy_run reqs ∅ !! k = Some v ->
      num_ge v (number_of_Z 0) = true /\ isNaN v = false).
Proof.
  split.
  - induction reqs as [|req reqs IH]; intros m k Hk; [exact Hk|].
    unfold legacy_run. cbn [fold_left]. apply IH, legacy_post_keeps, Hk.
  - assert (H : forall m,
               map_Forall (λ _ v, num_ge v (number_of_Z 0) = true) m ->
               map_Forall (λ _ v, num_ge v (number_of_Z 0) = true)
                          (legacy_run reqs m)).
    { induction reqs as [|req reqs IH]; intros m Hm; [exact Hm|].
      unfold legacy_run. cbn [fold_left]. apply IH, legacy_post_valid, Hm. }
    intros k v Hk. pose proof (H ∅ (map_Forall_empty _) k v Hk) as Hv.
    split; [exact Hv | apply num_ge_zero_not_nan, Hv].
Qed.

Lemma legacy_server_keeps_valid_counts_witness :
  is_Some (legacy_run [example_detections] {[ "z" := number_of_Z 3 ]} !! "z") /\
  num_ge (number_of_Z 1) (number_of_Z 0) = true /\
  isNaN (number_of_Z 1) = false.
Proof.
  split.
  - apply (proj1 (legacy_server_keeps_valid_counts [example_detections])
             {[ "z" := number_of_Z 3 ]} "z").
    vm_compute. eauto.
  - apply (proj2 (legacy_server_keeps_valid_counts [example_detections])
             "a" (number_of_Z 1)).
    vm_compute. reflexivity.
Defined.

(** ** Numbers written and read back *)

(** X16. Both readers of the code invert the writers of numbers:
    [parseFloat] gives back every double that [Number::toString] wrote
    (the sign of zero apart, NaN and the infinities included), and
    [JSON.parse] gives back every finite double that [JSON.stringify]
    wrote, and [null] for the others. *)
Theorem numbers_are_read_back (x : number) :
  is_double x = true ->
  parseFloat (Number_toString x) = drop_zero_sign x /\
  JSON_parse (JSON_stringify_number x) = Some (json_of_number x).
Proof.
  intros Hx. split.
  - destruct x as [s|s| |s m e].
    + destruct s; reflexivity.
    + destruct s; reflexivity.
    + reflexivity.
    + apply parseFloat_Number_toString; [exact Hx | discriminate].
  - unfold JSON_parse.
    destruct (is_finite x) eqn:Hf.
    + pose proof (parse_json_number_stringify x EmptyString Hx Hf eq_refl) as Hp.
      rewrite append_nil_r in Hp.
      assert (Hhead : exists c r, JSON_stringify_number x = String c r /\
                                  (is_digit c = true \/ c = "-"%char)).
      { unfold JSON_stringify_number. rewrite Hf.
        destruct x as [s|s| |s m e]; try discriminate.
        - exists "0"%char, EmptyString. split; [reflexivity | left; reflexivity].
        - apply Number_toString_head, Hx. }
      destruct Hhead as (c & r & Hh & Hc). rewrite Hh in *.
      rewrite parse_json_value_number by exact Hc. rewrite Hp.
      unfold json_of_number. rewrite Hf. reflexivity.
    + unfold JSON_stringify_number, json_of_number. rewrite Hf. reflexivity.
Qed.

Lemma numbers_are_read_back_witness :
  parseFloat (Number_toString (num_div (number_of_Z 47) (number_of_Z 2)))
  = drop_zero_sign (num_div (number_of_Z 47) (number_of_Z 2)) /\
  JSON_parse (JSON_stringify_number (num_div (number_of_Z 47) (number_of_Z 2)))
  = Some (json_of_number (num_div (number_of_Z 47) (number_of_Z 2))).
Proof.
  apply (numbers_are_read_back (num_div (number_of_Z 47) (number_of_Z 2))).
  vm_compute. reflexivity.
Defined.

(** ** Lines joined and split *)

Lemma append_newline (a b : string) : a +:+ newline +:+ b = a +:+ String (ascii_of_N 10) b.
Proof. unfold newline. rewrite append_cons, append_nil_l. reflexivity. Qed.

Lemma split_join (lines : list string) :
  lines <> [] ->
  Forall (λ line, all_chars (is_not (ascii_of_N 10)) line = true) lines ->
  split (ascii_of_N 10) (join newline lines) = lines.
Proof.
  intros Hne Hall. induction Hall as [|line rest Hline Hrest IH]; [congruence|].
  destruct rest as [|next rest].
  - cbn [join]. apply split_no_sep, Hline.
  - change (join newline (line :: next :: rest))
      with (line +:+ newline +:+ join newline (next :: rest)).
    rewrite append_newline, split_app_sep by exact Hline.
    rewrite IH by discriminate. reflexivity.
Qed.

Lemma trimEnd_app (a s : string) :
  trimEnd s <> EmptyString -> trimEnd (a +:+ s) = a +:+ trimEnd s.
Proof.
  intros Hs. induction a as [|c a IH]; [reflexivity|].
  rewrite !append_cons. cbn [trimEnd]. rewrite IH.
  destruct (a +:+ trimEnd s) eqn:E; [|reflexivity].
  destruct a; [|rewrite append_cons in E; discriminate].
  rewrite append_nil_l in E. congruence.
Qed.

Lemma join_not_empty (lines : list string) (line : string) :
  line <> EmptyString -> join newline (line :: lines) <> EmptyString.
Proof.
  intros Hne. destruct lines as [|next rest]; [exact Hne|].
  change (join newline (line :: next :: rest))
    with (line +:+ newline +:+ join newline (next :: rest)).
  destruct line; [congruence|]. rewrite append_cons. discriminate.
Qed.

(** A text of lines without white space at their ends is not changed by
    [trimEnd]. *)
Lemma trimEnd_join (lines : list string) :
  lines <> [] -> Forall ends_plain lines ->
  trimEnd (join newline lines) = join newline lines.
Proof.
  intros Hne Hall. induction Hall as [|line rest Hline Hrest IH]; [congruence|].
  destruct rest as [|next rest]; [exact (proj1 Hline)|].
  change (join newline (line :: next :: rest))
    with (line +:+ newline +:+ join newline (next :: rest)).
  rewrite append_newline.
  assert (Hr : trimEnd (join newline (next :: rest)) = join newline (next :: rest))
    by (apply IH; discriminate).
  assert (Hn : join newline (next :: rest) <> EmptyString).
  { apply join_not_empty. inversion Hrest as [|? ? Hnext _]. exact (proj2 Hnext). }
  rewrite trimEnd_app.
  - cbn [trimEnd]. rewrite Hr.
    destruct (join newline (next :: rest)); [congruence | reflexivity].
  - cbn [trimEnd]. rewrite Hr.
    destruct (join newline (next :: rest)); [congruence | discriminate].
Qed.

Lemma log_text_join (lines : list string) :
  lines <> [] -> log_text lines = join newline lines +:+ newline.
Proof.
  intros Hne. induction lines as [|line rest IH]; [congruence|].
  destruct rest as [|next rest].
  - cbn [log_text foldr join]. rewrite append_nil_r. reflexivity.
  - change (log_text (line :: next :: rest))
      with (line +:+ newline +:+ log_text (next :: rest)).
    rewrite IH by discriminate.
    change (join newline (line :: next :: rest))
      with (line +:+ newline +:+ join newline (next :: rest)).
    rewrite !append_assoc. reflexivity.
Qed.

Lemma log_text_snoc (lines : list string) (line : string) :
  log_text (lines ++ [line]) = log_text lines +:+ line +:+ newline.
Proof.
  induction lines as [|x lines IH].
  - cbn [app log_text foldr]. rewrite append_nil_r, append_nil_l. reflexivity.
  - change (log_text ((x :: lines) ++ [line]))
      with (x +:+ newline +:+ log_text (lines ++ [line])).
    rewrite IH.
    change (log_text (x :: lines)) with (x +:+ newline +:+ log_text lines).
    rewrite !append_assoc. reflexivity.
Qed.

Lemma trimStart_join (lines : list string) (line : string) :
  (exists c r, line = String c r /\ is_number_char c = true) ->
  trimStart (join newline (line :: lines)) = join newline (line :: lines).
Proof.
  intros (c & r & -> & Hc). destruct lines as [|next rest].
  - apply trimStart_number_char, Hc.
  - change (join newline (String c r :: next :: rest))
      with (String c r +:+ newline +:+ join newline (next :: rest)).
    rewrite append_cons. apply trimStart_number_char, Hc.
Qed.

(** The history handler finds in a log the lines that were written. *)
Lemma log_lines_log_text (lines : list string) :
  lines <> [] -> Forall written_line lines ->
  log_lines (log_text lines) = lines.
Proof.
  intros Hne Hall. unfold log_lines, trim.
  rewrite log_text_join by exact Hne.
  destruct lines as [|line rest]; [congruence|].
  assert (Hhead : exists c r, line = String c r /\ is_number_char c = true).
  { inversion Hall as [|? ? (_ & H & _) _]. exact H. }
  assert (Hs : trimStart (join newline (line :: rest) +:+ newline)
               = join newline (line :: rest) +:+ newline).
  { destruct Hhead as (c & r & -> & Hc).
    assert (Hj : exists r', join newline (String c r :: rest) = String c r').
    { destruct rest as [|next rest]; [eauto|].
      change (join newline (String c r :: next :: rest))
        with (String c r +:+ newline +:+ join newline (next :: rest)).
      rewrite append_cons. eauto. }
    destruct Hj as [r' ->]. rewrite append_cons.
    apply trimStart_number_char, Hc. }
  rewrite Hs, trimEnd_newline.
  rewrite trimEnd_join; [|discriminate|].
  - apply split_join; [discriminate|].
    eapply Forall_impl; [exact Hall|]. intros l (H & _). exact H.
  - eapply Forall_impl; [exact Hall|]. intros l (_ & _ & H). exact H.
Qed.

Lemma log_line_written (now : Z) (r : reading) :
  Z.abs now < 2 ^ 53 -> reading_is_double r = true ->
  written_line (log_line now r).
Proof.
  intros Hnow Hr.
  destruct (log_line_read_back now r Hnow Hr) as (_ & _ & _ & _ & Hnl).
  destruct (number_of_Z_is_double now Hnow) as [Hd _].
  destruct (Number_toString_not_empty _ Hd) as (c & rest & Hhead & Hc).
  assert (Hline : log_line now r
                  = Number_toString (number_of_Z now)
                    +:+ String "," (JSON_stringify_reading r)) by reflexivity.
  split; [exact Hnl|]. split.
  - rewrite Hline, Hhead, append_cons. eauto.
  - rewrite Hline. apply ends_plain_app, ends_plain_cons, ends_plain_reading.
Qed.

(** ** A sequence of telemetry posts *)

Lemma holds_lines_append (fs : gmap string file) (path line : string)
      (lines : list string) :
  holds_lines fs path lines ->
  holds_lines (appendFile path (line +:+ newline) fs) path (lines ++ [line]).
Proof.
  intros [H|[-> H]]; left; rewrite appendFile_lookup, decide_True by reflexivity;
    rewrite H.
  - rewrite log_text_snoc. reflexivity.
  - cbn [app log_text foldr]. rewrite append_nil_r. reflexivity.
Qed.

Lemma post_all_lines (domain : string) (posts : list (Z * unit_request))
      (st : server) (prev : list string) :
  holds_lines (files st) (logFile (unit_domain domain)) prev ->
  Forall accepted_post posts ->
  plain_population (population_of (domains st) (unit_domain domain)) = true ->
  exists lines,
    Forall2 (line_of_post (population_of (domains st) (unit_domain domain)))
            posts lines /\
    holds_lines (files (post_all domain posts st)) (logFile (unit_domain domain))
                (prev ++ lines).
Proof.
  intros Hfile Hposts. revert st prev Hfile.
  induction Hposts as [|[now req] posts [Hnow Hacc] _ IH]; intros st prev Hfile Hpop.
  - exists []. split; [constructor|]. rewrite app_nil_r. exact Hfile.
  - cbn [fst snd] in Hnow, Hacc.
    destruct (post_unit_accepted now domain req st Hacc)
      as (t & h & f & Ht & Hh & Hf & Heq).
    cbv zeta in Heq.
    destruct (actuation_plain _ Hpop) as [power Hpower]. rewrite Hpower in Heq.
    set (population := population_of (domains st) (unit_domain domain)) in *.
    set (r := {| r_temperature := t; r_humidity := h; r_fan_rpm := f;
                 r_population := population |}) in *.
    assert (Hr : reading_is_double r = true).
    { unfold reading_is_double. cbn [r r_temperature r_humidity r_fan_rpm r_population].
      rewrite Ht, Hh, Hf. cbn [andb]. exact Hpop. }
    change (post_all domain ((now, req) :: posts) st)
      with (post_all domain posts (post_unit now domain req st).1).
    destruct (IH (post_unit now domain req st).1 (prev ++ [log_line now r]))
      as (lines & Hlines & Hholds).
    + rewrite Heq. cbn [fst files]. apply holds_lines_append, Hfile.
    + rewrite Heq. cbn [fst domains]. exact Hpop.
    + rewrite Heq in Hlines, Hholds. cbn [fst domains] in Hlines.
      exists (log_line now r :: lines). split.
      * constructor; [|exact Hlines]. exists r. auto.
      * rewrite Heq. rewrite <- app_assoc in Hholds. exact Hholds.
Qed.

(** The log of a unit after its first posts. *)
Lemma post_all_written (domain : string) (posts : list (Z * unit_request))
      (st : server) :
  files st !! logFile (unit_domain domain) = None ->
  posts <> [] ->
  Forall accepted_post posts ->
  plain_population (population_of (domains st) (unit_domain domain)) = true ->
  exists lines,
    files (post_all domain posts st) !! logFile (unit_domain domain)
    = Some (Readable (log_text lines)) /\
    log_lines (log_text lines) = lines /\
    Forall written_line lines /\
    Forall2 (λ post line,
               Z.abs post.1 < 2 ^ 53 /\
               line_of_post (population_of (domains st) (unit_domain domain))
                            post line)
            posts lines.
Proof.
  intros Hnone Hne Hposts Hpop.
  destruct (post_all_lines domain posts st [] (or_intror (conj eq_refl Hnone))
              Hposts Hpop) as (lines & Hlines & Hholds).
  cbn [app] in Hholds. exists lines.
  assert (Hnil : lines <> []).
  { intros ->. apply Forall2_nil_inv_r in Hlines. congruence. }
  assert (Hboth : Forall2 (λ post line,
                     Z.abs post.1 < 2 ^ 53 /\
                     line_of_post (population_of (domains st) (unit_domain domain))
                                  post line) posts lines).
  { clear Hholds Hnil Hne. induction Hlines as [|post line posts lines Hl _ IH];
      [constructor|].
    inversion Hposts as [|? ? [Hnow _] Hrest]; subst.
    constructor; [split; assumption | apply IH, Hrest]. }
  assert (Hw : Forall written_line lines).
  { clear Hholds Hnil Hne Hlines Hposts.
    induction Hboth as [|post line posts lines Hl _ IH]; [constructor|].
    constructor; [|exact IH].
    destruct Hl as (Hnow & r & -> & Hr & _). apply log_line_written; assumption. }
  split; [|split; [|split]].
  - destruct Hholds as [H|[H _]]; [exact H | congruence].
  - apply log_lines_log_text; assumption.
  - exact Hw.
  - exact Hboth.
Qed.



(** ** The browser's reading of a history answer *)

Lemma parse_json_items_unfold (fuel : nat) (s : string) :
  parse_json_items (S fuel) s
  = match parse_json_value fuel s with
    | Some (v, r) =>
        match skip_space r with
        | String ","%char r' =>
            match parse_json_items fuel r' with
            | Some (vs, r'') => Some (v :: vs, r'')
            | None => None
            end
        | String "]"%char r' => Some ([v], r')
        | _ => None
        end
    | None => None
    end.
Proof. reflexivity. Qed.

Lemma parse_json_props_last_rest (fuel : nat) (key : string) (x : number)
      (rest : string) :
  is_double x = true ->
  parse_json_chars (key +:+ dquote +:+ String ":"
                      (JSON_stringify_number x +:+ String "}" rest))
  = Some (key, String ":" (JSON_stringify_number x +:+ String "}" rest)) ->
  parse_json_props (S (S fuel))
    (quoted key +:+ String ":" (JSON_stringify_number x +:+ String "}" rest))
  = Some ([(key, json_of_number x)], rest).
Proof.
  intros Hx Hkey.
  unfold quoted. rewrite !append_assoc.
  change (dquote +:+ ?y) with (String (ascii_of_N 34) y) at 1.
  rewrite parse_json_props_unfold. cbn [skip_space].
  change (is_json_space (ascii_of_N 34)) with false. cbv iota.
  change (char_code (ascii_of_N 34) =? 34) with true. cbv iota.
  rewrite Hkey. cbn [skip_space].
  change (is_json_space ":") with false. cbv iota.
  rewrite parse_json_value_stringify_number by auto.
  cbn [skip_space]. change (is_json_space "}") with false. cbv iota.
  reflexivity.
Qed.

Lemma reading_text_member_rest (r : reading) (text rest : string) :
  JSON_stringify_member (r_population r) = Some text ->
  JSON_stringify_reading r +:+ rest
  = String "{" (quoted "temperature" +:+ String ":"
      (JSON_stringify_number (r_temperature r) +:+ String ","
        (quoted "humidity" +:+ String ":"
          (JSON_stringify_number (r_humidity r) +:+ String ","
            (quoted "fan_rpm" +:+ String ":"
              (JSON_stringify_number (r_fan_rpm r) +:+ String ","
                (quoted "population" +:+ String ":"
                  (text +:+ String "}" rest)))))))).
Proof.
  intros H. rewrite (reading_text_member r text H). unfold quoted.
  repeat (rewrite ?append_cons, ?append_assoc, ?append_nil_l). reflexivity.
Qed.

Lemma reading_text_function_rest (r : reading) (rest : string) :
  r_population r = Builtin BuiltinFunction ->
  JSON_stringify_reading r +:+ rest
  = String "{" (quoted "temperature" +:+ String ":"
      (JSON_stringify_number (r_temperature r) +:+ String ","
        (quoted "humidity" +:+ String ":"
          (JSON_stringify_number (r_humidity r) +:+ String ","
            (quoted "fan_rpm" +:+ String ":"
              (JSON_stringify_number (r_fan_rpm r) +:+ String "}" rest)))))).
Proof.
  intros H. rewrite (reading_text_function r H). unfold quoted.
  repeat (rewrite ?append_cons, ?append_assoc, ?append_nil_l). reflexivity.
Qed.

(** The JSON text of a reading, read back with text after it. *)
Lemma parse_json_value_reading_rest (fuel : nat) (r : reading) (rest : string) :
  reading_is_double r = true ->
  parse_json_value (S (S (S (S (S (S fuel)))))) (JSON_stringify_reading r +:+ rest)
  = Some (json_of_reading r, rest).
Proof.
  intros Hv. unfold reading_is_double in Hv.
  apply andb_prop in Hv as [Hv Hp]. apply andb_prop in Hv as [Hv Hf].
  apply andb_prop in Hv as [Ht Hh].
  unfold json_of_reading.
  destruct (r_population r) as [[| |n| | |]|[| |]] eqn:Hpop; try discriminate Hp;
    [rewrite (reading_text_member_rest r (JSON_stringify_number n))
       by (rewrite Hpop; reflexivity)
    |rewrite (reading_text_function_rest r rest Hpop)
    |rewrite (reading_text_member_rest r "{}") by (rewrite Hpop; reflexivity)
    |rewrite (reading_text_member_rest r "[]") by (rewrite Hpop; reflexivity)];
    (apply parse_json_object;
     [unfold quoted; rewrite !append_assoc; eexists; reflexivity|]);
    cbn [json_of_population app];
    (apply parse_json_props_number; [exact Ht | reflexivity |]);
    (apply parse_json_props_number; [exact Hh | reflexivity |]).
  - apply parse_json_props_number; [exact Hf | reflexivity |].
    apply parse_json_props_last_rest; [exact Hp | reflexivity].
  - apply (parse_json_props_last_rest (S fuel)); [exact Hf | reflexivity].
  - apply parse_json_props_number; [exact Hf | reflexivity |]. reflexivity.
  - apply parse_json_props_number; [exact Hf | reflexivity |]. reflexivity.
Qed.

Lemma array_of_number (fuel : nat) (c : ascii) (rest : string) :
  is_number_char c = true ->
  parse_json_value (S fuel) (String "[" (String c rest))
  = match parse_json_items fuel (String c rest) with
    | Some (vs, r') => Some (JArray vs, r')
    | None => None
    end.
Proof.
  intros H. destruct c as [[] [] [] [] [] [] [] []]; try discriminate H; reflexivity.
Qed.

Lemma String_length_app (a b : string) :
  String.length (a +:+ b) = (String.length a + String.length b)%nat.
Proof.
  induction a as [|c a IH]; [reflexivity|].
  rewrite append_cons. cbn [String.length]. rewrite IH. reflexivity.
Qed.

Lemma number_of_Z_finite (now : Z) :
  Z.abs now < 2 ^ 53 ->
  is_finite (number_of_Z now) = true /\
  drop_zero_sign (number_of_Z now) = number_of_Z now.
Proof.
  intros Hnow. destruct (Z.eq_dec now 0) as [->|Hne]; [split; reflexivity|].
  destruct (number_of_Z_exact now) as (m & e & -> & _); [lia|].
  split; reflexivity.
Qed.

(** The browser's decoding of a line that the telemetry handler wrote. *)
Lemma decode_line_written (now : Z) (r : reading) :
  Z.abs now < 2 ^ 53 -> reading_is_double r = true ->
  decode_line (log_line now r) = Some (number_of_Z now, json_of_reading r).
Proof.
  intros Hnow Hr.
  destruct (number_of_Z_is_double now Hnow) as [Hd _].
  destruct (number_of_Z_finite now Hnow) as [Hfin Hdrop].
  assert (Hline : log_line now r
                  = Number_toString (number_of_Z now)
                    +:+ String "," (JSON_stringify_reading r)) by reflexivity.
  set (x := number_of_Z now) in *.
  assert (Hts : Number_toString x = JSON_stringify_number x).
  { unfold JSON_stringify_number. rewrite Hfin. reflexivity. }
  set (tail := String "," (JSON_stringify_reading r +:+ "]")).
  assert (Htext : "[" +:+ log_line now r +:+ "]"
                  = String "[" (JSON_stringify_number x +:+ tail)).
  { rewrite Hline, Hts. unfold tail.
    repeat (rewrite ?append_cons, ?append_assoc, ?append_nil_l). reflexivity. }
  destruct (Number_toString_not_empty x Hd) as (c & r0 & Hhead & Hc).
  rewrite Hts in Hhead.
  assert (Hlen : exists n,
             String.length (String "[" (JSON_stringify_number x +:+ tail))
             = S (S (S (S (S (S (S (S n)))))))).
  { destruct (reading_text_length r) as [n Hn].
    exists (S (String.length r0 + n)).
    rewrite Hhead. unfold tail.
    cbn [String.length]. rewrite append_cons. cbn [String.length].
    rewrite !String_length_app. cbn [String.length]. rewrite String_length_app, Hn.
    cbn [String.length]. lia. }
  destruct Hlen as [n Hlen].
  unfold decode_line, JSON_parse. rewrite Htext, Hlen.
  assert (Hparse : parse_json_value (S (S (S (S (S (S (S (S (S n)))))))))
                     (String "[" (JSON_stringify_number x +:+ tail))
                   = Some (JArray [JNumber x; json_of_reading r], EmptyString)).
  { rewrite Hhead, append_cons, array_of_number by exact Hc.
    rewrite <- append_cons, <- Hhead.
    rewrite parse_json_items_unfold.
    rewrite parse_json_value_stringify_number by (auto; reflexivity).
    unfold tail. cbn [skip_space]. change (is_json_space ",") with false. cbv iota.
    rewrite parse_json_items_unfold.
    rewrite parse_json_value_reading_rest by exact Hr.
    cbn [skip_space]. change (is_json_space "]") with false. cbv iota.
    unfold json_of_number. rewrite Hfin, Hdrop. reflexivity. }
  rewrite Hparse. reflexivity.
Qed.

Lemma written_line_not_empty (line : string) :
  written_line line -> negb (String.eqb line EmptyString) = true.
Proof.
  intros (_ & (c & r & -> & _) & _). reflexivity.
Qed.

(** The browser splits an answer into the lines that were sent. *)
Lemma response_lines_join (lines : list string) :
  Forall written_line lines -> response_lines (join newline lines) = lines.
Proof.
  intros Hall. destruct lines as [|line rest]; [reflexivity|].
  unfold response_lines, trim.
  assert (Hhead : exists c r, line = String c r /\ is_number_char c = true).
  { inversion Hall as [|? ? (_ & H & _) _]. exact H. }
  rewrite (trimStart_join rest line Hhead).
  rewrite trimEnd_join; [|discriminate|].
  - rewrite split_join; [|discriminate|].
    + clear Hhead. induction Hall as [|l ls Hl _ IH]; [reflexivity|].
      cbn [List.filter]. rewrite (written_line_not_empty l Hl), IH. reflexivity.
    + eapply Forall_impl; [exact Hall|]. intros l (H & _). exact H.
  - eapply Forall_impl; [exact Hall|]. intros l (_ & _ & H). exact H.
Qed.

Lemma Forall2_elem_r {A B : Type} (R : A -> B -> Prop) (xs : list A) (ys : list B)
      (y : B) :
  Forall2 R xs ys -> y ∈ ys -> exists x, In x xs /\ R x y.
Proof.
  induction 1 as [|x y' xs ys HR _ IH]; intros Hin; [inversion Hin|].
  apply elem_of_cons in Hin as [->|Hin].
  - exists x. split; [left; reflexivity | exact HR].
  - destruct (IH Hin) as (x' & Hx' & HR'). exists x'. split; [right|]; assumption.
Qed.



(** X19. For a domain without a log the accepted history query is
    answered the JSON text of the empty array, which the browser takes
    for one line, and that line does not decode: the browser sees one
    line and no data, where an existing log without a line in range
    gives it no line at all. *)
Theorem browser_reads_one_line_for_a_missing_log
        (now : Z) (domain : string) (q : history_query) (st : server)
        (p : history_params) :
  history_parameters now q = inr p ->
  files st !! logFile domain = None ->
  exists body,
    history_text (get_history now domain q st) = Some body /\
    response_lines body = [body] /\
    decode_line body = None /\
    response_lines EmptyString = [].
Proof.
  intros Hq Hfile. exists "[]".
  unfold get_history. rewrite Hq, Hfile.
  split; [reflexivity|]. split; [reflexivity|]. split; reflexivity.
Qed.

Lemma browser_reads_one_line_witness :
  exists body,
    history_text (get_history 0 "nonexistent" example_query example_server)
    = Some body /\
    response_lines body = [body] /\
    decode_line body = None /\
    response_lines EmptyString = [].
Proof.
  apply (browser_reads_one_line_for_a_missing_log 0 "nonexistent" example_query
           example_server
           {| h_start := Some (number_of_Z 0); h_end := number_of_Z 40;
              h_step := number_of_Z 25 |}).
  - vm_compute. reflexivity.
  - vm_compute. reflexivity.
Defined.

(** ** Lines without a time *)

Lemma line_time_quoted (rest : string) :
  (2 <= length (split "," rest))%nat ->
  line_time (String (ascii_of_N 34) rest) = Some NaN.
Proof.
  intros Hlen. unfold line_time. cbn [split].
  change (Ascii.eqb (ascii_of_N 34) ",") with false. cbv iota.
  destruct (split "," rest) as [|h t] eqn:E; [cbn in Hlen; lia|].
  cbn [length] in *. apply Nat.leb_le in Hlen. rewrite Hlen. cbn [hd].
  reflexivity.
Qed.

(** X20. A line whose text before the first comma is no number is in
    range for every query: the loop never samples it, but it takes it
    for the last matching line, and for the first when there was none.
    Every line that begins with a double quote and has a comma, as the
    lines of the earlier server do, is such a line. *)
Theorem history_keeps_lines_without_a_time
        (p : history_params) (line : string) (acc : scan) :
  line <> EmptyString -> line_time line = Some NaN ->
  in_range p line = true /\
  result (scan_line p acc line) = result acc /\
  lastTime (scan_line p acc line) = lastTime acc /\
  lastMatchingLine (scan_line p acc line) = Some line /\
  firstMatchingLine (scan_line p acc line)
  = match firstMatchingLine acc with
    | None => Some line
    | f => f
    end /\
  forall rest, (2 <= length (split "," rest))%nat ->
               line_time (String (ascii_of_N 34) rest) = Some NaN.
Proof.
  intros Hne Ht.
  assert (Hin : in_range p line = true).
  { unfold in_range. destruct line as [|c r]; [congruence|]. rewrite Ht.
    assert (He : num_gt NaN (h_end p) = false) by (destruct (h_end p); reflexivity).
    rewrite He. destruct (h_start p); reflexivity. }
  split; [exact Hin|].
  destruct (scan_line_in p acc line Hin) as (time & Ht' & ->).
  rewrite Ht in Ht'. injection Ht' as <-.
  cbn [result lastTime lastMatchingLine firstMatchingLine].
  change (num_sub NaN (lastTime acc)) with NaN.
  change (num_ge NaN (h_step p)) with (SFleb (h_step p) NaN).
  assert (Hge : SFleb (h_step p) NaN = false) by (destruct (h_step p); reflexivity).
  rewrite Hge. repeat split; try reflexivity.
  apply line_time_quoted.
Qed.

Lemma history_keeps_lines_without_a_time_witness :
  in_range {| h_start := Some (number_of_Z 0); h_end := number_of_Z 40;
              h_step := number_of_Z 25 |} example_old_line = true /\
  result (scan_line {| h_start := Some (number_of_Z 0); h_end := number_of_Z 40;
                       h_step := number_of_Z 25 |} scan_start example_old_line)
  = result scan_start /\
  lastTime (scan_line {| h_start := Some (number_of_Z 0); h_end := number_of_Z 40;
                         h_step := number_of_Z 25 |} scan_start example_old_line)
  = lastTime scan_start /\
  lastMatchingLine (scan_line {| h_start := Some (number_of_Z 0);
                                 h_end := number_of_Z 40;
                                 h_step := number_of_Z 25 |}
                              scan_start example_old_line)
  = Some example_old_line /\
  firstMatchingLine (scan_line {| h_start := Some (number_of_Z 0);
                                  h_end := number_of_Z 40;
                                  h_step := number_of_Z 25 |}
                               scan_start example_old_line)
  = match firstMatchingLine scan_start with
    | None => Some example_old_line
    | f => f
    end /\
  forall rest, (2 <= length (split "," rest))%nat ->
               line_time (String (ascii_of_N 34) rest) = Some NaN.
Proof.
  apply (history_keeps_lines_without_a_time
           {| h_start := Some (number_of_Z 0); h_end := number_of_Z 40;
              h_step := number_of_Z 25 |} example_old_line scan_start).
  - discriminate.
  - vm_compute. reflexivity.
Defined.

(** ** The addresses printed at start *)

Lemma push_nodes (nodes : list network_node) (ips : list string) :
  fold_left (λ ips node,
               if negb (n_internal node) && String.eqb (n_family node) "IPv4"
               then ips ++ [n_address node] else ips) nodes ips
  = ips ++ map n_address (List.filter external_ipv4 nodes).
Proof.
  revert ips. induction nodes as [|node nodes IH]; intros ips; cbn [fold_left].
  - cbn. rewrite app_nil_r. reflexivity.
  - rewrite IH. cbn [List.filter]. unfold external_ipv4 at 2.
    destruct (negb (n_internal node) && String.eqb (n_family node) "IPv4").
    + cbn [map]. rewrite <- app_assoc. reflexivity.
    + reflexivity.
Qed.

Lemma push_interfaces (interfaces : list (option (list network_node)))
      (ips : list string) :
  fold_left
    (λ ips iface,
       match iface with
       | None => ips
       | Some nodes =>
           fold_left
             (λ ips node,
                if negb (n_internal node) && String.eqb (n_family node) "IPv4"
                then ips ++ [n_address node] else ips)
             nodes ips
       end)
    interfaces ips
  = ips ++ map n_address (List.filter external_ipv4 (all_nodes interfaces)).
Proof.
  revert ips. induction interfaces as [|iface interfaces IH]; intros ips;
    cbn [fold_left].
  - cbn. rewrite app_nil_r. reflexivity.
  - rewrite IH. unfold all_nodes. cbn [flat_map].
    rewrite List.filter_app, map_app.
    destruct iface as [nodes|]; cbn [default].
    + rewrite push_nodes, <- app_assoc. reflexivity.
    + reflexivity.
Qed.

(** X21. [getLocalIPs] returns the addresses of the nodes that are not
    internal and of family IPv4, in the order of the interfaces and of
    their nodes, and no other address; an undefined interface adds
    nothing. *)
Theorem getLocalIPs_lists_external_IPv4
        (interfaces : list (option (list network_node))) :
  getLocalIPs interfaces
  = map n_address (List.filter external_ipv4 (all_nodes interfaces)) /\
  (forall ip, In ip (getLocalIPs interfaces) <->
     exists nodes node,
       In (Some nodes) interfaces /\ In node nodes /\
       n_internal node = false /\ n_family node = "IPv4" /\
       n_address node = ip) /\
  getLocalIPs example_interfaces = ["192.168.1.20"].
Proof.
  assert (Heq : getLocalIPs interfaces
                = map n_address (List.filter external_ipv4 (all_nodes interfaces))).
  { unfold getLocalIPs. rewrite push_interfaces. reflexivity. }
  split; [exact Heq|]. split; [|reflexivity].
  intros ip. rewrite Heq, in_map_iff. split.
  - intros (node & Haddr & Hin). apply List.filter_In in Hin as [Hin Hext].
    unfold all_nodes in Hin. apply in_flat_map in Hin as (iface & Hif & Hnode).
    destruct iface as [nodes|]; [|destruct Hnode].
    unfold external_ipv4 in Hext. apply andb_prop in Hext as [Hint Hfam].
    apply negb_true_iff in Hint. apply String.eqb_eq in Hfam.
    exists nodes, node. auto.
  - intros (nodes & node & Hif & Hnode & Hint & Hfam & Haddr).
    exists node. split; [exact Haddr|]. apply List.filter_In. split.
    + unfold all_nodes. apply in_flat_map. exists (Some nodes). auto.
    + unfold external_ipv4. rewrite Hint, Hfam. reflexivity.
Qed.

(** ** What a unit is answered for a count of people *)

Lemma number_of_positive (p : positive) :
  Zpos p < 2 ^ 53 ->
  exists m,
    number_of_Z (Zpos p) = S754_finite false m (Zpos (digits2_pos p) - 53) /\
    bounded prec emax m (Zpos (digits2_pos p) - 53) = true.
Proof.
  intros Hp. unfold number_of_Z, binary_normalize.
  pose proof (digits2_pos_le p 53 ltac:(lia) Hp) as Hd.
  pose proof (Pos2Z.is_pos (digits2_pos p)) as Hpos.
  destruct (binary_round_exact false p 0 Hd ltac:(lia)) as (m & H1 & H2).
  rewrite Z.add_0_r in H1, H2. eauto.
Qed.

Lemma populationToFanPower_count (n : Z) :
  Z.abs n < 2 ^ 53 ->
  populationToFanPower (number_of_Z n)
  = if n <=? 0 then number_of_Z 0
    else if n =? 1 then num_div (number_of_Z 1) (number_of_Z 2)
    else number_of_Z 1.
Proof.
  intros Hn. destruct n as [|p|p].
  - reflexivity.
  - change (Zpos p <=? 0) with false. cbv iota.
    destruct (Pos.eq_dec p 1%positive) as [->|H1]; [reflexivity|].
    destruct (Pos.eq_dec p 2%positive) as [->|H2]; [reflexivity|].
    destruct (Pos.eq_dec p 3%positive) as [->|H3]; [reflexivity|].
    assert (Hne : (Zpos p =? 1) = false) by (apply Z.eqb_neq; lia).
    rewrite Hne.
    destruct (number_of_positive p ltac:(lia)) as (m & -> & Hb).
    rewrite clamp_finite_pos, num_lt_two.
    assert (Hd : 3 <= Zpos (digits2_pos p)).
    { rewrite digits2_pos_log2.
      pose proof (Z.log2_le_mono 4 (Zpos p) ltac:(lia)) as Hl.
      change (Z.log2 4) with 2 in Hl. lia. }
    assert (Hc : (-51 ?= Zpos (digits2_pos p) - 53) = Lt)
      by (apply Z.compare_lt_iff; lia).
    rewrite Hc. reflexivity.
  - assert (Hle : (Zneg p <=? 0) = true) by (apply Z.leb_le; lia).
    rewrite Hle.
    destruct (number_of_Z_exact (Zneg p) ltac:(simpl in *; lia)) as (m & e & -> & _).
    reflexivity.
Qed.

Lemma post_unit_answer_for_count
      (now : Z) (domain : string) (req : unit_request) (st : server) (n : Z) :
  payload_accepted req = true ->
  Z.abs n < 2 ^ 53 ->
  population_of (domains st) (unit_domain domain) = Json (JNumber (number_of_Z n)) ->
  (post_unit now domain req st).2 = OkOctets (answer_for_count n) /\
  readFloatLE (answer_for_count n) 0
  = Some (populationToFanPower (number_of_Z n)).
Proof.
  intros Hp Hn Hd.
  destruct (post_unit_accepted now domain req st Hp)
    as (t & h & f & _ & _ & _ & Heq).
  cbv zeta in Heq. rewrite Hd in Heq.
  change (actuation (Json (JNumber (number_of_Z n))))
    with (Some (populationToFanPower (number_of_Z n))) in Heq.
  rewrite Heq. cbn [snd].
  rewrite (populationToFanPower_count n Hn). unfold answer_for_count.
  destruct (n <=? 0); [split; reflexivity|].
  destruct (n =? 1); split; reflexivity.
Qed.

(** X22. A unit of a domain whose count of people,
    [domains[domain] ?? NaN], is an integer is answered the 32-bit float
    0 when the count is 0 or less, 0.5 when it is 1, and 1 when it is 2
    or more. *)
Theorem unit_is_answered_zero_half_or_one
        (now : Z) (domain : string) (req : unit_request) (st : server) (n : Z) :
  payload_accepted req = true ->
  Z.abs n < 2 ^ 53 ->
  population_of (domains st) (unit_domain domain) = Json (JNumber (number_of_Z n)) ->
  (post_unit now domain req st).2 = OkOctets (answer_for_count n) /\
  readFloatLE (answer_for_count n) 0
  = Some (populationToFanPower (number_of_Z n)).
Proof. apply post_unit_answer_for_count. Qed.

Lemma unit_is_answered_witness :
  (post_unit 1500 "a" example_unit_request example_busy_server).2
  = OkOctets (answer_for_count 1) /\
  readFloatLE (answer_for_count 1) 0
  = Some (populationToFanPower (number_of_Z 1)).
Proof.
  apply (unit_is_answered_zero_half_or_one 1500 "a" example_unit_request
           example_busy_server 1).
  - reflexivity.
  - reflexivity.
  - vm_compute. reflexivity.
Defined.

(** ** Status codes *)

(** A count that is a number, [null] or a text never makes the
    conversion throw. *)
Lemma actuation_of_primitive (o : object_value) (d : string) (v : json) :
  own_members o !! d = Some v ->
  match v with JArray _ | JObject _ => False | _ => True end ->
  actuation (population_of o d) <> None.
Proof.
  intros Hown Hv. unfold population_of, member. rewrite Hown.
  destruct v; try contradiction; discriminate.
Qed.

(** X23. The telemetry handler answers 400 to a payload that does not
    pass its test; to one that does it answers 200, unless the
    population [domains[domain] ?? NaN] is an object that does not
    convert to a number: then [populationToFanPower] throws and the
    answer is 500 (an object with a member [toString] is one, as in
    [{"valueOf":0,"toString":0}]).  The three reads of an accepted
    payload are within its bounds and throw nothing.  A count that is a
    number, [null], a boolean or a text never gives 500.  The detections
    handler answers 200 to a JSON body that is an object or an array,
    whatever its members, and 400 to anything else, and [/status] always
    answers 200. *)
Theorem status_codes_of_the_handlers :
  (forall (now : Z) (domain : string) (req : unit_request) (st : server),
      status_code (post_unit now domain req st).2
      = if payload_accepted req
        then match actuation (population_of (domains st) (unit_domain domain)) with
             | Some _ => 200
             | None => 500
             end
        else 400) /\
  (forall (o : object_value) (d : string) (v : json),
      own_members o !! d = Some v ->
      match v with JArray _ | JObject _ => False | _ => True end ->
      actuation (population_of o d) <> None) /\
  (forall (o : object_value) (d : string),
      own_members o !! d = None -> actuation (population_of o d) <> None) /\
  actuation (population_of
               (PlainObject {[ "a" := JObject [("valueOf", JNumber (number_of_Z 0));
                                               ("toString", JNumber (number_of_Z 0))] ]})
               "a") = None /\
  (forall (now : Z) (req : detections_request) (st : server),
      status_code (post_detections now req st).2
      = match d_is_json req, d_body req with
        | true, ObjectBody _ => 200
        | _, _ => 400
        end) /\
  (forall st : server, status_code (get_status st) = 200).
Proof.
  split; [|split; [|split; [|split; [|split]]]].
  - intros now domain req st. destruct (payload_accepted req) eqn:Hp.
    + destruct (post_unit_accepted now domain req st Hp)
        as (t & h & f & _ & _ & _ & Heq).
      cbv zeta in Heq. rewrite Heq.
      destruct (actuation _); reflexivity.
    + unfold post_unit. unfold payload_accepted in Hp.
      destruct (u_body req); [|reflexivity]. rewrite Hp. reflexivity.
  - exact actuation_of_primitive.
  - intros o d Hown.
    destruct (population_of_not_own o d Hown) as (power & -> & _). discriminate.
  - reflexivity.
  - intros now req st. unfold post_detections.
    destruct (d_is_json req); [|reflexivity].
    destruct (d_body req); reflexivity.
  - reflexivity.
Qed.

(** ** After the timeout *)

Lemma domains_after_timeout (st : server) (id : nat) (d : Z)
      (between : list (Z * request)) (later : Z) :
  pending st id d ->
  forallb (λ ev, negb (is_detections_post ev.2)) between = true ->
  d <= later ->
  domains (run_timers later (run between st)) = ∅.
Proof.
  intros Hp Hev Hle.
  destruct (run_waiting between st id d Hev (or_introl Hp))
    as [[_ Ht]|(_ & Ht & Hd)].
  - rewrite (run_timers_single later _ id d Ht).
    rewrite decide_True by exact Hle.
    apply (fire_timer_cleared _ id d Ht).
  - rewrite run_timers_none by exact Ht. exact Hd.
Qed.

(** Without detections every name, inherited or not, converts to NaN. *)
Lemma actuation_without_detections (d : string) :
  actuation (population_of ∅ d) = Some NaN.
Proof.
  unfold population_of, member.
  change (own_members ∅) with (∅ : gmap string json). rewrite lookup_empty.
  change (∅ : object_value) with (PlainObject ∅). cbv iota.
  unfold Object_prototype_member.
  destruct (String.eqb d "__proto__"); [reflexivity|].
  destruct (is_name_of Object_prototype_names d); reflexivity.
Qed.

(** X24. Once the delay of the timer has passed after the last
    detections post, every unit is answered the bytes of a 32-bit NaN,
    whatever count its domain had and whatever its name is, until
    detections arrive again. *)
Theorem units_are_answered_NaN_after_the_timeout
        (timeout : number) (fs : gmap string file) (before : list (Z * request))
        (now : Z) (req : detections_request) (detections : object_value)
        (between : list (Z * request)) (later : Z)
        (domain : string) (telemetry : unit_request) :
  d_is_json req = true -> d_body req = ObjectBody detections ->
  forallb (λ ev, negb (is_detections_post ev.2)) between = true ->
  now + timer_delay timeout <= later ->
  payload_accepted telemetry = true ->
  let st0 := run before (initial_server timeout fs) in
  let st1 := (serve now (PostDetections req) st0).1 in
  (serve later (PostUnit domain telemetry) (run between st1)).2
  = OkOctets [x00; x00; xc0; x7f].
Proof.
  intros Hj Hb Hev Hle Hacc st0 st1.
  assert (Hinv : timer_invariant (run_timers now st0)).
  { apply run_timers_invariant, run_invariant. left. split; reflexivity. }
  assert (Hto : detectionsTimeout (run_timers now st0) = timeout).
  { rewrite run_timers_timeout. unfold st0. rewrite run_timeout. reflexivity. }
  destruct (post_detections_pending now req (run_timers now st0) detections
              Hinv Hj Hb) as [id Hp].
  rewrite Hto in Hp.
  change (post_detections now req (run_timers now st0)).1 with st1 in Hp.
  pose proof (domains_after_timeout st1 id _ between later Hp Hev Hle) as Hd.
  unfold serve. cbn [handle].
  destruct (post_unit_accepted later domain telemetry
              (run_timers later (run between st1)) Hacc)
    as (t & h & f & _ & _ & _ & Heq).
  cbv zeta in Heq. rewrite Hd, actuation_without_detections in Heq.
  rewrite Heq. reflexivity.
Qed.

Lemma units_are_answered_NaN_witness :
  let st0 := run [] (initial_server (number_of_Z 10000) ∅) in
  let st1 := (serve 0 (PostDetections example_two_domains) st0).1 in
  (serve 12000 (PostUnit "b" example_unit_request)
         (run [(5000, PostUnit "b" example_unit_request)] st1)).2
  = OkOctets [x00; x00; xc0; x7f].
Proof.
  apply (units_are_answered_NaN_after_the_timeout (number_of_Z 10000) ∅ [] 0
           example_two_domains
           (PlainObject {[ "a" := JNumber (number_of_Z 1);
                           "b" := JNumber (number_of_Z 2) ]})
           [(5000, PostUnit "b" example_unit_request)] 12000 "b"
           example_unit_request).
  - reflexivity.
  - reflexivity.
  - reflexivity.
  - vm_compute. discriminate.
  - reflexivity.
Defined.

(** ** Sampling *)

Lemma downsample_spaced (step last : number) (lines : list string) :
  spaced step last (downsample step last lines).
Proof.
  revert last. induction lines as [|line rest IH]; intros last;
    cbn [downsample]; [exact I|].
  destruct (line_time line) as [time|] eqn:Ht; [|apply IH].
  destruct (num_ge (num_sub time last) step) eqn:Hge; [|apply IH].
  cbn [spaced]. exists time. split; [exact Ht|]. split; [exact Hge | apply IH].
Qed.

(** X25. The lines that the filter loop samples are at least [step]
    apart: whatever the log holds, each sampled line has a time, the
    difference to the time of the sampled line before it passed the test
    [>= step] (for the first, the difference to -Infinity), and the
    sampled lines are in-range lines of the log in the order of the
    log. *)
Theorem sampled_lines_are_a_step_apart (p : history_params) (lines : list string) :
  spaced (h_step p) neg_Infinity
         (result (fold_left (scan_line p) lines scan_start)) /\
  sublist (result (fold_left (scan_line p) lines scan_start))
          (matching_lines p lines).
Proof.
  destruct (fold_scan_line p lines scan_start) as (Hr & _ & _).
  cbv zeta in Hr. cbn [result scan_start app lastTime] in Hr. rewrite Hr.
  split; [apply downsample_spaced | apply downsample_sublist].
Qed.

(** ** The payload of the unit *)

Lemma byte_value_of_Z (z : Z) : byte_value (byte_of_Z z) = z mod 256.
Proof.
  unfold byte_value, byte_of_Z.
  pose proof (Z.mod_pos_bound z 256 ltac:(lia)) as Hb.
  destruct (Byte.of_N (Z.to_N (z mod 256))) as [b|] eqn:E.
  - apply Byte.to_of_N in E. rewrite E. lia.
  - apply Byte.of_N_None_iff in E. lia.
Qed.

Lemma uint32_le_word_bytes (w : Z) :
  0 <= w < 2 ^ 32 ->
  uint32_le (byte_of_Z w) (byte_of_Z (w / 2 ^ 8)) (byte_of_Z (w / 2 ^ 16))
            (byte_of_Z (w / 2 ^ 24)) = w.
Proof.
  intros Hw. unfold uint32_le. rewrite !byte_value_of_Z.
  change (2 ^ 8) with 256. change (2 ^ 16) with 65536.
  change (2 ^ 24) with 16777216. change (2 ^ 32) with 4294967296 in Hw.
  Z.div_mod_to_equations. lia.
Qed.

(** X26. The server reads the floats that the unit sent: the request
    that the unit builds from its status struct passes the payload test
    for every three floats, and the status entry that the telemetry
    handler stores holds, as doubles, exactly the three floats in the
    order temperature, humidity, fan_rpm, next to the population
    [domains[domain] ?? NaN] and its actuation.  (Nothing is stored when
    the population is an object that does not convert to a number: the
    handler throws.) *)
Theorem server_reads_the_floats_of_the_unit
        (now : Z) (domain : string) (st : server) (t h f : Z) :
  0 <= t < 2 ^ 32 -> 0 <= h < 2 ^ 32 -> 0 <= f < 2 ^ 32 ->
  payload_accepted (telemetry_request t h f) = true /\
  match actuation (population_of (domains st) (unit_domain domain)) with
  | Some power =>
      status (post_unit now domain (telemetry_request t h f) st).1
        !! unit_domain domain
      = Some {| population := population_of (domains st) (unit_domain domain);
                fan_power := Some power;
                temperature := Some (float32_of_bits t);
                humidity := Some (float32_of_bits h);
                fan_rpm := Some (float32_of_bits f) |}
  | None =>
      post_unit now domain (telemetry_request t h f) st = (st, Thrown "TypeError")
  end.
Proof.
  intros Ht Hh Hf. split; [reflexivity|].
  unfold post_unit, telemetry_request, word_bytes. fold (unit_domain domain).
  cbn [u_body u_content_type app].
  change (includes "application/octet-stream" (default "" (Some "application/octet-stream")))
    with true.
  cbn [length Nat.leb andb readFloatLE skipn].
  rewrite !uint32_le_word_bytes by assumption.
  destruct (actuation (population_of (domains st) (unit_domain domain)));
    [|reflexivity].
  cbn [fst status]. apply lookup_insert_eq.
Qed.

Lemma server_reads_the_floats_witness :
  payload_accepted (telemetry_request 1102839808 0 0) = true /\
  status (post_unit 0 "a" (telemetry_request 1102839808 0 0) example_server).1
    !! unit_domain "a"
  = Some {| population := population_of (domains example_server) (unit_domain "a");
            fan_power := Some NaN;
            temperature := Some (float32_of_bits 1102839808);
            humidity := Some (float32_of_bits 0);
            fan_rpm := Some (float32_of_bits 0) |}.
Proof.
  apply (server_reads_the_floats_of_the_unit 0 "a" example_server 1102839808 0 0);
    lia.
Defined.

(** ** A detections body that is an array *)

Lemma digits_value_decimal_digits (i : nat) :
  digits_value (decimal_digits (Z.of_nat i)) = Z.of_nat i /\
  all_chars is_digit (decimal_digits (Z.of_nat i)) = true.
Proof.
  destruct i as [|i]; [split; reflexivity|].
  destruct (decimal_digits_spec (Z.of_nat (S i)) ltac:(lia)) as (Hall & _ & Hval).
  split; assumption.
Qed.

Lemma array_own_member (items : list json) (i : nat) (x : json) :
  items !! i = Some x ->
  own_members (ArrayObject items) !! decimal_digits (Z.of_nat i) = Some x.
Proof.
  intros Hi. unfold own_members. apply elem_of_list_to_map_1.
  - rewrite fmap_imap. apply NoDup_alt. intros a b k Ha Hb.
    rewrite list_lookup_imap in Ha, Hb.
    destruct (items !! a); [|discriminate]. destruct (items !! b); [|discriminate].
    cbn [fmap option_fmap option_map compose fst] in Ha, Hb.
    injection Ha as Ha. injection Hb as Hb.
    apply Nat2Z.inj.
    rewrite <- (proj1 (digits_value_decimal_digits a)),
            <- (proj1 (digits_value_decimal_digits b)).
    rewrite Ha, Hb. reflexivity.
  - apply elem_of_lookup_imap. exists i, x. split; [reflexivity | exact Hi].
Qed.

Lemma array_own_keys (items : list json) (key : string) :
  is_Some (own_members (ArrayObject items) !! key) ->
  exists i x, key = decimal_digits (Z.of_nat i) /\ items !! i = Some x.
Proof.
  intros [v Hv]. unfold own_members in Hv.
  apply elem_of_list_to_map_2 in Hv.
  apply elem_of_lookup_imap in Hv as (i & x & Heq & Hi).
  injection Heq as -> ->. eauto.
Qed.

Lemma array_has_no_own_length (items : list json) :
  own_members (ArrayObject items) !! "length" = None.
Proof.
  destruct (own_members (ArrayObject items) !! "length") as [v|] eqn:E;
    [|reflexivity].
  destruct (array_own_keys items "length" (mk_is_Some _ _ E)) as (i & x & Hk & _).
  pose proof (proj2 (digits_value_decimal_digits i)) as Hd.
  rewrite <- Hk in Hd. discriminate Hd.
Qed.

(** X28. The detections handler takes an array for an object: it
    answers 200 and the array becomes the population object.  Its own
    keys are its indices, each with its element, and a unit whose domain
    is named [length] finds the number of elements as its population: it
    is answered 0 for the empty array, 0.5 for one element and 1 for two
    or more. *)
Theorem array_body_becomes_the_population_object
        (now : Z) (req : detections_request) (st : server) (items : list json)
        (later : Z) (telemetry : unit_request) :
  d_is_json req = true -> d_body req = ObjectBody (ArrayObject items) ->
  payload_accepted telemetry = true ->
  Z.of_nat (length items) < 2 ^ 53 ->
  let st1 := (post_detections now req st).1 in
  status_code (post_detections now req st).2 = 200 /\
  domains st1 = ArrayObject items /\
  (forall key, is_Some (own_members (domains st1) !! key) <->
               exists i x, key = decimal_digits (Z.of_nat i) /\ items !! i = Some x) /\
  (forall i x, items !! i = Some x ->
               own_members (domains st1) !! decimal_digits (Z.of_nat i) = Some x) /\
  population_of (domains st1) "length"
  = Json (JNumber (number_of_Z (Z.of_nat (length items)))) /\
  (post_unit later "length" telemetry st1).2
  = OkOctets (answer_for_count (Z.of_nat (length items))).
Proof.
  intros Hj Hb Hacc Hlen st1.
  assert (Hd : domains st1 = ArrayObject items).
  { unfold st1, post_detections. rewrite Hj, Hb. reflexivity. }
  assert (Hpop : population_of (domains st1) "length"
                 = Json (JNumber (number_of_Z (Z.of_nat (length items))))).
  { rewrite Hd. unfold population_of, member.
    rewrite array_has_no_own_length. reflexivity. }
  split; [unfold post_detections; rewrite Hj, Hb; reflexivity|].
  split; [exact Hd|]. rewrite Hd. split; [|split; [|split]].
  - intros key. split; [apply array_own_keys|].
    intros (i & x & -> & Hi). rewrite (array_own_member items i x Hi). eauto.
  - apply array_own_member.
  - rewrite <- Hd. exact Hpop.
  - apply (post_unit_answer_for_count later "length" telemetry st1
             (Z.of_nat (length items)) Hacc ltac:(lia) Hpop).
Qed.

Lemma array_body_witness :
  let st1 := (post_detections 0 example_array_post example_server).1 in
  status_code (post_detections 0 example_array_post example_server).2 = 200 /\
  domains st1 = ArrayObject example_items /\
  (forall key, is_Some (own_members (domains st1) !! key) <->
               exists i x, key = decimal_digits (Z.of_nat i) /\
                           example_items !! i = Some x) /\
  (forall i x, example_items !! i = Some x ->
               own_members (domains st1) !! decimal_digits (Z.of_nat i) = Some x) /\
  population_of (domains st1) "length"
  = Json (JNumber (number_of_Z (Z.of_nat (length example_items)))) /\
  (post_unit 1000 "length" example_unit_request st1).2
  = OkOctets (answer_for_count (Z.of_nat (length example_items))).
Proof.
  apply (array_body_becomes_the_population_object 0 example_array_post example_server
           example_items 1000 example_unit_request).
  - reflexivity.
  - reflexivity.
  - reflexivity.
  - reflexivity.
Defined.
